(** * Interview session orchestration

    A shallow embedding of the interview orchestration code of the
    front end:

    - [Api]            the records exchanged with the back end;
    - [InterviewAPI]   the typed REST wrappers of [lib/api];
    - [UseInterview]   the [useInterview] hook (local session mirror,
                       [loadExistingSession], [startInterview],
                       [sendAnswer], [endInterview]);
    - [InterviewPage]  the interview page that drives the hook
                       ([handleStartInterview], [checkAndStartInterview],
                       [handleSendMessage], [handleEndInterview]);
    - [InterviewsPage] the session list page (sorting by creation time
                       and the possible-duplicate flag);
    - [Sse], [UseStreamingChat], [ChatAPI], [ResumeEditPage]
                       the readers of the chat stream and the chat of
                       the resume editor;
    - [InterviewsList] the session list page (gathering the sessions
                       and deleting one).

    Asynchronous operations are written in an effect monad that threads
    the component state, records every observable effect (REST call,
    [onMessage], [onError], [confirm], toast) in a trace, and carries
    JavaScript's abrupt completion ([throw]) with [try]/[catch]/[finally].
    The answer of the back end to an awaited call is an argument of the
    operation, so every theorem quantifies over what the back end may
    answer.

    Conventions.  JavaScript numbers that hold identifiers, indices and
    epoch milliseconds are integers ([Z]); array lengths are [nat] and
    are injected with [Z.of_nat] where the code compares them with a
    number.  A string holds the UTF-8 encoding of the JavaScript
    string.  A timestamp field holds the value that
    [new Date(created_at).getTime()] yields.  The [id] and [timestamp]
    of a chat message come from the clock and a random generator and are
    not part of the model. *)

From Stdlib Require Import ZArith String Ascii List Bool Lia.
From Stdlib Require Import DecimalString.
From Stdlib Require Import Sorting.Sorted Sorting.Permutation.
Import ListNotations.

Local Open Scope string_scope.
Local Open Scope Z_scope.
Local Open Scope list_scope.

(* ------------------------------------------------------------------ *)
(** ** JavaScript values used by the code *)

Module Js.

(** The line feed that [\n] denotes inside a template literal. *)
Definition nl : string := String (ascii_of_nat 10) EmptyString.

(** [hay.includes(needle)]. *)
Definition includes (hay needle : string) : bool :=
  match String.index 0 needle hay with
  | Some _ => true
  | None => false
  end.

(** [`${n}`] for an integer [n]. *)
Definition show (n : Z) : string := NilZero.string_of_int (Z.to_int n).

(** [s || d] on strings: the empty string is falsy. *)
Definition or_string (s d : string) : string :=
  if (s =? "")%string then d else s.

(** [s || d] where [s] may be [undefined]. *)
Definition or_default (s : option string) (d : string) : string :=
  match s with
  | Some v => or_string v d
  | None => d
  end.

(** [n || d] on numbers: [0] and [undefined] are falsy. *)
Definition or_number (n : option Z) (d : Z) : Z :=
  match n with
  | Some v => if v =? 0 then d else v
  | None => d
  end.

(** Truthiness of [number | null]. *)
Definition truthy_id (n : option Z) : bool :=
  match n with
  | Some v => negb (v =? 0)
  | None => false
  end.

(** [a || []]. *)
Definition or_empty {A : Type} (a : option (list A)) : list A :=
  match a with
  | Some l => l
  | None => []
  end.

(** A string of the model holds the UTF-8 encoding of the JavaScript
    string, one byte per character of the model.  [trim] removes the
    code points of [WhiteSpace] and [LineTerminator]; in UTF-8 they take
    one, two or three bytes. *)
Definition code (c : ascii) : nat := nat_of_ascii c.

(** U+0009 to U+000D and U+0020. *)
Definition is_space (c : ascii) : bool :=
  ((9 <=? code c)%nat && (code c <=? 13)%nat) || (code c =? 32)%nat.

(** U+00A0, encoded as C2 A0. *)
Definition is_space2 (a b : ascii) : bool :=
  (code a =? 194)%nat && (code b =? 160)%nat.

(** U+1680 (E1 9A 80); U+2000 to U+200A, U+2028, U+2029 and U+202F
    (E2 80 80 to E2 80 8A, E2 80 A8, E2 80 A9, E2 80 AF); U+205F
    (E2 81 9F); U+3000 (E3 80 80); U+FEFF (EF BB BF). *)
Definition is_space3 (a b c : ascii) : bool :=
  ((code a =? 225)%nat && (code b =? 154)%nat && (code c =? 128)%nat)
  || ((code a =? 226)%nat && (code b =? 128)%nat
      && (((128 <=? code c)%nat && (code c <=? 138)%nat)
          || (code c =? 168)%nat || (code c =? 169)%nat || (code c =? 175)%nat))
  || ((code a =? 226)%nat && (code b =? 129)%nat && (code c =? 159)%nat)
  || ((code a =? 227)%nat && (code b =? 128)%nat && (code c =? 128)%nat)
  || ((code a =? 239)%nat && (code b =? 187)%nat && (code c =? 191)%nat).

Fixpoint trimStart (s : string) : string :=
  match s with
  | EmptyString => EmptyString
  | String a r =>
      if is_space a then trimStart r
      else
        match r with
        | String b r2 =>
            if is_space2 a b then trimStart r2
            else
              match r2 with
              | String c r3 => if is_space3 a b c then trimStart r3 else s
              | EmptyString => s
              end
        | EmptyString => s
        end
  end.

(** [blank s]: [s] consists of white space only. *)
Definition blank (s : string) : bool := (trimStart s =? "")%string.

(** The longest blank suffix is dropped.  A suffix that begins inside a
    code point begins with a continuation byte and is not blank. *)
Fixpoint trimEnd (s : string) : string :=
  match s with
  | EmptyString => EmptyString
  | String c r => if blank s then EmptyString else String c (trimEnd r)
  end.

Definition trim (s : string) : string := trimEnd (trimStart s).

(** What a [catch] clause may receive: an [Error] with its message, or
    any other thrown value. *)
Inductive Thrown : Type :=
| Error (message : string)
| NonError.

(** [error instanceof Error ? error.message : d]. *)
Definition message_or (e : Thrown) (d : string) : string :=
  match e with
  | Error m => m
  | NonError => d
  end.

(** The three ways a [fetch] of a JSON endpoint ends. *)
Inductive FetchResult (A : Type) : Type :=
| Rejected (e : Thrown)                 (* the promise rejects: no response *)
| NotOk (status : Z) (detail : string)  (* [!response.ok]; [detail] is
                                           [errorData.detail], empty when absent *)
| Ok (body : A).                        (* [response.ok] with its JSON body *)

Arguments Rejected {A} e.
Arguments NotOk {A} status detail.
Arguments Ok {A} body.

End Js.

(* ------------------------------------------------------------------ *)
(** ** Records exchanged with the back end ([lib/api]) *)

Module Api.

Record Question : Type := mkQuestion {
  question : string;
  question_type : string
}.

(** One stored answer; [question_index] is the index it was given for. *)
Record Answer : Type := mkAnswer {
  answer : string;
  evaluation : string;
  question_index : Z
}.

(** [interface InterviewSession] of the API layer.  [questions] and
    [answers] may be missing from a response, which the callers guard
    with [|| []]. *)
Record InterviewSession : Type := mkSession {
  id : Z;
  resume_id : Z;
  job_position : string;
  interview_mode : string;
  jd_content : string;
  questions : option (list Question);
  answers : option (list Answer);
  status : string;
  created_at : Z;
  updated_at : Z
}.

Record InterviewConfig : Type := mkConfig {
  cfg_job_position : string;
  cfg_interview_mode : string;
  cfg_jd_content : string;
  cfg_question_count : Z
}.

(** Result of [getNextInterviewQuestion]. *)
Record NextQuestion : Type := mkNextQuestion {
  nq_question : string;
  nq_question_type : string;
  nq_question_index : Z
}.

(** Result of [submitInterviewAnswer]. *)
Record Evaluation : Type := mkEvaluation {
  ev_question : string;
  ev_answer : string;
  ev_evaluation : string;
  ev_score : Z;
  ev_feedback : string;
  ev_suggestions : list string
}.

(** The REST calls of [InterviewAPI], with their arguments. *)
Inductive Request : Type :=
| GetInterviewSessions (resumeId : Z)
| StartInterview (resumeId : Z) (config : InterviewConfig)
| EndInterview (resumeId sessionId : Z)
| GetNextInterviewQuestion (resumeId sessionId : Z)
| SubmitInterviewAnswer (resumeId sessionId : Z) (answer : string) (questionIndex : Z).

End Api.

(* ------------------------------------------------------------------ *)
(** ** Observable effects and the effect monad *)

Inductive Role : Type := user | ai.

Record ChatMessage : Type := mkMessage {
  type : Role;
  content : string
}.

Inductive ToastKind : Type := success | failure.

Inductive Event : Type :=
| Call (r : Api.Request)               (* a request leaves for the back end *)
| OnMessage (m : ChatMessage)          (* [onMessage(m)]: a transcript message *)
| OnError (e : string)                 (* [onError(e)]: an error shown to the caller *)
| Confirm (prompt : string)            (* a blocking [confirm(prompt)] *)
| Toast (k : ToastKind) (text : string).

Inductive Completion (A : Type) : Type :=
| Normal (a : A)
| Abrupt (e : Js.Thrown).

Arguments Normal {A} a.
Arguments Abrupt {A} e.

(** An operation over component state [S]: its completion, the state it
    leaves and the effects it performed, oldest first. *)
Definition Eff (S A : Type) : Type := S -> Completion A * S * list Event.

Module Eff.

Definition ret {S A} (a : A) : Eff S A := fun s => (Normal a, s, []).

Definition bind {S A B} (m : Eff S A) (k : A -> Eff S B) : Eff S B :=
  fun s =>
    match m s with
    | (Normal a, s1, t1) =>
        match k a s1 with
        | (c, s2, t2) => (c, s2, t1 ++ t2)
        end
    | (Abrupt e, s1, t1) => (Abrupt e, s1, t1)
    end.

Definition get {S} : Eff S S := fun s => (Normal s, s, []).

(** A state setter called with an updater function. *)
Definition modify {S} (f : S -> S) : Eff S unit := fun s => (Normal tt, f s, []).

Definition emit {S} (e : Event) : Eff S unit := fun s => (Normal tt, s, [e]).

Definition throw {S A} (e : Js.Thrown) : Eff S A := fun s => (Abrupt e, s, []).

(** [try { body } catch (error) { handler error }]. *)
Definition try_catch {S A} (body : Eff S A) (handler : Js.Thrown -> Eff S A) : Eff S A :=
  fun s =>
    match body s with
    | (Normal a, s1, t1) => (Normal a, s1, t1)
    | (Abrupt e, s1, t1) =>
        match handler e s1 with
        | (c, s2, t2) => (c, s2, t1 ++ t2)
        end
    end.

(** [try { body } finally { cleanup }]: the cleanup runs on both
    completions; when it completes normally the completion of the body
    stands. *)
Definition finally {S A} (body : Eff S A) (cleanup : Eff S unit) : Eff S A :=
  fun s =>
    match body s with
    | (c, s1, t1) =>
        match cleanup s1 with
        | (Normal _, s2, t2) => (c, s2, t1 ++ t2)
        | (Abrupt e, s2, t2) => (Abrupt e, s2, t1 ++ t2)
        end
    end.

(** Run an operation of a sub-component on its part of the state. *)
Definition zoom {S T A} (proj : T -> S) (inj : S -> T -> T) (m : Eff S A) : Eff T A :=
  fun t =>
    match m (proj t) with
    | (c, s1, tr) => (c, inj s1 t, tr)
    end.

Definition completion {S A} (r : Completion A * S * list Event) : Completion A := fst (fst r).
Definition state {S A} (r : Completion A * S * list Event) : S := snd (fst r).
Definition trace {S A} (r : Completion A * S * list Event) : list Event := snd r.

End Eff.

Declare Scope eff_scope.
Delimit Scope eff_scope with eff.
Notation "x <- m ;; k" := (Eff.bind m (fun x => k))
  (at level 61, m at next level, right associativity) : eff_scope.
Notation "m ;; k" := (Eff.bind m (fun _ => k))
  (at level 61, right associativity) : eff_scope.

(** The requests a trace contains, in order. *)
Fixpoint calls (t : list Event) : list Api.Request :=
  match t with
  | [] => []
  | Call r :: t' => r :: calls t'
  | _ :: t' => calls t'
  end.

(** The transcript messages a trace contains, in order. *)
Fixpoint messages_of (t : list Event) : list ChatMessage :=
  match t with
  | [] => []
  | OnMessage m :: t' => m :: messages_of t'
  | _ :: t' => messages_of t'
  end.

(** The errors a trace surfaces through [onError], in order. *)
Fixpoint errors_of (t : list Event) : list string :=
  match t with
  | [] => []
  | OnError e :: t' => e :: errors_of t'
  | _ :: t' => errors_of t'
  end.

(** The prompts a trace puts to the user, in order. *)
Fixpoint prompts_of (t : list Event) : list string :=
  match t with
  | [] => []
  | Confirm p :: t' => p :: prompts_of t'
  | _ :: t' => prompts_of t'
  end.

(* ------------------------------------------------------------------ *)
(** ** The REST wrappers of [InterviewAPI]

    Each wrapper sends its request and turns the response into a value
    or a thrown [Error]; [r] is what the [fetch] ends with. *)

Module InterviewAPI.

Import Js.

(** [handleApiResponse]: a response that is not ok throws
    [errorData.detail || `API请求失败: ${response.status}`].  When the
    [fetch] is rejected there is no response to handle: the rejection
    leaves the wrapper from its [await]. *)
Definition handleApiResponse {S A : Type} (r : FetchResult A) : Eff S A :=
  match r with
  | Rejected e => Eff.throw e
  | NotOk status detail =>
      Eff.throw (Error (or_string detail ("API请求失败: " ++ show status)%string))
  | Ok body => Eff.ret body
  end.

Definition getInterviewSessions {S : Type} (resumeId : Z)
    (r : FetchResult (list Api.InterviewSession)) : Eff S (list Api.InterviewSession) :=
  (Eff.emit (Call (Api.GetInterviewSessions resumeId)) ;;
   handleApiResponse r)%eff.

Definition startInterview {S : Type} (resumeId : Z) (config : Api.InterviewConfig)
    (r : FetchResult Api.InterviewSession) : Eff S Api.InterviewSession :=
  (Eff.emit (Call (Api.StartInterview resumeId config)) ;;
   handleApiResponse r)%eff.

(** [endInterview] has no body to read: a response that is not ok
    throws [errorData.detail || `结束面试失败: ${response.status}`]. *)
Definition endInterview {S : Type} (resumeId sessionId : Z)
    (r : FetchResult unit) : Eff S unit :=
  (Eff.emit (Call (Api.EndInterview resumeId sessionId)) ;;
   match r with
   | Rejected e => Eff.throw e
   | NotOk status detail =>
       Eff.throw (Error (or_string detail ("结束面试失败: " ++ show status)%string))
   | Ok _ => Eff.ret tt
   end)%eff.

Definition getNextInterviewQuestion {S : Type} (resumeId sessionId : Z)
    (r : FetchResult Api.NextQuestion) : Eff S Api.NextQuestion :=
  (Eff.emit (Call (Api.GetNextInterviewQuestion resumeId sessionId)) ;;
   handleApiResponse r)%eff.

Definition submitInterviewAnswer {S : Type} (resumeId sessionId : Z)
    (answer : string) (questionIndex : Z)
    (r : FetchResult Api.Evaluation) : Eff S Api.Evaluation :=
  (Eff.emit (Call (Api.SubmitInterviewAnswer resumeId sessionId answer questionIndex)) ;;
   handleApiResponse r)%eff.

End InterviewAPI.

(* ------------------------------------------------------------------ *)
(** ** The [useInterview] hook *)

Module UseInterview.

Import Js.

Inductive Status : Type := active | completed | paused.

(** The local mirror of a session ([interface InterviewSession] of the
    hook). *)
Record InterviewSession : Type := mkSession {
  id : Z;
  resumeId : Z;
  status : Status;
  startTime : Z;
  questions : list Api.Question;
  answers : list Api.Answer;
  currentQuestionIndex : Z
}.

(** The options the hook reads.  [interviewMode] is held after its
    default has been applied. *)
Record Options : Type := mkOptions {
  interviewMode : string;
  jobPosition : option string;
  jdContent : option string;
  existingSessionId : option Z
}.

(** The [useState] cells of the hook. *)
Record State : Type := mkState {
  isInterviewActive : bool;
  currentSession : option InterviewSession;
  isLoading : bool;
  currentStreamingMessage : string;
  hasAutoLoaded : bool
}.

Definition initial : State :=
  {| isInterviewActive := false;
     currentSession := None;
     isLoading := false;
     currentStreamingMessage := "";
     hasAutoLoaded := false |}.

Definition setIsInterviewActive (b : bool) : Eff State unit :=
  Eff.modify (fun s =>
    {| isInterviewActive := b;
       currentSession := currentSession s;
       isLoading := isLoading s;
       currentStreamingMessage := currentStreamingMessage s;
       hasAutoLoaded := hasAutoLoaded s |}).

(** [setCurrentSession] with an updater; a plain value [v] is the
    updater [fun _ => v]. *)
Definition setCurrentSession
    (f : option InterviewSession -> option InterviewSession) : Eff State unit :=
  Eff.modify (fun s =>
    {| isInterviewActive := isInterviewActive s;
       currentSession := f (currentSession s);
       isLoading := isLoading s;
       currentStreamingMessage := currentStreamingMessage s;
       hasAutoLoaded := hasAutoLoaded s |}).

Definition setIsLoading (b : bool) : Eff State unit :=
  Eff.modify (fun s =>
    {| isInterviewActive := isInterviewActive s;
       currentSession := currentSession s;
       isLoading := b;
       currentStreamingMessage := currentStreamingMessage s;
       hasAutoLoaded := hasAutoLoaded s |}).

Definition setCurrentStreamingMessage (m : string) : Eff State unit :=
  Eff.modify (fun s =>
    {| isInterviewActive := isInterviewActive s;
       currentSession := currentSession s;
       isLoading := isLoading s;
       currentStreamingMessage := m;
       hasAutoLoaded := hasAutoLoaded s |}).

Definition setHasAutoLoaded (b : bool) : Eff State unit :=
  Eff.modify (fun s =>
    {| isInterviewActive := isInterviewActive s;
       currentSession := currentSession s;
       isLoading := isLoading s;
       currentStreamingMessage := currentStreamingMessage s;
       hasAutoLoaded := b |}).

Definition stableOnMessage (t : Role) (text : string) : Eff State unit :=
  Eff.emit (OnMessage {| type := t; content := text |}).

Definition stableOnError (e : string) : Eff State unit :=
  Eff.emit (OnError e).

(** *** Message texts *)

Definition continueText (answeredCount totalQuestions : nat) (currentQuestion : string) : string :=
  ("欢迎回到面试！您已完成 " ++ show (Z.of_nat answeredCount) ++ "/"
   ++ show (Z.of_nat totalQuestions) ++ " 题。让我们继续您的面试。"
   ++ nl ++ nl ++ "**当前问题：**" ++ nl ++ currentQuestion)%string.

Definition allAnsweredText (answeredCount totalQuestions : nat) : string :=
  ("欢迎回到面试！您已完成所有预设问题 " ++ show (Z.of_nat answeredCount) ++ "/"
   ++ show (Z.of_nat totalQuestions)
   ++ "。我可以为您提出一些深入的问题，或者您可以选择结束面试。请告诉我您想继续还是结束面试？")%string.

Definition defaultContinueText : string := "欢迎回到面试！让我们继续您的面试。".

Definition modeName (interviewMode : string) : string :=
  if (interviewMode =? "comprehensive")%string then "综合面试"
  else if (interviewMode =? "technical")%string then "技术面试"
  else "行为面试".

Definition welcomeText (interviewMode firstQuestion : string) : string :=
  ("您好！我是您的AI面试官。今天我将基于您的简历为您进行" ++ modeName interviewMode
   ++ "。" ++ nl ++ nl ++ firstQuestion)%string.

Definition fallbackWelcomeText : string :=
  "您好！我是您的AI面试官。今天我将基于您的简历进行模拟面试。请先做一个简单的自我介绍，包括您的姓名、职位和主要工作经验。".

(** The message sent when every preset question has been answered: it
    offers to end the interview or to go on with further questions. *)
Definition allPresetCompleteText : string :=
  ("感谢您的回答！您已经完成了所有预设的面试问题。" ++ nl ++ nl
   ++ "🎉 恭喜您完成面试！您可以选择结束面试查看详细报告，或者我可以为您提出一些额外的深入问题。请告诉我您的选择。")%string.

Definition nextQuestionText : string := "好的，让我们继续下一个问题。".

Definition endText (answered : nat) (minutes : Z) : string :=
  ("面试结束！感谢您的参与。" ++ nl ++ nl
   ++ "**面试问题数**: " ++ show (Z.of_nat answered) ++ nl
   ++ "**面试时长**: " ++ show minutes ++ " 分钟" ++ nl ++ nl
   ++ "您可以回到简历编辑页面继续优化简历，或查看面试反馈报告。")%string.

(** [Math.floor((now - startTime) / 1000 / 60)]: the two quotients are
    taken exactly and the result is rounded down once. *)
Definition elapsedMinutes (now startTime : Z) : Z := (now - startTime) / 60000.

Definition sessionCompletedError : string := "该面试已经完成，无法继续".
Definition sessionMissingError : string := "面试会话不存在".
Definition endFailedError : string := "结束面试时出现错误".

Definition loadErrorText (errorMessage : string) : string :=
  if includes errorMessage "404" then "面试会话不存在或已被删除"
  else if includes errorMessage "403" then "无权限访问该面试会话"
  else if includes errorMessage "Failed to fetch" then "网络连接失败，请检查网络连接后重试"
  else ("加载面试会话失败: " ++ errorMessage)%string.

Definition sendErrorText (error : Thrown) : string :=
  match error with
  | Error message =>
      if includes message "Load failed" || includes message "fetch"
      then "网络连接失败，请检查后端服务是否运行"
      else if includes message "Failed to fetch"
      then "无法连接到服务器，请检查网络连接"
      else message
  | NonError => "Unknown error"
  end.

Section Hook.

(** [useInterview(resumeId, options)]. *)
Variable hookResumeId : Z.
Variable options : Options.

(** [loadExistingSession(sessionId)]; [sessionsResp] answers the
    request for the session list. *)
Definition loadExistingSession (sessionId : Z)
    (sessionsResp : FetchResult (list Api.InterviewSession))
    : Eff State (option InterviewSession) :=
  (setIsLoading true ;;
   Eff.finally
     (Eff.try_catch
        (sessions <- InterviewAPI.getInterviewSessions hookResumeId sessionsResp ;;
         match find (fun s => Api.id s =? sessionId) sessions with
         | None => Eff.throw (Error sessionMissingError)
         | Some existingSession =>
             if (Api.status existingSession =? "completed")%string then
               stableOnError sessionCompletedError ;;
               Eff.ret None
             else
               let answeredCount := length (or_empty (Api.answers existingSession)) in
               let totalQuestions := length (or_empty (Api.questions existingSession)) in
               let currentQuestionIndex := answeredCount in
               let session :=
                 {| id := sessionId;
                    resumeId := hookResumeId;
                    status := active;
                    startTime := Api.created_at existingSession;
                    questions := or_empty (Api.questions existingSession);
                    answers := or_empty (Api.answers existingSession);
                    currentQuestionIndex := Z.of_nat currentQuestionIndex |} in
               setCurrentSession (fun _ => Some session) ;;
               setIsInterviewActive true ;;
               (if (currentQuestionIndex <? totalQuestions)%nat then
                  let currentQuestion :=
                    match nth_error (or_empty (Api.questions existingSession))
                                    currentQuestionIndex with
                    | Some q => Api.question q
                    | None => "undefined"
                    end in
                  stableOnMessage ai (continueText answeredCount totalQuestions currentQuestion)
                else if (answeredCount =? totalQuestions)%nat && (0 <? totalQuestions)%nat then
                  stableOnMessage ai (allAnsweredText answeredCount totalQuestions)
                else
                  stableOnMessage ai defaultContinueText) ;;
               Eff.ret (Some session)
         end)
        (fun error =>
           let errorMessage := message_or error "Unknown error" in
           stableOnError (loadErrorText errorMessage) ;;
           Eff.ret None))
     (setIsLoading false))%eff.


(** The effect that loads the session named in the options once. *)
Definition autoLoad (sessionsResp : FetchResult (list Api.InterviewSession))
    : Eff State unit :=
  (st <- Eff.get ;;
   match existingSessionId options with
   | Some sessionId =>
       if truthy_id (existingSessionId options) && negb (hasAutoLoaded st)
          && negb (isInterviewActive st) && negb (isLoading st)
          && negb (hookResumeId =? 0)
       then
         setHasAutoLoaded true ;;
         _ <- loadExistingSession sessionId sessionsResp ;;
         Eff.ret tt
       else Eff.ret tt
   | None => Eff.ret tt
   end)%eff.

(** [startInterview(jdContent, questionCount)].  [sessionsResp] answers
    the session list request of a reload, [startResp] the creation
    request and [questionResp] the request for the first question; [now]
    is the clock read by [new Date()]. *)
Definition startInterview (jdContent : option string) (questionCount : option Z)
    (now : Z)
    (sessionsResp : FetchResult (list Api.InterviewSession))
    (startResp : FetchResult Api.InterviewSession)
    (questionResp : FetchResult Api.NextQuestion)
    : Eff State (option InterviewSession) :=
  (st <- Eff.get ;;
   if isInterviewActive st then
     Eff.ret (currentSession st)
   else if truthy_id (existingSessionId options) && negb (hasAutoLoaded st) then
     Eff.ret None
   else if truthy_id (existingSessionId options) && hasAutoLoaded st then
     match existingSessionId options with
     | Some sessionId => loadExistingSession sessionId sessionsResp
     | None => Eff.ret None
     end
   else
     setIsLoading true ;;
     Eff.finally
       (Eff.try_catch
          (backendSession <-
             InterviewAPI.startInterview hookResumeId
               {| Api.cfg_job_position := or_default (jobPosition options) "未指定职位";
                  Api.cfg_interview_mode := interviewMode options;
                  Api.cfg_jd_content := or_default jdContent "";
                  Api.cfg_question_count := or_number questionCount 10 |}
               startResp ;;
           let session :=
             {| id := Api.id backendSession;
                resumeId := hookResumeId;
                status := active;
                startTime := now;
                questions := or_empty (Api.questions backendSession);
                answers := or_empty (Api.answers backendSession);
                currentQuestionIndex := 0 |} in
           setCurrentSession (fun _ => Some session) ;;
           setIsInterviewActive true ;;
           Eff.try_catch
             (firstQuestion <-
                InterviewAPI.getNextInterviewQuestion hookResumeId
                  (Api.id backendSession) questionResp ;;
              stableOnMessage ai
                (welcomeText (interviewMode options) (Api.nq_question firstQuestion)) ;;
              setCurrentSession (fun prev =>
                match prev with
                | Some p =>
                    Some {| id := id p;
                            resumeId := resumeId p;
                            status := status p;
                            startTime := startTime p;
                            questions := questions p;
                            answers := answers p;
                            currentQuestionIndex := Api.nq_question_index firstQuestion |}
                | None => None
                end))
             (fun _ => stableOnMessage ai fallbackWelcomeText) ;;
           Eff.ret (Some session))
          (fun error =>
             stableOnError (message_or error "Unknown error") ;;
             Eff.ret None))
       (setIsLoading false))%eff.

(** [sendAnswer(answer)]; [evalResp] answers the submission when it is
    made. *)
Definition sendAnswer (answer : string) (evalResp : FetchResult Api.Evaluation)
    : Eff State unit :=
  (st <- Eff.get ;;
   match currentSession st with
   | None => Eff.ret tt
   | Some session =>
       if negb (isInterviewActive st) then Eff.ret tt
       else
         setIsLoading true ;;
         Eff.finally
           (Eff.try_catch
              (stableOnMessage user answer ;;
               if currentQuestionIndex session >=? Z.of_nat (length (questions session)) then
                 stableOnMessage ai allPresetCompleteText
               else
                 evaluation <-
                   InterviewAPI.submitInterviewAnswer hookResumeId (id session) answer
                     (currentQuestionIndex session) evalResp ;;
                 stableOnMessage ai (or_string (Api.ev_feedback evaluation) nextQuestionText) ;;
                 setCurrentSession (fun prev =>
                   match prev with
                   | Some p =>
                       Some {| id := id p;
                               resumeId := resumeId p;
                               status := status p;
                               startTime := startTime p;
                               questions := questions p;
                               answers :=
                                 answers p ++
                                 [ {| Api.answer := answer;
                                      Api.evaluation := Api.ev_evaluation evaluation;
                                      Api.question_index := currentQuestionIndex session |} ];
                               currentQuestionIndex := currentQuestionIndex p + 1 |}
                   | None => None
                   end))
              (fun error => stableOnError (sendErrorText error)))
           (setIsLoading false ;;
            setCurrentStreamingMessage "")
   end)%eff.

(** [endInterview()]; [endResp] answers the request that marks the
    session completed and [now] is the clock read by [Date.now()]. *)
Definition endInterview (now : Z) (endResp : FetchResult unit) : Eff State unit :=
  (st <- Eff.get ;;
   match currentSession st with
   | None => Eff.ret tt
   | Some session =>
       Eff.try_catch
         (InterviewAPI.endInterview hookResumeId (id session) endResp ;;
          setIsInterviewActive false ;;
          stableOnMessage ai
            (endText (length (answers session)) (elapsedMinutes now (startTime session))) ;;
          setCurrentSession (fun _ => None))
         (fun _ => stableOnError endFailedError)
   end)%eff.

(** The operations a caller can trigger on the hook, each with what
    the back end answers to it. *)
Inductive Operation : Type :=
| AutoLoad (sessionsResp : FetchResult (list Api.InterviewSession))
| Start (jdContent : option string) (questionCount : option Z) (now : Z)
    (sessionsResp : FetchResult (list Api.InterviewSession))
    (startResp : FetchResult Api.InterviewSession)
    (questionResp : FetchResult Api.NextQuestion)
| Send (answer : string) (evalResp : FetchResult Api.Evaluation)
| Finish (now : Z) (endResp : FetchResult unit).

Definition perform (op : Operation) : Eff State unit :=
  match op with
  | AutoLoad sessionsResp => autoLoad sessionsResp
  | Start jdContent questionCount now sessionsResp startResp questionResp =>
      (_ <- startInterview jdContent questionCount now sessionsResp startResp questionResp ;;
       Eff.ret tt)%eff
  | Send answer evalResp => sendAnswer answer evalResp
  | Finish now endResp => endInterview now endResp
  end.

(** The state after a sequence of operations, one completing before the
    next begins. *)
Fixpoint run (ops : list Operation) (st : State) : State :=
  match ops with
  | [] => st
  | op :: ops' => run ops' (Eff.state (perform op st))
  end.

(** *** Operations that await their response

    What an operation has done when it reaches its first [await]: the
    cells as they are while the request is on its way and the events
    emitted so far, the request last.  [None] when the operation returns
    without sending a request. *)







End Hook.



(** The mirror agrees with itself: while the interview is active the
    index of the next question is the number of recorded answers. *)
Definition mirror_consistent (st : State) : bool :=
  negb (isInterviewActive st)
  || match currentSession st with
     | Some s => Z.of_nat (length (answers s)) =? currentQuestionIndex s
     | None => true
     end.

(** A back end that answers the creation of a session with a session
    that has no answers yet, and the request for its first question
    with index 0. *)
Definition fresh_start (startResp : FetchResult Api.InterviewSession)
    (questionResp : FetchResult Api.NextQuestion) : bool :=
  match startResp with
  | Ok b =>
      (length (or_empty (Api.answers b)) =? 0)%nat
      && match questionResp with
         | Ok q => Api.nq_question_index q =? 0
         | _ => true
         end
  | _ => true
  end.

Definition fresh_operation (op : Operation) : bool :=
  match op with
  | Start _ _ _ _ startResp questionResp => fresh_start startResp questionResp
  | _ => true
  end.

(** A response that carries no result. *)
Definition failed {A : Type} (r : FetchResult A) : bool :=
  match r with
  | Ok _ => false
  | _ => true
  end.

(** A state with the loading flag forced to [b]. *)
Definition withLoading (b : bool) (st : State) : State :=
  {| isInterviewActive := isInterviewActive st;
     currentSession := currentSession st;
     isLoading := b;
     currentStreamingMessage := currentStreamingMessage st;
     hasAutoLoaded := hasAutoLoaded st |}.

End UseInterview.

(* ------------------------------------------------------------------ *)
(** ** The interview page *)

Module InterviewPage.

Import Js.

Record Resume : Type := mkResume {
  resume_id : Z;
  title : string
}.

Record InterviewConfig : Type := mkInterviewConfig {
  mode : string;
  position : string;
  jd : string;
  sessionId : option Z
}.

(** The [useState] cells and refs of the page the orchestration reads
    or writes, with the state of the hook it mounts. *)
Record State : Type := mkState {
  resume : option Resume;
  interviewConfig : InterviewConfig;
  messages : list ChatMessage;
  inputMessage : string;
  interviewTime : Z;
  currentQuestion : Z;
  hasStartedInterview : bool;
  interviewError : option string;
  processedSessionRef : option Z;
  hasCheckedExistingSession : bool;
  hook : UseInterview.State
}.

Definition setInterviewConfig (f : InterviewConfig -> InterviewConfig) : Eff State unit :=
  Eff.modify (fun s =>
    mkState (resume s) (f (interviewConfig s)) (messages s) (inputMessage s)
      (interviewTime s) (currentQuestion s) (hasStartedInterview s) (interviewError s)
      (processedSessionRef s) (hasCheckedExistingSession s) (hook s)).

Definition setMessages (f : list ChatMessage -> list ChatMessage) : Eff State unit :=
  Eff.modify (fun s =>
    mkState (resume s) (interviewConfig s) (f (messages s)) (inputMessage s)
      (interviewTime s) (currentQuestion s) (hasStartedInterview s) (interviewError s)
      (processedSessionRef s) (hasCheckedExistingSession s) (hook s)).

Definition setInputMessage (v : string) : Eff State unit :=
  Eff.modify (fun s =>
    mkState (resume s) (interviewConfig s) (messages s) v
      (interviewTime s) (currentQuestion s) (hasStartedInterview s) (interviewError s)
      (processedSessionRef s) (hasCheckedExistingSession s) (hook s)).

Definition setInterviewTime (v : Z) : Eff State unit :=
  Eff.modify (fun s =>
    mkState (resume s) (interviewConfig s) (messages s) (inputMessage s)
      v (currentQuestion s) (hasStartedInterview s) (interviewError s)
      (processedSessionRef s) (hasCheckedExistingSession s) (hook s)).

Definition setCurrentQuestion (f : Z -> Z) : Eff State unit :=
  Eff.modify (fun s =>
    mkState (resume s) (interviewConfig s) (messages s) (inputMessage s)
      (interviewTime s) (f (currentQuestion s)) (hasStartedInterview s) (interviewError s)
      (processedSessionRef s) (hasCheckedExistingSession s) (hook s)).

Definition setHasStartedInterview (v : bool) : Eff State unit :=
  Eff.modify (fun s =>
    mkState (resume s) (interviewConfig s) (messages s) (inputMessage s)
      (interviewTime s) (currentQuestion s) v (interviewError s)
      (processedSessionRef s) (hasCheckedExistingSession s) (hook s)).

Definition setInterviewError (v : option string) : Eff State unit :=
  Eff.modify (fun s =>
    mkState (resume s) (interviewConfig s) (messages s) (inputMessage s)
      (interviewTime s) (currentQuestion s) (hasStartedInterview s) v
      (processedSessionRef s) (hasCheckedExistingSession s) (hook s)).

Definition setProcessedSessionRef (v : option Z) : Eff State unit :=
  Eff.modify (fun s =>
    mkState (resume s) (interviewConfig s) (messages s) (inputMessage s)
      (interviewTime s) (currentQuestion s) (hasStartedInterview s) (interviewError s)
      v (hasCheckedExistingSession s) (hook s)).

Definition setHasCheckedExistingSession (v : bool) : Eff State unit :=
  Eff.modify (fun s =>
    mkState (resume s) (interviewConfig s) (messages s) (inputMessage s)
      (interviewTime s) (currentQuestion s) (hasStartedInterview s) (interviewError s)
      (processedSessionRef s) v (hook s)).

Definition setHook (h : UseInterview.State) (s : State) : State :=
  mkState (resume s) (interviewConfig s) (messages s) (inputMessage s)
    (interviewTime s) (currentQuestion s) (hasStartedInterview s) (interviewError s)
    (processedSessionRef s) (hasCheckedExistingSession s) h.

Definition toast (k : ToastKind) (text : string) : Eff State unit :=
  Eff.emit (Toast k text).

(** [interviewOptions]: what the page hands to the hook. *)
Definition interviewOptions (c : InterviewConfig) : UseInterview.Options :=
  {| UseInterview.interviewMode := mode c;
     UseInterview.jobPosition := Some (position c);
     UseInterview.jdContent := Some (jd c);
     UseInterview.existingSessionId := sessionId c |}.

(** [handleMessage] and [handleError], the callbacks the hook is given:
    a message joins the transcript; an error is kept and shown. *)
Definition deliver (e : Event) : Eff State unit :=
  match e with
  | OnMessage m => (Eff.emit e ;; setMessages (fun prev => prev ++ [m]))%eff
  | OnError error =>
      (Eff.emit e ;;
       setInterviewError (Some error) ;;
       toast failure ("面试错误: " ++ error)%string)%eff
  | _ => Eff.emit e
  end.

Fixpoint deliverAll (t : list Event) : Eff State unit :=
  match t with
  | [] => Eff.ret tt
  | e :: t' => (deliver e ;; deliverAll t')%eff
  end.

(** An operation of the hook run from the page: it works on the hook's
    cells and its callbacks reach [handleMessage] and [handleError]. *)
Definition runHook {A : Type} (m : Eff UseInterview.State A) : Eff State A :=
  fun s =>
    match m (hook s) with
    | (c, h, t) =>
        match deliverAll t (setHook h s) with
        | (_, s', t') => (c, s', t')
        end
    end.

Definition getModeDisplayName (mode : string) : string :=
  if (mode =? "comprehensive")%string then "综合面试"
  else if (mode =? "technical")%string then "技术深挖"
  else if (mode =? "behavioral")%string then "行为面试"
  else "综合面试".

Definition dq : string := String (ascii_of_nat 34) EmptyString.

Definition confirmText (answeredCount totalQuestions : nat) : string :=
  ("发现您有一个未完成的面试会话（已回答 " ++ show (Z.of_nat answeredCount) ++ "/"
   ++ show (Z.of_nat totalQuestions) ++ " 题）。" ++ nl ++ nl
   ++ "点击" ++ dq ++ "确定" ++ dq ++ "继续上次面试" ++ nl
   ++ "点击" ++ dq ++ "取消" ++ dq ++ "开始新面试")%string.

Definition opt_eqb (a : option Z) (b : Z) : bool :=
  match a with
  | Some v => v =? b
  | None => false
  end.

Section Page.

(** The resume the page was opened for (the route parameter). *)
Variable pageResumeId : Z.

(** [handleStartInterview()].  [urlQuestionCount] is
    [parseInt(questionCount || '10')], [None] when it is not a number. *)
Definition handleStartInterview (urlQuestionCount : option Z) (now : Z)
    (sessionsResp : FetchResult (list Api.InterviewSession))
    (startResp : FetchResult Api.InterviewSession)
    (questionResp : FetchResult Api.NextQuestion)
    : Eff State unit :=
  (st <- Eff.get ;;
   let config := interviewConfig st in
   match resume st with
   | None => Eff.ret tt
   | Some _ =>
       if negb (truthy_id (sessionId config)) && hasStartedInterview st then Eff.ret tt
       else
         (if negb (truthy_id (sessionId config))
          then setHasStartedInterview true
          else Eff.ret tt) ;;
         Eff.try_catch
           (setMessages (fun _ => []) ;;
            setInterviewTime 0 ;;
            setCurrentQuestion (fun _ => 1) ;;
            session <-
              runHook
                (UseInterview.startInterview pageResumeId (interviewOptions config)
                   (Some (jd config)) urlQuestionCount now
                   sessionsResp startResp questionResp) ;;
            match session with
            | Some _ =>
                let action := if truthy_id (sessionId config) then "继续" else "开始" in
                toast success
                  ("面试已" ++ action ++ "！模式：" ++ getModeDisplayName (mode config))%string
            | None => Eff.ret tt
            end)
           (fun _ =>
              toast failure "开始面试失败，请重试" ;;
              if negb (truthy_id (sessionId config))
              then setHasStartedInterview false
              else Eff.ret tt)
   end)%eff.

(** The request the page sends itself to end a stored session: only a
    rejected [fetch] throws, the response is not inspected. *)
Definition fetchEnd (sessionId : Z) (endFetch : FetchResult unit) : Eff State unit :=
  (Eff.emit (Call (Api.EndInterview pageResumeId sessionId)) ;;
   match endFetch with
   | Rejected e => Eff.throw e
   | _ => Eff.ret tt
   end)%eff.

(** [checkAndStartInterview()].  [token] is the stored access token,
    [sessionsFetch] answers the session list request, [shouldContinue]
    is the user's answer to [confirm] and [endFetch] answers the request
    that ends the stored session.  The body of the [try] yields [false]
    where the source returns from the function and [true] where control
    reaches the call of [handleStartInterview]. *)
Definition checkAndStartInterview (token : option string)
    (sessionsFetch : FetchResult (list Api.InterviewSession))
    (shouldContinue : bool)
    (endFetch : FetchResult unit)
    (urlQuestionCount : option Z) (now : Z)
    (sessionsResp : FetchResult (list Api.InterviewSession))
    (startResp : FetchResult Api.InterviewSession)
    (questionResp : FetchResult Api.NextQuestion)
    : Eff State unit :=
  (st <- Eff.get ;;
   proceed <-
     Eff.try_catch
       (if (or_default token "" =? "")%string then Eff.ret false
        else
          Eff.emit (Call (Api.GetInterviewSessions pageResumeId)) ;;
          match sessionsFetch with
          | Rejected e => Eff.throw e
          | NotOk _ _ => Eff.ret true
          | Ok sessions =>
              match find (fun s => (Api.status s =? "active")%string) sessions with
              | None => Eff.ret true
              | Some activeSession =>
                  if opt_eqb (processedSessionRef st) (Api.id activeSession)
                  then Eff.ret true
                  else
                    let answeredCount := length (or_empty (Api.answers activeSession)) in
                    let totalQuestions := length (or_empty (Api.questions activeSession)) in
                    if (totalQuestions <=? answeredCount)%nat && (0 <? totalQuestions)%nat
                    then
                      Eff.try_catch
                        (fetchEnd (Api.id activeSession) endFetch)
                        (fun _ => Eff.ret tt) ;;
                      Eff.ret true
                    else
                      Eff.emit (Confirm (confirmText answeredCount totalQuestions)) ;;
                      if shouldContinue then
                        setProcessedSessionRef (Some (Api.id activeSession)) ;;
                        setInterviewConfig (fun prev =>
                          {| mode := mode prev;
                             position := position prev;
                             jd := jd prev;
                             sessionId := Some (Api.id activeSession) |}) ;;
                        setHasStartedInterview true ;;
                        Eff.ret false
                      else
                        Eff.try_catch
                          (fetchEnd (Api.id activeSession) endFetch ;;
                           toast success "已结束上次面试，开始新面试" ;;
                           Eff.ret true)
                          (fun _ =>
                             toast failure "结束上次面试失败，请稍后重试" ;;
                             Eff.ret false)
              end
          end)
       (fun _ => Eff.ret true) ;;
   if proceed
   then handleStartInterview urlQuestionCount now sessionsResp startResp questionResp
   else Eff.ret tt)%eff.

(** The effect that starts an interview when the page names no session:
    it runs the check once. *)
Definition autoStart (token : option string)
    (sessionsFetch : FetchResult (list Api.InterviewSession))
    (shouldContinue : bool)
    (endFetch : FetchResult unit)
    (urlQuestionCount : option Z) (now : Z)
    (sessionsResp : FetchResult (list Api.InterviewSession))
    (startResp : FetchResult Api.InterviewSession)
    (questionResp : FetchResult Api.NextQuestion)
    : Eff State unit :=
  (st <- Eff.get ;;
   match resume st with
   | Some _ =>
       if negb (UseInterview.isInterviewActive (hook st))
          && negb (UseInterview.isLoading (hook st))
          && negb (hasStartedInterview st)
          && negb (truthy_id (sessionId (interviewConfig st)))
          && negb (hasCheckedExistingSession st)
       then
         setHasCheckedExistingSession true ;;
         checkAndStartInterview token sessionsFetch shouldContinue endFetch
           urlQuestionCount now sessionsResp startResp questionResp
       else Eff.ret tt
   | None => Eff.ret tt
   end)%eff.

(** [handleEndInterview()]. *)
Definition handleEndInterview (now : Z) (endResp : FetchResult unit) : Eff State unit :=
  Eff.try_catch
    (runHook (UseInterview.endInterview pageResumeId now endResp) ;;
     setInterviewTime 0 ;;
     setHasStartedInterview false ;;
     toast success "面试已结束")%eff
    (fun _ => toast failure "结束面试失败").

(** [handleSendMessage()]. *)
Definition handleSendMessage (evalResp : FetchResult Api.Evaluation) : Eff State unit :=
  (st <- Eff.get ;;
   if (trim (inputMessage st) =? "")%string || UseInterview.isLoading (hook st)
   then Eff.ret tt
   else
     let currentMessage := trim (inputMessage st) in
     setInputMessage "" ;;
     Eff.try_catch
       (runHook (UseInterview.sendAnswer pageResumeId currentMessage evalResp) ;;
        setCurrentQuestion (fun prev => prev + 1))
       (fun _ => toast failure "发送消息失败，请重试"))%eff.

End Page.

End InterviewPage.

(* ------------------------------------------------------------------ *)
(** ** The session list page: ordering and duplicate detection *)

Module InterviewsPage.

(** A listed session: the stored record with the flag the page adds. *)
Record ListedSession : Type := mkListed {
  session : Api.InterviewSession;
  isPossibleDuplicate : bool
}.

(** [allSessions.sort((a, b) => time(b) - time(a))].  The sort of an
    array is stable; it is modelled by a stable insertion: an element
    goes before the first one that it does not have to follow. *)
Fixpoint insertByCreated (x : Api.InterviewSession) (l : list Api.InterviewSession)
    : list Api.InterviewSession :=
  match l with
  | [] => [x]
  | y :: l' =>
      if Api.created_at y - Api.created_at x <=? 0
      then x :: y :: l'
      else y :: insertByCreated x l'
  end.

Definition sortByCreated (l : list Api.InterviewSession) : list Api.InterviewSession :=
  fold_right insertByCreated [] l.

(** The other active sessions of the same resume. *)
Definition duplicateActiveSessions (allSessions : list Api.InterviewSession)
    (session : Api.InterviewSession) : list Api.InterviewSession :=
  filter (fun s =>
            (Api.resume_id s =? Api.resume_id session)
            && (Api.status s =? "active")%string
            && negb (Api.id s =? Api.id session))
         allSessions.

Definition markDuplicate (allSessions : list Api.InterviewSession)
    (session : Api.InterviewSession) : ListedSession :=
  let duplicates := duplicateActiveSessions allSessions session in
  if (Api.status session =? "active")%string && (0 <? length duplicates)%nat then
    match find (fun s => Api.created_at s >? Api.created_at session) duplicates with
    | Some newerActiveSession =>
        {| session := session; isPossibleDuplicate := true |}
    | None => {| session := session; isPossibleDuplicate := false |}
    end
  else {| session := session; isPossibleDuplicate := false |}.

(** What [fetchInterviewSessions] does with the sessions it gathered:
    sort them in place, newest first, then flag each one. *)
Definition processSessions (allSessions : list Api.InterviewSession) : list ListedSession :=
  let sorted := sortByCreated allSessions in
  map (markDuplicate sorted) sorted.

End InterviewsPage.

(* ------------------------------------------------------------------ *)
(** ** Sample data used by the worked instances *)

Definition sampleQuestions : list Api.Question :=
  [ {| Api.question := "Tell me about your last project."; Api.question_type := "technical" |};
    {| Api.question := "How do you handle deadlines?"; Api.question_type := "behavioral" |} ].

Definition sampleAnswer : Api.Answer :=
  {| Api.answer := "I built a scheduler."; Api.evaluation := "clear"; Api.question_index := 0 |}.

(** A mirror with two questions and no answer yet. *)
Definition sampleSession : UseInterview.InterviewSession :=
  {| UseInterview.id := 7;
     UseInterview.resumeId := 1;
     UseInterview.status := UseInterview.active;
     UseInterview.startTime := 1000;
     UseInterview.questions := sampleQuestions;
     UseInterview.answers := [];
     UseInterview.currentQuestionIndex := 0 |}.

(** A mirror whose two questions are both answered. *)
Definition sampleExhausted : UseInterview.InterviewSession :=
  {| UseInterview.id := 7;
     UseInterview.resumeId := 1;
     UseInterview.status := UseInterview.active;
     UseInterview.startTime := 1000;
     UseInterview.questions := sampleQuestions;
     UseInterview.answers := [sampleAnswer; sampleAnswer];
     UseInterview.currentQuestionIndex := 2 |}.

Definition activeWith (s : UseInterview.InterviewSession) : UseInterview.State :=
  {| UseInterview.isInterviewActive := true;
     UseInterview.currentSession := Some s;
     UseInterview.isLoading := false;
     UseInterview.currentStreamingMessage := "";
     UseInterview.hasAutoLoaded := false |}.

Definition sampleEvaluation (feedback : string) : Api.Evaluation :=
  {| Api.ev_question := "Tell me about your last project.";
     Api.ev_answer := "I built a scheduler.";
     Api.ev_evaluation := "clear";
     Api.ev_score := 80;
     Api.ev_feedback := feedback;
     Api.ev_suggestions := [] |}.

Definition sampleOptions : UseInterview.Options :=
  {| UseInterview.interviewMode := "technical";
     UseInterview.jobPosition := Some "Engineer";
     UseInterview.jdContent := None;
     UseInterview.existingSessionId := None |}.

Definition sampleStored (sid : Z) (st : string) (qs : list Api.Question)
    (ans : list Api.Answer) (created : Z) : Api.InterviewSession :=
  {| Api.id := sid;
     Api.resume_id := 1;
     Api.job_position := "Engineer";
     Api.interview_mode := "technical";
     Api.jd_content := "";
     Api.questions := Some qs;
     Api.answers := Some ans;
     Api.status := st;
     Api.created_at := created;
     Api.updated_at := created |}.

(** The mirror after one more answer: the record carries the index it
    was given for. *)
Definition answered (s : UseInterview.InterviewSession) (answer evaluation : string)
    : UseInterview.InterviewSession :=
  {| UseInterview.id := UseInterview.id s;
     UseInterview.resumeId := UseInterview.resumeId s;
     UseInterview.status := UseInterview.status s;
     UseInterview.startTime := UseInterview.startTime s;
     UseInterview.questions := UseInterview.questions s;
     UseInterview.answers :=
       UseInterview.answers s ++
       [ {| Api.answer := answer;
            Api.evaluation := evaluation;
            Api.question_index := UseInterview.currentQuestionIndex s |} ];
     UseInterview.currentQuestionIndex := UseInterview.currentQuestionIndex s + 1 |}.

(** The configuration the page asks a new session for. *)
Definition pageConfig (c : InterviewPage.InterviewConfig) (urlQuestionCount : option Z)
    : Api.InterviewConfig :=
  {| Api.cfg_job_position := Js.or_default (Some (InterviewPage.position c)) "未指定职位";
     Api.cfg_interview_mode := InterviewPage.mode c;
     Api.cfg_jd_content := Js.or_default (Some (InterviewPage.jd c)) "";
     Api.cfg_question_count := Js.or_number urlQuestionCount 10 |}.

(** [newer_or_equal a b]: [a] may stand before [b] in a list ordered by
    creation time, newest first. *)
Definition newer_or_equal (a b : Api.InterviewSession) : Prop :=
  Api.created_at b <= Api.created_at a.

(** A session as the Session Store returns it right after creation. *)
Definition sampleCreated : Api.InterviewSession :=
  sampleStored 7 "active" sampleQuestions [] 1000.

Definition sampleFirstQuestion (index : Z) : Api.NextQuestion :=
  {| Api.nq_question := "Tell me about your last project.";
     Api.nq_question_type := "technical";
     Api.nq_question_index := index |}.

(** A stored session that is still marked active although both of its
    questions are answered. *)
Definition sampleStale : Api.InterviewSession :=
  sampleStored 5 "active" sampleQuestions [sampleAnswer; sampleAnswer] 900.

Definition sampleFinished : Api.InterviewSession :=
  sampleStored 4 "completed" sampleQuestions [sampleAnswer; sampleAnswer] 800.

(** A freshly mounted page around a hook in state [h]. *)
Definition samplePage (h : UseInterview.State) : InterviewPage.State :=
  {| InterviewPage.resume :=
       Some {| InterviewPage.resume_id := 1; InterviewPage.title := "My resume" |};
     InterviewPage.interviewConfig :=
       {| InterviewPage.mode := "technical";
          InterviewPage.position := "Engineer";
          InterviewPage.jd := "";
          InterviewPage.sessionId := None |};
     InterviewPage.messages := [];
     InterviewPage.inputMessage := "  I built a scheduler. ";
     InterviewPage.interviewTime := 0;
     InterviewPage.currentQuestion := 1;
     InterviewPage.hasStartedInterview := false;
     InterviewPage.interviewError := None;
     InterviewPage.processedSessionRef := None;
     InterviewPage.hasCheckedExistingSession := false;
     InterviewPage.hook := h |}.

(** A run of the hook: create a session, answer its first question,
    fail to submit the second answer, fail to end. *)
Definition sampleRun : list UseInterview.Operation :=
  [ UseInterview.Start None (Some 2) 1000 (Js.Ok [])
      (Js.Ok sampleCreated) (Js.Ok (sampleFirstQuestion 0));
    UseInterview.Send "I built a scheduler." (Js.Ok (sampleEvaluation "Good. Next question."));
    UseInterview.Send "I plan ahead." (Js.Rejected (Js.Error "Failed to fetch"));
    UseInterview.Finish 250000 (Js.NotOk 500 "") ].

(** Two active sessions of resume 1 and a completed one. *)
Definition sampleOlder : Api.InterviewSession :=
  sampleStored 11 "active" sampleQuestions [] 100.

Definition sampleNewest : Api.InterviewSession :=
  sampleStored 12 "active" sampleQuestions [] 200.

Definition sampleListing : list Api.InterviewSession :=
  [ sampleOlder; sampleFinished; sampleNewest ].

(* ------------------------------------------------------------------ *)
(** ** Reading a server-sent event stream

    The two readers of the chat stream ([useStreamingChat] and
    [ChatAPI.sendStreamingMessage]) share one loop: append the decoded
    chunk to a buffer, split the buffer at line feeds, keep the last
    piece as the new buffer and hand the pieces before it, in order, to
    the body of the [for], which may return from the function. *)

Module Sse.

(** What [JSON.parse] yields for an event: the fields the readers look
    at.  An absent or falsy [content] or [error] is the empty string. *)
Record Data : Type := mkData {
  content : string;
  error : string;
  done : bool
}.

(** What a reader makes visible. *)
Inductive Notice : Type :=
| Requested (resumeId : Z) (message : string) (history : list ChatMessage)
| Streaming (text : string)            (* [setCurrentStreamingMessage(text)] *)
| Message (m : ChatMessage)            (* [onMessage(m)] *)
| Failure (error : string)             (* [onError(error)] *)
| Chunk (content : string).            (* [onChunk(content)] *)

(** [text.split('\n')]: the pieces between line feeds, never empty. *)
Fixpoint splitLines (text : string) : list string :=
  match text with
  | EmptyString => [EmptyString]
  | String c rest =>
      if Ascii.eqb c (ascii_of_nat 10) then EmptyString :: splitLines rest
      else
        match splitLines rest with
        | piece :: pieces => String c piece :: pieces
        | [] => [String c EmptyString]
        end
  end.

(** [line.slice(n)]. *)
Fixpoint slice (n : nat) (line : string) : string :=
  match n, line with
  | O, _ => line
  | S n', String _ rest => slice n' rest
  | S _, EmptyString => EmptyString
  end.

(** The chunks of a stream put together. *)
Definition joined (chunks : list string) : string :=
  fold_right String.append EmptyString chunks.

Section Loop.

Variable T : Type.

(** The body of the [for]: the reader's variables after the line, what
    it made visible, and whether it returned from the function. *)
Variable body : string -> T -> T * list Notice * bool.

Fixpoint forLines (lines : list string) (t : T) : T * list Notice * bool :=
  match lines with
  | [] => (t, [], false)
  | line :: rest =>
      match body line t with
      | (t1, n1, true) => (t1, n1, true)
      | (t1, n1, false) =>
          match forLines rest t1 with
          | (t2, n2, returned) => (t2, n1 ++ n2, returned)
          end
      end
  end.

(** The [while] over the chunks the reader yields, until it is done. *)
Fixpoint readAll (chunks : list string) (buffer : string) (t : T)
    : T * list Notice * bool :=
  match chunks with
  | [] => (t, [], false)
  | value :: more =>
      let lines := splitLines (buffer ++ value)%string in
      match forLines (removelast lines) t with
      | (t1, n1, true) => (t1, n1, true)
      | (t1, n1, false) =>
          match readAll more (last lines EmptyString) t1 with
          | (t2, n2, returned) => (t2, n1 ++ n2, returned)
          end
      end
  end.

End Loop.

End Sse.

(* ------------------------------------------------------------------ *)
(** ** The [useStreamingChat] hook *)

Module UseStreamingChat.

Import Js.

(** The cells of the hook, the ref that holds the abort controller, and
    the two entries of [localStorage] it touches. *)
Record State : Type := mkState {
  isStreaming : bool;
  currentStreamingMessage : string;
  abortController : bool;
  access_token : option string;
  user : option string
}.

(** What the [try] block threw. *)
Inductive Thrown : Type :=
| AbortError
| Other (e : Js.Thrown).

(** How the stream ends when no line made the reader return. *)
Inductive Ending : Type :=
| EndOfStream                   (* [done] *)
| ReadAborted                   (* [read()] rejects with an [AbortError] *)
| ReadFailed (e : Js.Thrown).   (* [read()] rejects otherwise *)

(** How the request for the stream ends. *)
Inductive Response : Type :=
| Aborted                       (* [fetch] rejects with an [AbortError] *)
| Unreachable (e : Js.Thrown)   (* [fetch] rejects otherwise *)
| Refused (status : Z)          (* [!response.ok] *)
| NoBody                        (* ok, without a body to read *)
| Body (chunks : list string) (ending : Ending).

Definition tokenMissingError : string := "未找到认证token，请重新登录".
Definition sessionExpiredError : string := "认证已过期，请重新登录".
Definition bodyMissingError : string := "Response body is null".

Section Hook.

Variable hookResumeId : Z.

(** [JSON.parse], [None] when it throws. *)
Variable parse : string -> option Sse.Data.

(** The body of the [for] over the lines; [streamingContent] is the
    text gathered so far. *)
Definition onLine (line : string) (streamingContent : string)
    : string * list Sse.Notice * bool :=
  if String.prefix "data: " line then
    match parse (Sse.slice 6 line) with
    | Some data =>
        if negb (Sse.error data =? "")%string then
          (streamingContent, [Sse.Failure (Sse.error data)], true)
        else if Sse.done data then
          (streamingContent,
           [ Sse.Message {| type := ai; content := streamingContent |};
             Sse.Streaming "" ],
           true)
        else if negb (Sse.content data =? "")%string then
          let gathered := (streamingContent ++ Sse.content data)%string in
          (gathered, [Sse.Streaming gathered], false)
        else (streamingContent, [], false)
    | None => (streamingContent, [], false)
    end
  else (streamingContent, [], false).

(** The [try] block: the state it leaves, what it made visible and what
    it threw, if anything. *)
Definition attempt (message : string) (chatHistory : list ChatMessage)
    (resp : Response) (st : State) : State * list Sse.Notice * option Thrown :=
  if (or_default (access_token st) "" =? "")%string then
    (st, [], Some (Other (Error tokenMissingError)))
  else
    let requested := [Sse.Requested hookResumeId message chatHistory] in
    match resp with
    | Aborted => (st, requested, Some AbortError)
    | Unreachable e => (st, requested, Some (Other e))
    | Refused status =>
        if status =? 401 then
          ({| isStreaming := isStreaming st;
              currentStreamingMessage := currentStreamingMessage st;
              abortController := abortController st;
              access_token := None;
              user := None |},
           requested,
           Some (Other (Error sessionExpiredError)))
        else
          (st, requested,
           Some (Other (Error ("HTTP error! status: " ++ show status)%string)))
    | NoBody => (st, requested, Some (Other (Error bodyMissingError)))
    | Body chunks ending =>
        match Sse.readAll string onLine chunks "" "" with
        | (_, notices, true) => (st, requested ++ notices, None)
        | (_, notices, false) =>
            (st, requested ++ notices,
             match ending with
             | EndOfStream => None
             | ReadAborted => Some AbortError
             | ReadFailed e => Some (Other e)
             end)
        end
    end.

(** [sendStreamingMessage(message, chatHistory)]. *)
Definition sendStreamingMessage (message : string) (chatHistory : list ChatMessage)
    (resp : Response) (st : State) : State * list Sse.Notice :=
  if isStreaming st then (st, [])
  else
    let started :=
      {| isStreaming := true;
         currentStreamingMessage := "";
         abortController := true;
         access_token := access_token st;
         user := user st |} in
    match attempt message chatHistory resp started with
    | (st1, notices, thrown) =>
        let caught :=
          match thrown with
          | Some (Other e) => [Sse.Failure (message_or e "Unknown streaming error")]
          | Some AbortError => []
          | None => []
          end in
        ({| isStreaming := false;
            currentStreamingMessage := "";
            abortController := false;
            access_token := access_token st1;
            user := user st1 |},
         Sse.Streaming "" :: notices ++ caught ++ [Sse.Streaming ""])
    end.

End Hook.

End UseStreamingChat.

(* ------------------------------------------------------------------ *)
(** ** [ChatAPI.sendStreamingMessage] *)

Module ChatAPI.

Import Js.

Definition doneMark : string := "[DONE]".
Definition readerMissingError : string := "无法获取响应流".
Definition streamFailedError : string := "流式聊天失败".

(** How the request for the stream ends; the request carries no abort
    signal.  [ending] is what a rejected [read()] threw, if the stream
    did not end by itself. *)
Inductive Response : Type :=
| Unreachable (e : Js.Thrown)              (* [fetch] rejects *)
| Refused (status : Z) (detail : string)   (* [!response.ok] *)
| NoBody                                   (* ok, without a body to read *)
| Body (chunks : list string) (ending : option Js.Thrown).

Section Stream.

Variable parse : string -> option Sse.Data.

(** The body of the [for] over the lines; the reader keeps no variable
    of its own between lines. *)
Definition onLine (line : string) (t : unit) : unit * list Sse.Notice * bool :=
  if String.prefix "data: " line then
    let data := Sse.slice 6 line in
    if (data =? doneMark)%string then (t, [], true)
    else
      match parse data with
      | Some parsed =>
          let chunk :=
            if negb (Sse.content parsed =? "")%string
            then [Sse.Chunk (Sse.content parsed)] else [] in
          if negb (Sse.error parsed =? "")%string then
            (t, chunk ++ [Sse.Failure (Sse.error parsed)], true)
          else if Sse.done parsed then (t, chunk, true)
          else (t, chunk, false)
      | None => (t, [], false)
      end
  else (t, [], false).

(** [sendStreamingMessage(resumeId, message, chatHistory, onChunk,
    onError)]: what it makes visible. *)
Definition sendStreamingMessage (resumeId : Z) (message : string)
    (chatHistory : list ChatMessage) (resp : Response) : list Sse.Notice :=
  let requested := [Sse.Requested resumeId message chatHistory] in
  let caught (e : Js.Thrown) := [Sse.Failure (message_or e streamFailedError)] in
  match resp with
  | Unreachable e => requested ++ caught e
  | Refused status detail =>
      requested ++
      caught (Error (or_string detail ("流式聊天失败: " ++ show status)%string))
  | NoBody => requested ++ caught (Error readerMissingError)
  | Body chunks ending =>
      match Sse.readAll unit onLine chunks "" tt with
      | (_, notices, true) => requested ++ notices
      | (_, notices, false) =>
          requested ++ notices ++
          match ending with
          | None => []
          | Some e => caught e
          end
      end
  end.

End Stream.

End ChatAPI.

(* ------------------------------------------------------------------ *)
(** ** The chat of the resume editor *)

Module ResumeEditPage.

Import Js.

(** The cells of the chat, with the state of the hook it mounts. *)
Record State : Type := mkState {
  messages : list ChatMessage;
  inputMessage : string;
  isSending : bool;
  apiError : option string;
  chat : UseStreamingChat.State
}.

Definition apologyText (error : string) : string :=
  ("抱歉，发生了错误：" ++ error)%string.

(** The [onMessage] and [onError] the page gives to the hook: a message
    joins the transcript; an error is kept and joins the transcript as
    an apology. *)
Definition deliver (n : Sse.Notice) (st : State) : State :=
  match n with
  | Sse.Message m =>
      mkState (messages st ++ [m]) (inputMessage st) (isSending st) (apiError st) (chat st)
  | Sse.Failure error =>
      mkState (messages st ++ [ {| type := ai; content := apologyText error |} ])
        (inputMessage st) (isSending st) (Some error) (chat st)
  | _ => st
  end.

Section Page.

Variable pageResumeId : Z.
Variable parse : string -> option Sse.Data.

(** [sendMessage()]: the state it leaves and what the hook made
    visible.  The history handed to the hook is the transcript as it was
    when the function was called. *)
Definition sendMessage (resp : UseStreamingChat.Response) (st : State)
    : State * list Sse.Notice :=
  if (trim (inputMessage st) =? "")%string
     || isSending st
     || UseStreamingChat.isStreaming (chat st)
  then (st, [])
  else
    let userMessage := {| type := user; content := trim (inputMessage st) |} in
    let currentMessage := trim (inputMessage st) in
    let st1 := mkState (messages st ++ [userMessage]) "" true None (chat st) in
    match UseStreamingChat.sendStreamingMessage pageResumeId parse
            currentMessage (messages st) resp (chat st1) with
    | (chat2, notices) =>
        let st2 :=
          fold_left (fun s n => deliver n s) notices
            (mkState (messages st1) (inputMessage st1) (isSending st1) (apiError st1) chat2) in
        (mkState (messages st2) (inputMessage st2) false (apiError st2) (chat st2), notices)
    end.

End Page.

End ResumeEditPage.

(* ------------------------------------------------------------------ *)
(** ** The session list page: gathering and deleting *)

Module InterviewsList.

Import Js.

Record Resume : Type := mkResume {
  id : Z;
  title : string
}.

(** A session as the list page reads it: the stored record and its
    score, which may be missing. *)
Record Scored : Type := mkScored {
  stored : Api.InterviewSession;
  overall_score : option Z
}.

Inductive Notice : Type := loading | succeeded | failed.

(** What the list page makes visible. *)
Inductive Action : Type :=
| Listed (resumeId : Z)                  (* [getInterviewSessions] *)
| Scores (resumeId : Z)                  (* [calculateScoresForCompletedInterviews] *)
| Deleted (resumeId sessionId : Z)       (* [deleteInterviewSession] *)
| Asked (prompt : string)                (* [confirm] *)
| Told (kind : Notice) (text : string).  (* a toast *)

(** What the back end answers for one resume: the session list, the
    number of sessions the score calculation updated, and the session
    list read again after it. *)
Record Answers : Type := mkAnswers {
  listed : FetchResult (list Scored);
  scored : FetchResult Z;
  relisted : FetchResult (list Scored)
}.

(** The cells of the page that hold the list. *)
Record State : Type := mkState {
  interviewSessions : list InterviewsPage.ListedSession;
  interviewsLoading : bool
}.

(** The two sessions shown for a resume whose sessions cannot be read. *)
Definition mockSessions (resume : Resume) : list Scored :=
  let baseId := id resume * 1000 in
  [ {| stored :=
         {| Api.id := baseId + 1;
            Api.resume_id := id resume;
            Api.job_position := "AI应用开发工程师";
            Api.interview_mode := "综合面试";
            Api.jd_content := "负责AI应用开发...";
            Api.questions := Some [];
            Api.answers := Some [];
            Api.status := "completed";
            Api.created_at := 1752247140000;
            Api.updated_at := 1752248640000 |};
       overall_score := Some 87 |};
    {| stored :=
         {| Api.id := baseId + 2;
            Api.resume_id := id resume;
            Api.job_position := "高级前端工程师";
            Api.interview_mode := "技术面试";
            Api.jd_content := "负责前端开发...";
            Api.questions := Some [];
            Api.answers := Some [];
            Api.status := "active";
            Api.created_at := 1752249600000;
            Api.updated_at := 1752249600000 |};
       overall_score := None |} ].

(** [session.status === 'completed' && !session.overall_score]. *)
Definition lacksScore (s : Scored) : bool :=
  (Api.status (stored s) =? "completed")%string
  && match overall_score s with
     | Some v => v =? 0
     | None => true
     end.

Definition succeededWith {A : Type} (r : FetchResult A) : option A :=
  match r with
  | Ok body => Some body
  | _ => None
  end.

(** One turn of the loop over the resumes: the sessions pushed and the
    requests sent. *)
Definition gatherFor (resume : Resume) (a : Answers) : list Scored * list Action :=
  match succeededWith (listed a) with
  | Some sessions =>
      if existsb lacksScore sessions then
        match succeededWith (scored a) with
        | Some updated_count =>
            if updated_count >? 0 then
              match succeededWith (relisted a) with
              | Some updatedSessions =>
                  (updatedSessions,
                   [Listed (id resume); Scores (id resume); Listed (id resume)])
              | None =>
                  (sessions,
                   [Listed (id resume); Scores (id resume); Listed (id resume)])
              end
            else (sessions, [Listed (id resume); Scores (id resume)])
        | None => (sessions, [Listed (id resume); Scores (id resume)])
        end
      else (sessions, [Listed (id resume)])
  | None => (mockSessions resume, [Listed (id resume)])
  end.

Fixpoint gather (resumes : list (Resume * Answers)) : list Scored * list Action :=
  match resumes with
  | [] => ([], [])
  | (resume, a) :: rest =>
      match gatherFor resume a, gather rest with
      | (sessions, actions), (sessions', actions') =>
          (sessions ++ sessions', actions ++ actions')
      end
  end.

(** [fetchInterviewSessions()]: each resume comes with what the back
    end answers for it. *)
Definition fetchInterviewSessions (isAuthenticated : bool)
    (resumes : list (Resume * Answers)) (st : State) : State * list Action :=
  if negb isAuthenticated then (st, [])
  else
    match gather resumes with
    | (allSessions, actions) =>
        ({| interviewSessions := InterviewsPage.processSessions (map stored allSessions);
            interviewsLoading := false |},
         actions)
    end.

Definition confirmDeleteText (jobPosition : string) : string :=
  ("确定要删除面试记录 " ++ InterviewPage.dq ++ jobPosition ++ InterviewPage.dq
   ++ " 吗？此操作无法撤销。")%string.

Definition deleteFailedText (e : Thrown) : string :=
  match e with
  | Error message => or_string message "删除失败，请重试"
  | NonError => "删除失败，请重试"
  end.

(** [InterviewAPI.deleteInterviewSession]: what it throws, if
    anything. *)
Definition deleteInterviewSession (r : FetchResult unit) : option Thrown :=
  match r with
  | Rejected e => Some e
  | NotOk status detail =>
      Some (Error (or_string detail ("删除面试记录失败: " ++ show status)%string))
  | Ok _ => None
  end.

(** [handleDeleteInterview(sessionId, jobPosition)]; [confirmed] is the
    user's answer to [confirm] and [resp] answers the delete request
    when it is sent. *)
Definition handleDeleteInterview (sessionId : Z) (jobPosition : string)
    (confirmed : bool) (resp : FetchResult unit) (st : State) : State * list Action :=
  let asked := Asked (confirmDeleteText jobPosition) in
  if negb confirmed then (st, [asked])
  else
    match find (fun s => Api.id (InterviewsPage.session s) =? sessionId)
               (interviewSessions st) with
    | None => (st, [asked; Told failed "未找到面试记录"])
    | Some session =>
        let removed :=
          {| interviewSessions :=
               filter (fun s => negb (Api.id (InterviewsPage.session s) =? sessionId))
                      (interviewSessions st);
             interviewsLoading := interviewsLoading st |} in
        let begun := Told loading "正在删除面试记录..." in
        if sessionId >? 1000 then
          (removed, [asked; begun; Told succeeded "面试记录已删除"])
        else
          let request :=
            Deleted (Api.resume_id (InterviewsPage.session session)) sessionId in
          match deleteInterviewSession resp with
          | None => (removed, [asked; begun; request; Told succeeded "面试记录已删除"])
          | Some error =>
              (st, [asked; begun; request; Told failed (deleteFailedText error)])
          end
    end.

(** The time zone step of [formatDate]: a date-time without a zone is
    read as UTC. *)
Definition normalizedDateString (dateString : string) : string :=
  if includes dateString "T" && negb (includes dateString "Z")
     && negb (includes dateString "+")
  then (dateString ++ "Z")%string
  else dateString.

End InterviewsList.

(* ------------------------------------------------------------------ *)
(** ** Vocabulary and sample data for the stream readers *)

(** The number of outcomes a reader reported: complete messages and
    errors. *)
Fixpoint outcomes (ns : list Sse.Notice) : nat :=
  match ns with
  | [] => 0
  | Sse.Message _ :: ns' => S (outcomes ns')
  | Sse.Failure _ :: ns' => S (outcomes ns')
  | _ :: ns' => outcomes ns'
  end.

(** The transcript entries the resume editor adds for what the hook
    reported. *)
Fixpoint replies (ns : list Sse.Notice) : list ChatMessage :=
  match ns with
  | [] => []
  | Sse.Message m :: ns' => m :: replies ns'
  | Sse.Failure e :: ns' =>
      {| type := ai; content := ResumeEditPage.apologyText e |} :: replies ns'
  | _ :: ns' => replies ns'
  end.

(** A line that ends the reading of [useStreamingChat]: an event with an
    error or with [done]. *)
Definition terminal (parse : string -> option Sse.Data) (line : string) : bool :=
  String.prefix "data: " line
  && match parse (Sse.slice 6 line) with
     | Some data => negb (Sse.error data =? "")%string || Sse.done data
     | None => false
     end.

(** A stand-in for [JSON.parse] on three shapes of payload: [done],
    [c=<content>] and [e=<error>]; anything else does not parse. *)
Definition sampleParse (payload : string) : option Sse.Data :=
  if (payload =? "done")%string then
    Some {| Sse.content := ""; Sse.error := ""; Sse.done := true |}
  else if String.prefix "c=" payload then
    Some {| Sse.content := Sse.slice 2 payload; Sse.error := ""; Sse.done := false |}
  else if String.prefix "e=" payload then
    Some {| Sse.content := ""; Sse.error := Sse.slice 2 payload; Sse.done := false |}
  else None.

(** Two ways the same stream may arrive. *)
Definition sampleChunks : list string :=
  [ "data: c=Hel"; ("lo" ++ Js.nl ++ "data: c=, world" ++ Js.nl ++ "da")%string;
    ("ta: done" ++ Js.nl)%string ].

Definition sampleWhole : list string :=
  [ ("data: c=Hello" ++ Js.nl ++ "data: c=, world" ++ Js.nl ++ "data: done" ++ Js.nl)%string ].

Definition sampleChat : UseStreamingChat.State :=
  {| UseStreamingChat.isStreaming := false;
     UseStreamingChat.currentStreamingMessage := "";
     UseStreamingChat.abortController := false;
     UseStreamingChat.access_token := Some "token";
     UseStreamingChat.user := Some "me" |}.

Definition sampleEditor : ResumeEditPage.State :=
  {| ResumeEditPage.messages := [ {| type := ai; content := "您好！" |} ];
     ResumeEditPage.inputMessage := " 1 ";
     ResumeEditPage.isSending := false;
     ResumeEditPage.apiError := None;
     ResumeEditPage.chat := sampleChat |}.

(** A list page that shows the sessions of [sampleListing]. *)
Definition sampleList : InterviewsList.State :=
  {| InterviewsList.interviewSessions := InterviewsPage.processSessions sampleListing;
     InterviewsList.interviewsLoading := false |}.

Definition sampleResume : InterviewsList.Resume :=
  {| InterviewsList.id := 3; InterviewsList.title := "My resume" |}.

(** A back end that cannot be reached. *)
Definition sampleDown : InterviewsList.Answers :=
  {| InterviewsList.listed := Js.Rejected (Js.Error "Failed to fetch");
     InterviewsList.scored := Js.Rejected (Js.Error "Failed to fetch");
     InterviewsList.relisted := Js.Rejected (Js.Error "Failed to fetch") |}.

(* ------------------------------------------------------------------ *)
(** ** Vocabulary for the list page *)

(** The requests among the actions of the list page. *)
Definition requestsOf (actions : list InterviewsList.Action) : list InterviewsList.Action :=
  filter (fun a =>
            match a with
            | InterviewsList.Listed _ => true
            | InterviewsList.Scores _ => true
            | InterviewsList.Deleted _ _ => true
            | _ => false
            end)
         actions.

(** Whether the page announced a success. *)
Definition toldSuccess (actions : list InterviewsList.Action) : bool :=
  existsb (fun a =>
             match a with
             | InterviewsList.Told InterviewsList.succeeded _ => true
             | _ => false
             end)
          actions.

Definition keepsOthers (sessionId : Z) (l : InterviewsPage.ListedSession) : bool :=
  negb (Api.id (InterviewsPage.session l) =? sessionId).

(* ------------------------------------------------------------------ *)
(** ** Vocabulary for runs of submissions *)

(** The answer records that a row of evaluated submissions leaves, the
    first one given for index [index]. *)
Fixpoint recordsFrom (index : Z) (submissions : list (string * Api.Evaluation))
    : list Api.Answer :=
  match submissions with
  | [] => []
  | (answer, evaluation) :: rest =>
      {| Api.answer := answer;
         Api.evaluation := Api.ev_evaluation evaluation;
         Api.question_index := index |}
      :: recordsFrom (index + 1) rest
  end.

(** The operations that submit a row of answers, each one evaluated. *)
Definition submitAll (submissions : list (string * Api.Evaluation))
    : list UseInterview.Operation :=
  map (fun s => UseInterview.Send (fst s) (Js.Ok (snd s))) submissions.

Definition sampleSubmissions : list (string * Api.Evaluation) :=
  [ ("I built a scheduler.", sampleEvaluation "Good. Next question.");
    ("I plan ahead.", sampleEvaluation "Thank you.") ].

(* ------------------------------------------------------------------ *)
(** ** More sample data *)


(** U+3000 and U+00A0 as they are encoded. *)
Definition ideographicSpace : string :=
  String (ascii_of_nat 227) (String (ascii_of_nat 128) (String (ascii_of_nat 128) "")).

Definition noBreakSpace : string :=
  String (ascii_of_nat 194) (String (ascii_of_nat 160) "").

(** The interview page and the editor with [input] typed in. *)
Definition typed (input : string) (st : InterviewPage.State) : InterviewPage.State :=
  Eff.state (InterviewPage.setInputMessage input st).

Definition typedEditor (input : string) (st : ResumeEditPage.State) : ResumeEditPage.State :=
  ResumeEditPage.mkState (ResumeEditPage.messages st) input (ResumeEditPage.isSending st)
    (ResumeEditPage.apiError st) (ResumeEditPage.chat st).

(** A stored session with one of its two questions answered. *)
Definition sampleHalfway : Api.InterviewSession :=
  sampleStored 6 "active" sampleQuestions [sampleAnswer] 950.

(* ================================================================== *)
(** * Properties *)

(** Unfolding of the effect combinators, the state setters and the REST
    wrappers, down to the triple an operation yields. *)
Ltac eff_run :=
  cbv beta iota zeta delta
    [Eff.bind Eff.ret Eff.get Eff.modify Eff.emit Eff.throw Eff.try_catch Eff.finally
     Eff.completion Eff.state Eff.trace
     UseInterview.setIsInterviewActive UseInterview.setCurrentSession
     UseInterview.setIsLoading UseInterview.setCurrentStreamingMessage
     UseInterview.setHasAutoLoaded UseInterview.stableOnMessage UseInterview.stableOnError
     UseInterview.isInterviewActive UseInterview.currentSession UseInterview.isLoading
     UseInterview.currentStreamingMessage UseInterview.hasAutoLoaded
     InterviewAPI.handleApiResponse InterviewAPI.getInterviewSessions
     InterviewAPI.startInterview InterviewAPI.endInterview
     InterviewAPI.getNextInterviewQuestion InterviewAPI.submitInterviewAnswer
     negb andb orb app fst snd].

(** ** Strings *)

Lemma prefix_append (s b : string) : String.prefix s (s ++ b)%string = true.
Proof.
  induction s as [|c s IH]; simpl.
  - destruct b; reflexivity.
  - destruct (Ascii.ascii_dec c c) as [_|N]; [exact IH | contradiction].
Qed.

Lemma includes_prefix (s t : string) :
  String.prefix s t = true -> Js.includes t s = true.
Proof.
  unfold Js.includes. destruct t as [|c t]; simpl.
  - destruct s; [reflexivity | discriminate].
  - intros H. rewrite H. reflexivity.
Qed.

Lemma includes_cons (c : ascii) (s t : string) :
  Js.includes t s = true -> Js.includes (String c t) s = true.
Proof.
  unfold Js.includes. cbn [String.index].
  destruct (String.index 0 s t); [intros _ | discriminate].
  destruct (String.prefix s (String c t)); reflexivity.
Qed.

Lemma includes_here (s b : string) : Js.includes (s ++ b)%string s = true.
Proof. apply includes_prefix. apply prefix_append. Qed.

Lemma includes_skip (a s t : string) :
  Js.includes t s = true -> Js.includes (a ++ t)%string s = true.
Proof.
  intros H. induction a as [|c a IH].
  - exact H.
  - change (String c a ++ t)%string with (String c (a ++ t)).
    apply includes_cons. exact IH.
Qed.

Lemma string_app_assoc (a b c : string) : ((a ++ b) ++ c = a ++ (b ++ c))%string.
Proof. induction a as [|x a IH]; cbn; [reflexivity | rewrite IH; reflexivity]. Qed.

Lemma string_app_nil_r (a : string) : (a ++ "")%string = a.
Proof. induction a as [|x a IH]; cbn; [reflexivity | rewrite IH; reflexivity]. Qed.

(** [trim] leaves nothing of a string of white space, and removes the
    white space of more than one byte at both ends. *)
Lemma trim_blank (s : string) : Js.blank s = true -> Js.trim s = ""%string.
Proof.
  unfold Js.blank, Js.trim. intros H. apply String.eqb_eq in H. rewrite H. reflexivity.
Qed.

Lemma trim_wide_spaces :
  Js.trim ideographicSpace = ""%string /\
  Js.trim (noBreakSpace ++ " " ++ ideographicSpace)%string = ""%string /\
  Js.trim (ideographicSpace ++ "I plan ahead." ++ noBreakSpace ++ Js.nl)%string
    = "I plan ahead."%string /\
  Js.trim ("a" ++ ideographicSpace ++ "b")%string = ("a" ++ ideographicSpace ++ "b")%string.
Proof. repeat split. Qed.

Lemma or_string_nonempty (s d : string) : s <> ""%string -> Js.or_string s d = s.
Proof.
  intros H. unfold Js.or_string.
  destruct (String.eqb_spec s ""); [contradiction | reflexivity].
Qed.

Lemma or_string_empty (d : string) : Js.or_string "" d = d.
Proof. reflexivity. Qed.

(** The summary of a finished interview shows the number of answers and
    the minutes that passed. *)
Lemma endText_includes (answered : nat) (minutes : Z) :
  Js.includes (UseInterview.endText answered minutes) (Js.show (Z.of_nat answered)) = true /\
  Js.includes (UseInterview.endText answered minutes) (Js.show minutes) = true.
Proof.
  unfold UseInterview.endText. split.
  - do 4 apply includes_skip. apply includes_here.
  - do 7 apply includes_skip. apply includes_here.
Qed.

(** ** The hook *)

Section HookFacts.

Variable rid : Z.
Variable opts : UseInterview.Options.

(** [sendAnswer] on an active mirror, past its guard. *)
Lemma sendAnswer_active (st : UseInterview.State) (s : UseInterview.InterviewSession)
    (answer : string) (evalResp : Js.FetchResult Api.Evaluation) :
  UseInterview.isInterviewActive st = true ->
  UseInterview.currentSession st = Some s ->
  UseInterview.sendAnswer rid answer evalResp st =
  UseInterview.sendAnswer rid answer evalResp
    {| UseInterview.isInterviewActive := true;
       UseInterview.currentSession := Some s;
       UseInterview.isLoading := UseInterview.isLoading st;
       UseInterview.currentStreamingMessage := UseInterview.currentStreamingMessage st;
       UseInterview.hasAutoLoaded := UseInterview.hasAutoLoaded st |}.
Proof.
  destruct st as [a c l m h]; cbn. intros -> ->. reflexivity.
Qed.

(** When every preset question is answered, a submission reaches no
    evaluator: two messages, nothing else. *)
Lemma sendAnswer_exhausted (st : UseInterview.State) (s : UseInterview.InterviewSession)
    (answer : string) (evalResp : Js.FetchResult Api.Evaluation) :
  UseInterview.isInterviewActive st = true ->
  UseInterview.currentSession st = Some s ->
  UseInterview.currentQuestionIndex s >= Z.of_nat (length (UseInterview.questions s)) ->
  UseInterview.sendAnswer rid answer evalResp st =
  (Normal tt,
   {| UseInterview.isInterviewActive := true;
      UseInterview.currentSession := Some s;
      UseInterview.isLoading := false;
      UseInterview.currentStreamingMessage := "";
      UseInterview.hasAutoLoaded := UseInterview.hasAutoLoaded st |},
   [ OnMessage {| type := user; content := answer |};
     OnMessage {| type := ai; content := UseInterview.allPresetCompleteText |} ]).
Proof.
  intros Ha Hs Hge. rewrite (sendAnswer_active st s answer evalResp Ha Hs).
  unfold UseInterview.sendAnswer. eff_run.
  replace (UseInterview.currentQuestionIndex s >=? Z.of_nat (length (UseInterview.questions s)))
    with true by (symmetry; apply Z.geb_le; lia).
  reflexivity.
Qed.

(** A submission that the evaluator answers. *)
Lemma sendAnswer_evaluated (st : UseInterview.State) (s : UseInterview.InterviewSession)
    (answer : string) (ev : Api.Evaluation) :
  UseInterview.isInterviewActive st = true ->
  UseInterview.currentSession st = Some s ->
  UseInterview.currentQuestionIndex s < Z.of_nat (length (UseInterview.questions s)) ->
  UseInterview.sendAnswer rid answer (Js.Ok ev) st =
  (Normal tt,
   {| UseInterview.isInterviewActive := true;
      UseInterview.currentSession := Some (answered s answer (Api.ev_evaluation ev));
      UseInterview.isLoading := false;
      UseInterview.currentStreamingMessage := "";
      UseInterview.hasAutoLoaded := UseInterview.hasAutoLoaded st |},
   [ OnMessage {| type := user; content := answer |};
     Call (Api.SubmitInterviewAnswer rid (UseInterview.id s) answer
             (UseInterview.currentQuestionIndex s));
     OnMessage {| type := ai;
                  content := Js.or_string (Api.ev_feedback ev) UseInterview.nextQuestionText |} ]).
Proof.
  intros Ha Hs Hlt. rewrite (sendAnswer_active st s answer (Js.Ok ev) Ha Hs).
  unfold UseInterview.sendAnswer. eff_run.
  replace (UseInterview.currentQuestionIndex s >=? Z.of_nat (length (UseInterview.questions s)))
    with false by (symmetry; rewrite Z.geb_leb; apply Z.leb_gt; lia).
  reflexivity.
Qed.

(** A submission that the evaluator does not answer. *)
Lemma sendAnswer_failed (st : UseInterview.State) (s : UseInterview.InterviewSession)
    (answer : string) (evalResp : Js.FetchResult Api.Evaluation) :
  UseInterview.isInterviewActive st = true ->
  UseInterview.currentSession st = Some s ->
  UseInterview.currentQuestionIndex s < Z.of_nat (length (UseInterview.questions s)) ->
  UseInterview.failed evalResp = true ->
  exists error,
    UseInterview.sendAnswer rid answer evalResp st =
    (Normal tt,
     {| UseInterview.isInterviewActive := true;
        UseInterview.currentSession := Some s;
        UseInterview.isLoading := false;
        UseInterview.currentStreamingMessage := "";
        UseInterview.hasAutoLoaded := UseInterview.hasAutoLoaded st |},
     [ OnMessage {| type := user; content := answer |};
       Call (Api.SubmitInterviewAnswer rid (UseInterview.id s) answer
               (UseInterview.currentQuestionIndex s));
       OnError (UseInterview.sendErrorText error) ]).
Proof.
  intros Ha Hs Hlt Hf. rewrite (sendAnswer_active st s answer evalResp Ha Hs).
  unfold UseInterview.sendAnswer.
  destruct evalResp as [e | status detail | body]; [| | discriminate].
  - exists e. eff_run.
    replace (UseInterview.currentQuestionIndex s >=? Z.of_nat (length (UseInterview.questions s)))
      with false by (symmetry; rewrite Z.geb_leb; apply Z.leb_gt; lia).
    reflexivity.
  - exists (Js.Error (Js.or_string detail ("API请求失败: " ++ Js.show status)%string)). eff_run.
    replace (UseInterview.currentQuestionIndex s >=? Z.of_nat (length (UseInterview.questions s)))
      with false by (symmetry; rewrite Z.geb_leb; apply Z.leb_gt; lia).
    reflexivity.
Qed.

(** C3.  For an active session whose [currentQuestionIndex] has reached
    [questions.length], submitting an answer sends no request to the
    Answer Evaluator, emits the "all preset questions complete" message
    that offers ending ("结束面试") or further questions ("额外的深入问题"),
    leaves [answers] and [currentQuestionIndex] as they were, and the
    session stays active. *)
Theorem exhausted_submission_leaves_session
    (st : UseInterview.State) (s : UseInterview.InterviewSession)
    (answer : string) (evalResp : Js.FetchResult Api.Evaluation) :
  UseInterview.isInterviewActive st = true ->
  UseInterview.currentSession st = Some s ->
  UseInterview.currentQuestionIndex s >= Z.of_nat (length (UseInterview.questions s)) ->
  let r := UseInterview.sendAnswer rid answer evalResp st in
  calls (Eff.trace r) = [] /\
  errors_of (Eff.trace r) = [] /\
  messages_of (Eff.trace r) =
    [ {| type := user; content := answer |};
      {| type := ai; content := UseInterview.allPresetCompleteText |} ] /\
  Js.includes UseInterview.allPresetCompleteText "结束面试" = true /\
  Js.includes UseInterview.allPresetCompleteText "额外的深入问题" = true /\
  UseInterview.currentSession (Eff.state r) = Some s /\
  UseInterview.isInterviewActive (Eff.state r) = true.
Proof.
  intros Ha Hs Hge r. subst r.
  rewrite (sendAnswer_exhausted st s answer evalResp Ha Hs Hge).
  repeat split; reflexivity.
Qed.

(** C2, amended.  For an active session with [currentQuestionIndex]
    below [questions.length], a submission that the Answer Evaluator
    answers sends exactly one request, carrying the answer and the
    current question index, and no request for a next question; appends
    exactly one answer record, which carries the index the submission
    was made for; adds one to [currentQuestionIndex]; and emits as the
    next transcript message the evaluator's feedback text when that text
    is not empty, and the fixed sentence [nextQuestionText] when it is. *)
Theorem answered_submission_advances
    (st : UseInterview.State) (s : UseInterview.InterviewSession)
    (answer : string) (ev : Api.Evaluation) :
  UseInterview.isInterviewActive st = true ->
  UseInterview.currentSession st = Some s ->
  UseInterview.currentQuestionIndex s < Z.of_nat (length (UseInterview.questions s)) ->
  let r := UseInterview.sendAnswer rid answer (Js.Ok ev) st in
  exists text s',
    Eff.trace r =
      [ OnMessage {| type := user; content := answer |};
        Call (Api.SubmitInterviewAnswer rid (UseInterview.id s) answer
                (UseInterview.currentQuestionIndex s));
        OnMessage {| type := ai; content := text |} ] /\
    (Api.ev_feedback ev <> ""%string -> text = Api.ev_feedback ev) /\
    (Api.ev_feedback ev = ""%string -> text = UseInterview.nextQuestionText) /\
    UseInterview.isInterviewActive (Eff.state r) = true /\
    UseInterview.currentSession (Eff.state r) = Some s' /\
    UseInterview.answers s' =
      UseInterview.answers s ++
      [ {| Api.answer := answer;
           Api.evaluation := Api.ev_evaluation ev;
           Api.question_index := UseInterview.currentQuestionIndex s |} ] /\
    UseInterview.currentQuestionIndex s' = UseInterview.currentQuestionIndex s + 1 /\
    UseInterview.questions s' = UseInterview.questions s /\
    UseInterview.id s' = UseInterview.id s.
Proof.
  intros Ha Hs Hlt r. subst r.
  rewrite (sendAnswer_evaluated st s answer ev Ha Hs Hlt).
  exists (Js.or_string (Api.ev_feedback ev) UseInterview.nextQuestionText).
  exists (answered s answer (Api.ev_evaluation ev)).
  repeat split.
  - intros H. apply or_string_nonempty. exact H.
  - intros H. rewrite H. reflexivity.
Qed.

(** C4.  For an active session, when the request to the Answer
    Evaluator fails (the fetch is rejected, which is how a network
    failure or a timeout arrives, or the response is not ok), [answers]
    and [currentQuestionIndex] are as before, the session is still
    active, exactly one error reaches [onError], and submitting the same
    answer again, this time answered, appends exactly one record. *)
Theorem failed_submission_is_retryable
    (st : UseInterview.State) (s : UseInterview.InterviewSession)
    (answer : string) (evalResp : Js.FetchResult Api.Evaluation) (ev : Api.Evaluation) :
  UseInterview.isInterviewActive st = true ->
  UseInterview.currentSession st = Some s ->
  UseInterview.currentQuestionIndex s < Z.of_nat (length (UseInterview.questions s)) ->
  UseInterview.failed evalResp = true ->
  let r1 := UseInterview.sendAnswer rid answer evalResp st in
  let r2 := UseInterview.sendAnswer rid answer (Js.Ok ev) (Eff.state r1) in
  UseInterview.currentSession (Eff.state r1) = Some s /\
  UseInterview.isInterviewActive (Eff.state r1) = true /\
  (exists message, errors_of (Eff.trace r1) = [message]) /\
  messages_of (Eff.trace r1) = [ {| type := user; content := answer |} ] /\
  exists s',
    UseInterview.currentSession (Eff.state r2) = Some s' /\
    UseInterview.answers s' =
      UseInterview.answers s ++
      [ {| Api.answer := answer;
           Api.evaluation := Api.ev_evaluation ev;
           Api.question_index := UseInterview.currentQuestionIndex s |} ] /\
    length (UseInterview.answers s') = S (length (UseInterview.answers s)) /\
    UseInterview.currentQuestionIndex s' = UseInterview.currentQuestionIndex s + 1.
Proof.
  intros Ha Hs Hlt Hf r1 r2. subst r2 r1.
  destruct (sendAnswer_failed st s answer evalResp Ha Hs Hlt Hf) as [error E].
  rewrite E. cbn [Eff.state Eff.trace fst snd].
  rewrite (sendAnswer_evaluated _ s answer ev) by (try reflexivity; exact Hlt).
  repeat split.
  - eexists. reflexivity.
  - exists (answered s answer (Api.ev_evaluation ev)). repeat split.
    cbn. rewrite length_app. cbn. lia.
Qed.

(** [endInterview] when the request succeeds. *)
Lemma endInterview_done (st : UseInterview.State) (s : UseInterview.InterviewSession)
    (now : Z) (u : unit) :
  UseInterview.currentSession st = Some s ->
  UseInterview.endInterview rid now (Js.Ok u) st =
  (Normal tt,
   {| UseInterview.isInterviewActive := false;
      UseInterview.currentSession := None;
      UseInterview.isLoading := UseInterview.isLoading st;
      UseInterview.currentStreamingMessage := UseInterview.currentStreamingMessage st;
      UseInterview.hasAutoLoaded := UseInterview.hasAutoLoaded st |},
   [ Call (Api.EndInterview rid (UseInterview.id s));
     OnMessage {| type := ai;
                  content :=
                    UseInterview.endText (length (UseInterview.answers s))
                      (UseInterview.elapsedMinutes now (UseInterview.startTime s)) |} ]).
Proof.
  destruct st as [a c l m h]; cbn. intros ->.
  unfold UseInterview.endInterview. eff_run. reflexivity.
Qed.

(** [endInterview] when the request fails. *)
Lemma endInterview_failed (st : UseInterview.State) (s : UseInterview.InterviewSession)
    (now : Z) (endResp : Js.FetchResult unit) :
  UseInterview.currentSession st = Some s ->
  UseInterview.failed endResp = true ->
  UseInterview.endInterview rid now endResp st =
  (Normal tt, st,
   [ Call (Api.EndInterview rid (UseInterview.id s));
     OnError UseInterview.endFailedError ]).
Proof.
  destruct st as [a c l m h]; cbn. intros -> Hf.
  unfold UseInterview.endInterview.
  destruct endResp as [e | status detail | body]; [| | discriminate];
    eff_run; reflexivity.
Qed.

(** C5.  Ending an active interview sends the request that marks the
    session completed and emits one summary message: the text below,
    which shows the number of recorded answers and the elapsed time,
    that is the milliseconds between the start of the session and the
    clock at the moment of ending, divided by 60000 and rounded down.
    It then turns the active flag off and drops the local session.
    When the request fails the state of the hook is untouched,
    [onError] receives the error, and ending again succeeds once the
    request does. *)
Theorem ending_clears_or_keeps_mirror
    (st : UseInterview.State) (s : UseInterview.InterviewSession)
    (now later : Z) (endResp : Js.FetchResult unit) :
  UseInterview.isInterviewActive st = true ->
  UseInterview.currentSession st = Some s ->
  let answeredCount := Z.of_nat (length (UseInterview.answers s)) in
  let minutes := (now - UseInterview.startTime s) / 60000 in
  let summary :=
    ("面试结束！感谢您的参与。" ++ Js.nl ++ Js.nl
     ++ "**面试问题数**: " ++ Js.show answeredCount ++ Js.nl
     ++ "**面试时长**: " ++ Js.show minutes ++ " 分钟" ++ Js.nl ++ Js.nl
     ++ "您可以回到简历编辑页面继续优化简历，或查看面试反馈报告。")%string in
  let done := UseInterview.endInterview rid now (Js.Ok tt) st in
  let kept := UseInterview.endInterview rid now endResp st in
  (Eff.trace done =
     [ Call (Api.EndInterview rid (UseInterview.id s));
       OnMessage {| type := ai; content := summary |} ] /\
   Js.includes summary (Js.show answeredCount) = true /\
   Js.includes summary (Js.show minutes) = true /\
   Js.includes summary ("**面试时长**: " ++ Js.show minutes ++ " 分钟")%string = true /\
   UseInterview.isInterviewActive (Eff.state done) = false /\
   UseInterview.currentSession (Eff.state done) = None) /\
  (UseInterview.failed endResp = true ->
   Eff.state kept = st /\
   Eff.trace kept =
     [ Call (Api.EndInterview rid (UseInterview.id s));
       OnError UseInterview.endFailedError ] /\
   let again := UseInterview.endInterview rid later (Js.Ok tt) (Eff.state kept) in
   calls (Eff.trace again) = [ Api.EndInterview rid (UseInterview.id s) ] /\
   UseInterview.isInterviewActive (Eff.state again) = false /\
   UseInterview.currentSession (Eff.state again) = None).
Proof.
  intros Ha Hs answeredCount minutes summary done kept.
  subst answeredCount minutes summary done kept. split.
  - rewrite (endInterview_done st s now tt Hs).
    destruct (endText_includes (length (UseInterview.answers s))
                ((now - UseInterview.startTime s) / 60000)) as [I1 I2].
    unfold UseInterview.endText in I1, I2.
    split; [reflexivity |]. split; [exact I1 |]. split; [exact I2 |].
    split; [| split; reflexivity].
    do 6 apply includes_skip.
    match goal with
    | |- Js.includes (?a ++ ?b ++ ?c ++ ?rest)%string _ = true =>
        replace (a ++ b ++ c ++ rest)%string with ((a ++ b ++ c) ++ rest)%string
          by (rewrite !string_app_assoc; reflexivity)
    end.
    apply includes_here.
  - intros Hf. rewrite (endInterview_failed st s now endResp Hs Hf).
    cbn [Eff.state Eff.trace fst snd].
    rewrite (endInterview_done st s later tt Hs).
    repeat split; reflexivity.
Qed.



(** C10.  While an interview is active, [startInterview] returns the
    current session as it is, sends no request and changes nothing: no
    session is created, however often it is called. *)
Theorem start_while_active_returns_current
    (st : UseInterview.State)
    (jdContent : option string) (questionCount : option Z) (now : Z)
    (sessionsResp : Js.FetchResult (list Api.InterviewSession))
    (startResp : Js.FetchResult Api.InterviewSession)
    (questionResp : Js.FetchResult Api.NextQuestion) :
  UseInterview.isInterviewActive st = true ->
  let r :=
    UseInterview.startInterview rid opts jdContent questionCount now
      sessionsResp startResp questionResp st in
  r = (Normal (UseInterview.currentSession st), st, []) /\
  calls (Eff.trace r) = [] /\
  UseInterview.startInterview rid opts jdContent questionCount now
    sessionsResp startResp questionResp (Eff.state r) = r.
Proof.
  intros Ha r. subst r.
  assert (E : UseInterview.startInterview rid opts jdContent questionCount now
                sessionsResp startResp questionResp st =
              (Normal (UseInterview.currentSession st), st, [])).
  { unfold UseInterview.startInterview.
    cbv beta iota delta [Eff.bind Eff.get Eff.ret]. rewrite Ha. reflexivity. }
  rewrite E. cbn [Eff.state Eff.trace fst snd]. rewrite E. repeat split.
Qed.

(** *** The mirror stays consistent *)

Lemma consistent_irrelevant (a : bool) (c : option UseInterview.InterviewSession)
    (l l' : bool) (m m' : string) (h h' : bool) :
  UseInterview.mirror_consistent (UseInterview.mkState a c l m h) =
  UseInterview.mirror_consistent (UseInterview.mkState a c l' m' h').
Proof. reflexivity. Qed.

Lemma loadExistingSession_consistent (st : UseInterview.State) (sessionId : Z)
    (sessionsResp : Js.FetchResult (list Api.InterviewSession)) :
  UseInterview.mirror_consistent st = true ->
  UseInterview.mirror_consistent
    (Eff.state (UseInterview.loadExistingSession rid sessionId sessionsResp st)) = true.
Proof.
  destruct st as [a c l m h]. intros H.
  unfold UseInterview.loadExistingSession.
  destruct sessionsResp as [e | status detail | sessions]; eff_run;
    try (rewrite <- H; apply consistent_irrelevant).
  destruct (find (fun s => Api.id s =? sessionId) sessions) as [stored|];
    [| rewrite <- H; apply consistent_irrelevant].
  destruct (Api.status stored =? "completed")%string;
    [rewrite <- H; apply consistent_irrelevant |].
  repeat match goal with |- context [if ?b then _ else _] => destruct b end;
    unfold UseInterview.mirror_consistent; cbn; apply Z.eqb_refl.
Qed.

Lemma autoLoad_consistent (st : UseInterview.State)
    (sessionsResp : Js.FetchResult (list Api.InterviewSession)) :
  UseInterview.mirror_consistent st = true ->
  UseInterview.mirror_consistent
    (Eff.state (UseInterview.autoLoad rid opts sessionsResp st)) = true.
Proof.
  intros H. unfold UseInterview.autoLoad.
  cbv beta iota delta [Eff.bind Eff.get Eff.ret].
  destruct (UseInterview.existingSessionId opts) as [sessionId|]; [| exact H].
  match goal with |- context [if ?b then _ else _] => destruct b end; [| exact H].
  pose proof (loadExistingSession_consistent
                (Eff.state (UseInterview.setHasAutoLoaded true st)) sessionId sessionsResp) as L.
  cbv beta iota delta [UseInterview.setHasAutoLoaded Eff.modify Eff.state fst snd] in L.
  cbv beta iota delta [UseInterview.setHasAutoLoaded Eff.modify].
  destruct (UseInterview.loadExistingSession rid sessionId sessionsResp _) as [[c s1] t1].
  destruct c; cbn in *; apply L; destruct st; exact H.
Qed.

Lemma sendAnswer_consistent (st : UseInterview.State) (answer : string)
    (evalResp : Js.FetchResult Api.Evaluation) :
  UseInterview.mirror_consistent st = true ->
  UseInterview.mirror_consistent
    (Eff.state (UseInterview.sendAnswer rid answer evalResp st)) = true.
Proof.
  intros H.
  destruct (UseInterview.currentSession st) as [s|] eqn:Hs;
    [| unfold UseInterview.sendAnswer; cbv beta iota delta [Eff.bind Eff.get Eff.ret];
       rewrite Hs; exact H].
  destruct (UseInterview.isInterviewActive st) eqn:Ha;
    [| unfold UseInterview.sendAnswer; cbv beta iota delta [Eff.bind Eff.get Eff.ret];
       rewrite Hs, Ha; exact H].
  assert (Hlen : Z.of_nat (length (UseInterview.answers s)) =
                 UseInterview.currentQuestionIndex s).
  { unfold UseInterview.mirror_consistent in H. rewrite Ha, Hs in H.
    apply Z.eqb_eq. exact H. }
  destruct (Z_lt_ge_dec (UseInterview.currentQuestionIndex s)
              (Z.of_nat (length (UseInterview.questions s)))) as [Hlt | Hge].
  - destruct (UseInterview.failed evalResp) eqn:Hf.
    + destruct (sendAnswer_failed st s answer evalResp Ha Hs Hlt Hf) as [error E].
      rewrite E. unfold UseInterview.mirror_consistent. cbn.
      apply Z.eqb_eq. exact Hlen.
    + destruct evalResp as [e | status detail | ev]; try discriminate.
      rewrite (sendAnswer_evaluated st s answer ev Ha Hs Hlt).
      unfold UseInterview.mirror_consistent. cbn.
      apply Z.eqb_eq. rewrite length_app. cbn [length]. lia.
  - rewrite (sendAnswer_exhausted st s answer evalResp Ha Hs Hge).
    unfold UseInterview.mirror_consistent. cbn.
    apply Z.eqb_eq. exact Hlen.
Qed.

Lemma endInterview_consistent (st : UseInterview.State) (now : Z)
    (endResp : Js.FetchResult unit) :
  UseInterview.mirror_consistent st = true ->
  UseInterview.mirror_consistent
    (Eff.state (UseInterview.endInterview rid now endResp st)) = true.
Proof.
  intros H.
  destruct (UseInterview.currentSession st) as [s|] eqn:Hs;
    [| unfold UseInterview.endInterview; cbv beta iota delta [Eff.bind Eff.get Eff.ret];
       rewrite Hs; exact H].
  destruct (UseInterview.failed endResp) eqn:Hf.
  - rewrite (endInterview_failed st s now endResp Hs Hf). exact H.
  - destruct endResp as [e | status detail | u]; try discriminate.
    rewrite (endInterview_done st s now u Hs). reflexivity.
Qed.

Lemma startInterview_consistent (st : UseInterview.State)
    (jdContent : option string) (questionCount : option Z) (now : Z)
    (sessionsResp : Js.FetchResult (list Api.InterviewSession))
    (startResp : Js.FetchResult Api.InterviewSession)
    (questionResp : Js.FetchResult Api.NextQuestion) :
  UseInterview.mirror_consistent st = true ->
  UseInterview.fresh_start startResp questionResp = true ->
  UseInterview.mirror_consistent
    (Eff.state (UseInterview.startInterview rid opts jdContent questionCount now
                  sessionsResp startResp questionResp st)) = true.
Proof.
  intros H Hfresh. unfold UseInterview.startInterview.
  cbv beta iota delta [Eff.bind Eff.get Eff.ret].
  destruct (UseInterview.isInterviewActive st) eqn:Ha; [exact H |].
  destruct (Js.truthy_id (UseInterview.existingSessionId opts)
            && negb (UseInterview.hasAutoLoaded st)); [exact H |].
  destruct (Js.truthy_id (UseInterview.existingSessionId opts)
            && UseInterview.hasAutoLoaded st).
  - destruct (UseInterview.existingSessionId opts) as [sessionId|]; [| exact H].
    pose proof (loadExistingSession_consistent st sessionId sessionsResp H) as L.
    destruct (UseInterview.loadExistingSession rid sessionId sessionsResp st) as [[c s1] t1].
    exact L.
  - destruct st as [a c l m h]. cbn in Ha. subst a.
    destruct startResp as [e | status detail | b]; eff_run; try reflexivity.
    cbn [UseInterview.fresh_start] in Hfresh.
    apply andb_true_iff in Hfresh. destruct Hfresh as [Hans Hq].
    apply Nat.eqb_eq in Hans.
    destruct questionResp as [e | status detail | q]; eff_run;
      unfold UseInterview.mirror_consistent; cbn;
      apply Z.eqb_eq; rewrite Hans; cbn.
    + reflexivity.
    + reflexivity.
    + apply Z.eqb_eq in Hq. symmetry. exact Hq.
Qed.

Lemma perform_consistent (op : UseInterview.Operation) (st : UseInterview.State) :
  UseInterview.mirror_consistent st = true ->
  UseInterview.fresh_operation op = true ->
  UseInterview.mirror_consistent
    (Eff.state (UseInterview.perform rid opts op st)) = true.
Proof.
  intros H Hop.
  destruct op as [sessionsResp
                 | jdContent questionCount now sessionsResp startResp questionResp
                 | answer evalResp
                 | now endResp]; cbn [UseInterview.perform].
  - apply autoLoad_consistent. exact H.
  - pose proof (startInterview_consistent st jdContent questionCount now
                  sessionsResp startResp questionResp H Hop) as S.
    cbv beta iota delta [Eff.bind Eff.ret].
    destruct (UseInterview.startInterview rid opts jdContent questionCount now
                sessionsResp startResp questionResp st) as [[c s1] t1].
    destruct c; cbn in *; exact S.
  - apply sendAnswer_consistent. exact H.
  - apply endInterview_consistent. exact H.
Qed.

(** C1, amended.  Start from a consistent mirror and let any sequence
    of operations complete one after the other: loading the session the
    options name, starting, submitting answers, ending.  If every
    session that a start creates comes back from the Session Store
    without answers, and the reply to the request for its first question
    (when that request succeeds) carries index 0, then whenever the
    interview is active afterwards the session held satisfies
    [answers.length == currentQuestionIndex].  Loading and submitting
    need no assumption on what the back end answers. *)
Theorem mirror_consistent_after_operations
    (ops : list UseInterview.Operation) (st : UseInterview.State) :
  UseInterview.mirror_consistent st = true ->
  forallb UseInterview.fresh_operation ops = true ->
  forall s,
    UseInterview.isInterviewActive (UseInterview.run rid opts ops st) = true ->
    UseInterview.currentSession (UseInterview.run rid opts ops st) = Some s ->
    Z.of_nat (length (UseInterview.answers s)) = UseInterview.currentQuestionIndex s.
Proof.
  intros H Hops.
  assert (C : UseInterview.mirror_consistent (UseInterview.run rid opts ops st) = true).
  { revert st H Hops. induction ops as [|op ops IH]; intros st H Hops.
    - exact H.
    - cbn [forallb] in Hops. apply andb_true_iff in Hops. destruct Hops as [Hop Hrest].
      cbn [UseInterview.run]. apply IH; [| exact Hrest].
      apply perform_consistent; assumption. }
  intros s Ha Hs. unfold UseInterview.mirror_consistent in C.
  rewrite Ha, Hs in C. apply Z.eqb_eq. exact C.
Qed.

(** *** The loading flag and the operations of the hook *)




End HookFacts.

(** ** The interview page *)

Ltac page_run :=
  cbv beta iota zeta delta
    [Eff.bind Eff.ret Eff.get Eff.modify Eff.emit Eff.throw Eff.try_catch Eff.finally
     Eff.completion Eff.state Eff.trace
     InterviewPage.setInterviewConfig InterviewPage.setMessages InterviewPage.setInputMessage
     InterviewPage.setInterviewTime InterviewPage.setCurrentQuestion
     InterviewPage.setHasStartedInterview InterviewPage.setInterviewError
     InterviewPage.setProcessedSessionRef InterviewPage.setHasCheckedExistingSession
     InterviewPage.setHook InterviewPage.toast InterviewPage.fetchEnd
     InterviewPage.deliver InterviewPage.deliverAll InterviewPage.runHook
     InterviewPage.resume InterviewPage.interviewConfig InterviewPage.messages
     InterviewPage.inputMessage InterviewPage.interviewTime InterviewPage.currentQuestion
     InterviewPage.hasStartedInterview InterviewPage.interviewError
     InterviewPage.processedSessionRef InterviewPage.hasCheckedExistingSession
     InterviewPage.hook InterviewPage.interviewOptions
     UseInterview.existingSessionId
     negb andb orb app fst snd].

Lemma calls_app (a b : list Event) : calls (a ++ b) = calls a ++ calls b.
Proof.
  induction a as [|e a IH]; [reflexivity |].
  destruct e; cbn; rewrite IH; reflexivity.
Qed.

Lemma prompts_app (a b : list Event) : prompts_of (a ++ b) = prompts_of a ++ prompts_of b.
Proof.
  induction a as [|e a IH]; [reflexivity |].
  destruct e; cbn; rewrite IH; reflexivity.
Qed.

(** Handing the events of the hook to the page's callbacks adds toasts
    only, never a request or a prompt, and leaves the cells of the hook
    alone. *)
Lemma deliverAll_spec (t : list Event) (s : InterviewPage.State) :
  calls (Eff.trace (InterviewPage.deliverAll t s)) = calls t /\
  prompts_of (Eff.trace (InterviewPage.deliverAll t s)) = prompts_of t /\
  InterviewPage.hook (Eff.state (InterviewPage.deliverAll t s)) = InterviewPage.hook s /\
  InterviewPage.resume (Eff.state (InterviewPage.deliverAll t s)) = InterviewPage.resume s.
Proof.
  revert s. induction t as [|e t IH]; intros s; [repeat split |].
  cbn [InterviewPage.deliverAll].
  destruct e as [r | m | err | p | k text];
    cbv beta iota zeta delta
      [InterviewPage.deliver Eff.bind Eff.emit Eff.modify InterviewPage.setMessages
       InterviewPage.setInterviewError InterviewPage.toast app];
    match goal with
    | |- context [InterviewPage.deliverAll t ?s'] =>
        destruct (IH s') as (C & P & Hh & Hr);
        destruct (InterviewPage.deliverAll t s') as [[c s1] t1]
    end;
    cbn in *; rewrite ?C, ?P, ?Hh, ?Hr; destruct s; repeat split.
Qed.

Lemma runHook_spec {A : Type} (m : Eff UseInterview.State A) (s : InterviewPage.State) :
  Eff.completion (InterviewPage.runHook m s) = Eff.completion (m (InterviewPage.hook s)) /\
  calls (Eff.trace (InterviewPage.runHook m s)) = calls (Eff.trace (m (InterviewPage.hook s))) /\
  prompts_of (Eff.trace (InterviewPage.runHook m s)) =
    prompts_of (Eff.trace (m (InterviewPage.hook s))) /\
  InterviewPage.hook (Eff.state (InterviewPage.runHook m s)) =
    Eff.state (m (InterviewPage.hook s)).
Proof.
  unfold InterviewPage.runHook.
  destruct (m (InterviewPage.hook s)) as [[c h] t].
  destruct (deliverAll_spec t (InterviewPage.setHook h s)) as (C & P & Hh & _).
  destruct (InterviewPage.deliverAll t (InterviewPage.setHook h s)) as [[c' s'] t'].
  cbn in *. rewrite C, P, Hh. destruct s; repeat split.
Qed.

(** The configuration a new session is created with. *)
Lemma startInterview_creates (rid : Z) (opts : UseInterview.Options)
    (st : UseInterview.State)
    (jdContent : option string) (questionCount : option Z) (now : Z)
    (sessionsResp : Js.FetchResult (list Api.InterviewSession))
    (startResp : Js.FetchResult Api.InterviewSession)
    (questionResp : Js.FetchResult Api.NextQuestion) :
  UseInterview.isInterviewActive st = false ->
  Js.truthy_id (UseInterview.existingSessionId opts) = false ->
  let r :=
    UseInterview.startInterview rid opts jdContent questionCount now
      sessionsResp startResp questionResp st in
  let config :=
    {| Api.cfg_job_position := Js.or_default (UseInterview.jobPosition opts) "未指定职位";
       Api.cfg_interview_mode := UseInterview.interviewMode opts;
       Api.cfg_jd_content := Js.or_default jdContent "";
       Api.cfg_question_count := Js.or_number questionCount 10 |} in
  prompts_of (Eff.trace r) = [] /\
  match startResp with
  | Js.Ok b =>
      calls (Eff.trace r) =
        [ Api.StartInterview rid config; Api.GetNextInterviewQuestion rid (Api.id b) ] /\
      UseInterview.isInterviewActive (Eff.state r) = true /\
      exists s s',
        Eff.completion r = Normal (Some s) /\
        UseInterview.currentSession (Eff.state r) = Some s' /\
        UseInterview.id s' = Api.id b
  | _ =>
      calls (Eff.trace r) = [ Api.StartInterview rid config ] /\
      Eff.completion r = Normal None /\
      UseInterview.isInterviewActive (Eff.state r) = false /\
      UseInterview.currentSession (Eff.state r) = UseInterview.currentSession st
  end.
Proof.
  intros Ha Hno r config. subst r config.
  unfold UseInterview.startInterview.
  cbv beta iota delta [Eff.bind Eff.get Eff.ret]. rewrite Ha, Hno.
  cbn [andb]. destruct st as [a c l m h]. cbn in Ha. subst a.
  destruct startResp as [e | status detail | b]; eff_run.
  - repeat split.
  - repeat split.
  - destruct questionResp as [e | status detail | q]; eff_run;
      (split; [reflexivity |]); (split; [reflexivity |]); (split; [reflexivity |]);
      eexists; eexists; repeat split.
Qed.

Section PageFacts.

Variable prid : Z.

(** [handleStartInterview] on a page that names no session and has not
    started one: the hook is asked to create a session. *)
Lemma handleStartInterview_creates (st : InterviewPage.State) (res : InterviewPage.Resume)
    (urlQuestionCount : option Z) (now : Z)
    (sessionsResp : Js.FetchResult (list Api.InterviewSession))
    (startResp : Js.FetchResult Api.InterviewSession)
    (questionResp : Js.FetchResult Api.NextQuestion) :
  InterviewPage.resume st = Some res ->
  Js.truthy_id (InterviewPage.sessionId (InterviewPage.interviewConfig st)) = false ->
  InterviewPage.hasStartedInterview st = false ->
  UseInterview.isInterviewActive (InterviewPage.hook st) = false ->
  let r :=
    InterviewPage.handleStartInterview prid urlQuestionCount now
      sessionsResp startResp questionResp st in
  let config := pageConfig (InterviewPage.interviewConfig st) urlQuestionCount in
  prompts_of (Eff.trace r) = [] /\
  match startResp with
  | Js.Ok b =>
      calls (Eff.trace r) =
        [ Api.StartInterview prid config; Api.GetNextInterviewQuestion prid (Api.id b) ] /\
      UseInterview.isInterviewActive (InterviewPage.hook (Eff.state r)) = true /\
      exists s',
        UseInterview.currentSession (InterviewPage.hook (Eff.state r)) = Some s' /\
        UseInterview.id s' = Api.id b
  | _ =>
      calls (Eff.trace r) = [ Api.StartInterview prid config ] /\
      UseInterview.isInterviewActive (InterviewPage.hook (Eff.state r)) = false /\
      UseInterview.currentSession (InterviewPage.hook (Eff.state r)) =
        UseInterview.currentSession (InterviewPage.hook st)
  end.
Proof.
  intros Hres Hsid Hstarted Hidle r config. subst r config.
  unfold InterviewPage.handleStartInterview.
  cbv beta iota zeta delta [Eff.bind Eff.get]. rewrite Hres, Hsid, Hstarted.
  cbn [negb andb].
  set (st1 := snd (fst (InterviewPage.setHasStartedInterview true st))).
  cbv beta iota zeta delta [InterviewPage.setHasStartedInterview Eff.modify
                            InterviewPage.setMessages InterviewPage.setInterviewTime
                            InterviewPage.setCurrentQuestion Eff.try_catch Eff.bind].
  match goal with
  | |- context [InterviewPage.runHook ?m ?s] =>
      pose proof (runHook_spec m s) as (Hc & Hcalls & Hprompts & Hhook);
      pose proof (startInterview_creates prid
                    (InterviewPage.interviewOptions (InterviewPage.interviewConfig st))
                    (InterviewPage.hook s)
                    (Some (InterviewPage.jd (InterviewPage.interviewConfig st)))
                    urlQuestionCount now sessionsResp startResp questionResp) as Hnew;
      destruct (InterviewPage.runHook m s) as [[c s2] t2]
  end.
  cbn [InterviewPage.hook] in Hnew, Hc, Hcalls, Hprompts, Hhook.
  specialize (Hnew Hidle Hsid).
  cbv zeta in Hnew. destruct Hnew as [Hp Hrest].
  cbn [Eff.completion Eff.state Eff.trace fst snd] in *.
  rewrite <- Hcalls, <- Hprompts, <- Hhook, <- Hc in *.
  clear Hc Hcalls Hprompts Hhook.
  unfold pageConfig. cbn [InterviewPage.interviewOptions UseInterview.jobPosition
                          UseInterview.interviewMode] in Hrest.
  destruct startResp as [e | status detail | b].
  - destruct Hrest as (Hcalls & Hcompl & Hact & Hsess). subst c.
    cbv beta iota zeta delta [Eff.ret fst snd Eff.state Eff.trace].
    rewrite app_nil_r. auto.
  - destruct Hrest as (Hcalls & Hcompl & Hact & Hsess). subst c.
    cbv beta iota zeta delta [Eff.ret fst snd Eff.state Eff.trace].
    rewrite app_nil_r. auto.
  - destruct Hrest as (Hcalls & Hact & s & s' & Hcompl & Hsess & Hid). subst c.
    cbv beta iota zeta delta [InterviewPage.toast Eff.emit fst snd Eff.state Eff.trace].
    cbn [app]. rewrite calls_app, prompts_app, Hcalls, Hp. cbn.
    repeat split; try assumption. exists s'. split; assumption.
Qed.

(** The check when the first active session of the list has fewer
    answers than questions, or no question at all: the user is asked
    about that session, and the only session an end request can name is
    that one. *)
Lemma autoStart_asks_about_first
    (st : InterviewPage.State) (res : InterviewPage.Resume)
    (token : option string)
    (sessions : list Api.InterviewSession) (first : Api.InterviewSession)
    (shouldContinue : bool) (endFetch : Js.FetchResult unit)
    (urlQuestionCount : option Z) (now : Z)
    (sessionsResp : Js.FetchResult (list Api.InterviewSession))
    (startResp : Js.FetchResult Api.InterviewSession)
    (questionResp : Js.FetchResult Api.NextQuestion) :
  InterviewPage.resume st = Some res ->
  UseInterview.isInterviewActive (InterviewPage.hook st) = false ->
  UseInterview.isLoading (InterviewPage.hook st) = false ->
  InterviewPage.hasStartedInterview st = false ->
  Js.truthy_id (InterviewPage.sessionId (InterviewPage.interviewConfig st)) = false ->
  InterviewPage.hasCheckedExistingSession st = false ->
  (Js.or_default token "" =? "")%string = false ->
  find (fun s => (Api.status s =? "active")%string) sessions = Some first ->
  InterviewPage.opt_eqb (InterviewPage.processedSessionRef st) (Api.id first) = false ->
  (length (Js.or_empty (Api.answers first))
   < length (Js.or_empty (Api.questions first))
   \/ length (Js.or_empty (Api.questions first)) = 0)%nat ->
  let r :=
    InterviewPage.autoStart prid token (Js.Ok sessions) shouldContinue endFetch
      urlQuestionCount now sessionsResp startResp questionResp st in
  prompts_of (Eff.trace r) =
    [ InterviewPage.confirmText (length (Js.or_empty (Api.answers first)))
        (length (Js.or_empty (Api.questions first))) ] /\
  (forall sid, In (Api.EndInterview prid sid) (calls (Eff.trace r)) -> sid = Api.id first) /\
  (shouldContinue = true -> calls (Eff.trace r) = [ Api.GetInterviewSessions prid ]).
Proof.
  intros Hres Hidle Hload Hstarted Hsid Hchecked Htoken Hfind Hproc Hopen r. subst r.
  unfold InterviewPage.autoStart.
  cbv beta iota zeta delta [Eff.bind Eff.get].
  rewrite Hres, Hidle, Hload, Hstarted, Hsid, Hchecked. cbn [negb andb].
  cbv beta iota zeta delta [InterviewPage.setHasCheckedExistingSession Eff.modify].
  set (st1 := InterviewPage.mkState _ _ _ _ _ _ _ _ _ true _).
  pose proof (handleStartInterview_creates st1 res urlQuestionCount now
                sessionsResp startResp questionResp Hres Hsid Hstarted Hidle) as Hnew.
  cbv zeta in Hnew.
  change (InterviewPage.interviewConfig st1) with (InterviewPage.interviewConfig st) in Hnew.
  unfold InterviewPage.checkAndStartInterview.
  cbv beta iota zeta delta [Eff.bind Eff.get Eff.try_catch Eff.emit Eff.ret].
  rewrite Htoken, Hfind.
  change (InterviewPage.processedSessionRef st1) with (InterviewPage.processedSessionRef st).
  rewrite Hproc.
  replace ((length (Js.or_empty (Api.questions first))
            <=? length (Js.or_empty (Api.answers first)))%nat
           && (0 <? length (Js.or_empty (Api.questions first)))%nat)
    with false.
  2:{ symmetry. apply andb_false_iff. destruct Hopen as [Hlt | Hzero].
      - left. apply Nat.leb_gt. exact Hlt.
      - right. apply Nat.ltb_ge. lia. }
  assert (Hcalls : forall sid,
            ~ In (Api.EndInterview prid sid)
                (calls (Eff.trace (InterviewPage.handleStartInterview prid urlQuestionCount
                                     now sessionsResp startResp questionResp st1)))).
  { intros sid Hin. destruct Hnew as [_ Hrest].
    destruct startResp; [ destruct Hrest as [E _] .. ]; rewrite E in Hin;
      cbn in Hin; intuition discriminate. }
  destruct Hnew as [Hp _].
  destruct shouldContinue.
  - cbv beta iota zeta delta
      [InterviewPage.setProcessedSessionRef InterviewPage.setInterviewConfig
       InterviewPage.setHasStartedInterview Eff.modify Eff.bind Eff.ret
       Eff.state Eff.trace fst snd app].
    cbn [calls prompts_of].
    split; [reflexivity |]. split; [| reflexivity].
    intros sid [H | []]. discriminate H.
  - destruct endFetch as [e | status detail | u];
      cbv beta iota zeta delta [InterviewPage.fetchEnd InterviewPage.toast
                                Eff.bind Eff.emit Eff.throw Eff.ret];
      try (destruct (InterviewPage.handleStartInterview prid urlQuestionCount now
                       sessionsResp startResp questionResp st1) as [[c s2] t2]);
      cbn [app Eff.state Eff.trace fst snd calls prompts_of In] in *;
      rewrite ?Hp;
      (split; [reflexivity |]); (split; [| discriminate]);
      intros sid [H | [H | H]]; try discriminate H;
        try (injection H as <-; reflexivity);
        try (exfalso; exact (Hcalls sid H)); try contradiction.
Qed.

(** C7, amended.  The page names no session and runs its check.  Only
    the first session of the stored list whose status is active is
    looked at.  When it has as many answers as questions, and at least
    one question, the page sends the request that ends it without asking
    the user anything, whatever that request returns, and goes on as if
    no active session existed: the next request creates a new session,
    which the hook adopts when the creation succeeds.  When the first
    active session has fewer answers than questions, or no question at
    all, the user is asked about that session and no request ends any
    other session, so a session that is active with every question
    answered but stands behind it in the list is left as it is. *)
Theorem stale_active_session_is_finalized_then_replaced
    (st : InterviewPage.State) (res : InterviewPage.Resume)
    (token : option string)
    (sessions : list Api.InterviewSession) (stored : Api.InterviewSession)
    (shouldContinue : bool) (endFetch : Js.FetchResult unit)
    (urlQuestionCount : option Z) (now : Z)
    (sessionsResp : Js.FetchResult (list Api.InterviewSession))
    (startResp : Js.FetchResult Api.InterviewSession)
    (questionResp : Js.FetchResult Api.NextQuestion) :
  InterviewPage.resume st = Some res ->
  UseInterview.isInterviewActive (InterviewPage.hook st) = false ->
  UseInterview.isLoading (InterviewPage.hook st) = false ->
  InterviewPage.hasStartedInterview st = false ->
  Js.truthy_id (InterviewPage.sessionId (InterviewPage.interviewConfig st)) = false ->
  InterviewPage.hasCheckedExistingSession st = false ->
  (Js.or_default token "" =? "")%string = false ->
  find (fun s => (Api.status s =? "active")%string) sessions = Some stored ->
  InterviewPage.opt_eqb (InterviewPage.processedSessionRef st) (Api.id stored) = false ->
  (length (Js.or_empty (Api.questions stored))
   <= length (Js.or_empty (Api.answers stored)))%nat ->
  (0 < length (Js.or_empty (Api.questions stored)))%nat ->
  let r :=
    InterviewPage.autoStart prid token (Js.Ok sessions) shouldContinue endFetch
      urlQuestionCount now sessionsResp startResp questionResp st in
  prompts_of (Eff.trace r) = [] /\
  (exists rest,
     calls (Eff.trace r) =
       Api.GetInterviewSessions prid
       :: Api.EndInterview prid (Api.id stored)
       :: Api.StartInterview prid (pageConfig (InterviewPage.interviewConfig st) urlQuestionCount)
       :: rest) /\
  (forall b, startResp = Js.Ok b ->
     UseInterview.isInterviewActive (InterviewPage.hook (Eff.state r)) = true /\
     exists s',
       UseInterview.currentSession (InterviewPage.hook (Eff.state r)) = Some s' /\
       UseInterview.id s' = Api.id b) /\
  (forall (ahead : list Api.InterviewSession) (first : Api.InterviewSession),
     find (fun s => (Api.status s =? "active")%string) ahead = Some first ->
     InterviewPage.opt_eqb (InterviewPage.processedSessionRef st) (Api.id first) = false ->
     (length (Js.or_empty (Api.answers first))
      < length (Js.or_empty (Api.questions first))
      \/ length (Js.or_empty (Api.questions first)) = 0)%nat ->
     let r' :=
       InterviewPage.autoStart prid token (Js.Ok (ahead ++ sessions)) shouldContinue endFetch
         urlQuestionCount now sessionsResp startResp questionResp st in
     prompts_of (Eff.trace r') =
       [ InterviewPage.confirmText (length (Js.or_empty (Api.answers first)))
           (length (Js.or_empty (Api.questions first))) ] /\
     (Api.id stored <> Api.id first ->
      ~ In (Api.EndInterview prid (Api.id stored)) (calls (Eff.trace r')))).
Proof.
  intros Hres Hidle Hload Hstarted Hsid Hchecked Htoken Hfind Hproc Hle Hpos r. subst r.
  assert (Hlater :
    forall (ahead : list Api.InterviewSession) (first : Api.InterviewSession),
      find (fun s => (Api.status s =? "active")%string) ahead = Some first ->
      InterviewPage.opt_eqb (InterviewPage.processedSessionRef st) (Api.id first) = false ->
      (length (Js.or_empty (Api.answers first))
       < length (Js.or_empty (Api.questions first))
       \/ length (Js.or_empty (Api.questions first)) = 0)%nat ->
      let r' :=
        InterviewPage.autoStart prid token (Js.Ok (ahead ++ sessions)) shouldContinue endFetch
          urlQuestionCount now sessionsResp startResp questionResp st in
      prompts_of (Eff.trace r') =
        [ InterviewPage.confirmText (length (Js.or_empty (Api.answers first)))
            (length (Js.or_empty (Api.questions first))) ] /\
      (Api.id stored <> Api.id first ->
       ~ In (Api.EndInterview prid (Api.id stored)) (calls (Eff.trace r')))).
  { intros ahead first Hahead Hproc' Hopen r'. subst r'.
    assert (Hfirst : find (fun s => (Api.status s =? "active")%string) (ahead ++ sessions)
                     = Some first).
    { clear - Hahead. induction ahead as [|x ahead IH]; [discriminate |].
      cbn [find app] in *. destruct (Api.status x =? "active")%string; auto. }
    destruct (autoStart_asks_about_first st res token (ahead ++ sessions) first
                shouldContinue endFetch urlQuestionCount now sessionsResp startResp
                questionResp Hres Hidle Hload Hstarted Hsid Hchecked Htoken Hfirst
                Hproc' Hopen) as (Hp & Hends & _).
    split; [exact Hp |]. intros Hne Hin. apply Hne. exact (Hends _ Hin). }
  refine ((fun H => conj (proj1 H)
                      (conj (proj1 (proj2 H)) (conj (proj2 (proj2 H)) Hlater))) _).
  clear Hlater.
  unfold InterviewPage.autoStart.
  cbv beta iota zeta delta [Eff.bind Eff.get].
  rewrite Hres, Hidle, Hload, Hstarted, Hsid, Hchecked. cbn [negb andb].
  cbv beta iota zeta delta [InterviewPage.setHasCheckedExistingSession Eff.modify].
  set (st1 := InterviewPage.mkState _ _ _ _ _ _ _ _ _ true _).
  pose proof (handleStartInterview_creates st1 res urlQuestionCount now
                sessionsResp startResp questionResp Hres Hsid Hstarted Hidle) as Hnew.
  cbv zeta in Hnew.
  change (InterviewPage.interviewConfig st1) with (InterviewPage.interviewConfig st) in Hnew.
  unfold InterviewPage.checkAndStartInterview.
  cbv beta iota zeta delta [Eff.bind Eff.get Eff.try_catch Eff.emit Eff.ret].
  rewrite Htoken, Hfind.
  change (InterviewPage.processedSessionRef st1) with (InterviewPage.processedSessionRef st).
  rewrite Hproc.
  replace (length (Js.or_empty (Api.questions stored))
           <=? length (Js.or_empty (Api.answers stored)))%nat
    with true by (symmetry; apply Nat.leb_le; exact Hle).
  replace (0 <? length (Js.or_empty (Api.questions stored)))%nat
    with true by (symmetry; apply Nat.ltb_lt; exact Hpos).
  cbn [andb].
  assert (Hcalls : exists rest,
            calls (Eff.trace (InterviewPage.handleStartInterview prid urlQuestionCount now
                                sessionsResp startResp questionResp st1)) =
              Api.StartInterview prid
                (pageConfig (InterviewPage.interviewConfig st) urlQuestionCount) :: rest).
  { destruct Hnew as [_ Hrest].
    destruct startResp; [ destruct Hrest as [E _] .. ]; rewrite E; eexists; reflexivity. }
  destruct Hcalls as [rest Hcalls]. destruct Hnew as [Hp Hrest].
  destruct endFetch as [e | status detail | u];
    cbv beta iota zeta delta [InterviewPage.fetchEnd Eff.bind Eff.emit Eff.throw Eff.ret];
    destruct (InterviewPage.handleStartInterview prid urlQuestionCount now
                sessionsResp startResp questionResp st1) as [[c s2] t2];
    cbn [app Eff.state Eff.trace fst snd calls prompts_of] in *;
    rewrite Hp, Hcalls;
    (split; [reflexivity |]); (split; [exists rest; reflexivity |]);
    intros b Hb; subst startResp; destruct Hrest as (_ & Hact & Hs'); split; assumption.
Qed.



End PageFacts.

(** ** The session list *)

Lemma insertByCreated_perm (x : Api.InterviewSession) (l : list Api.InterviewSession) :
  Permutation (InterviewsPage.insertByCreated x l) (x :: l).
Proof.
  induction l as [|y l IH]; cbn [InterviewsPage.insertByCreated].
  - apply Permutation_refl.
  - destruct (Api.created_at y - Api.created_at x <=? 0).
    + apply Permutation_refl.
    + apply perm_trans with (y :: x :: l).
      * apply perm_skip. exact IH.
      * apply perm_swap.
Qed.

Lemma sortByCreated_perm (l : list Api.InterviewSession) :
  Permutation (InterviewsPage.sortByCreated l) l.
Proof.
  induction l as [|x l IH]; cbn.
  - apply perm_nil.
  - apply perm_trans with (x :: InterviewsPage.sortByCreated l).
    + apply insertByCreated_perm.
    + apply perm_skip. exact IH.
Qed.

Lemma insertByCreated_sorted (x : Api.InterviewSession) (l : list Api.InterviewSession) :
  StronglySorted newer_or_equal l ->
  StronglySorted newer_or_equal (InterviewsPage.insertByCreated x l).
Proof.
  induction l as [|y l IH]; intros Hs; cbn [InterviewsPage.insertByCreated].
  - constructor; constructor.
  - inversion Hs as [|? ? Hl Hy]; subst.
    destruct (Api.created_at y - Api.created_at x <=? 0) eqn:E.
    + apply Z.leb_le in E. constructor; [exact Hs |].
      constructor.
      * unfold newer_or_equal. lia.
      * eapply Forall_impl; [| exact Hy].
        unfold newer_or_equal. intros z Hz. lia.
    + apply Z.leb_gt in E. constructor.
      * apply IH. exact Hl.
      * apply Forall_forall. intros z Hz.
        apply (Permutation_in _ (insertByCreated_perm x l)) in Hz.
        destruct Hz as [<- | Hz].
        -- unfold newer_or_equal. lia.
        -- rewrite Forall_forall in Hy. apply Hy. exact Hz.
Qed.

Lemma sortByCreated_sorted (l : list Api.InterviewSession) :
  StronglySorted newer_or_equal (InterviewsPage.sortByCreated l).
Proof.
  induction l as [|x l IH]; cbn.
  - constructor.
  - apply insertByCreated_sorted. exact IH.
Qed.

Lemma markDuplicate_session (allSessions : list Api.InterviewSession)
    (s : Api.InterviewSession) :
  InterviewsPage.session (InterviewsPage.markDuplicate allSessions s) = s.
Proof.
  unfold InterviewsPage.markDuplicate.
  destruct ((Api.status s =? "active")%string && _); [| reflexivity].
  destruct (find _ _); reflexivity.
Qed.

(** A session is flagged exactly when it is active and the list holds
    another active session of the same resume that was created later. *)
Lemma markDuplicate_flag (allSessions : list Api.InterviewSession)
    (s : Api.InterviewSession) :
  InterviewsPage.isPossibleDuplicate (InterviewsPage.markDuplicate allSessions s) = true <->
  Api.status s = "active"%string /\
  exists s', In s' allSessions /\
             Api.resume_id s' = Api.resume_id s /\
             Api.status s' = "active"%string /\
             Api.id s' <> Api.id s /\
             Api.created_at s < Api.created_at s'.
Proof.
  unfold InterviewsPage.markDuplicate, InterviewsPage.duplicateActiveSessions.
  set (other := fun s0 : Api.InterviewSession =>
                  (Api.resume_id s0 =? Api.resume_id s)
                  && (Api.status s0 =? "active")%string
                  && negb (Api.id s0 =? Api.id s)).
  set (newer := fun s0 : Api.InterviewSession => Api.created_at s0 >? Api.created_at s).
  assert (Hother : forall x, In x (filter other allSessions) <->
                     In x allSessions /\ Api.resume_id x = Api.resume_id s /\
                     Api.status x = "active"%string /\ Api.id x <> Api.id s).
  { intros x. rewrite filter_In. unfold other.
    rewrite !andb_true_iff, negb_true_iff, Z.eqb_eq, Z.eqb_neq, String.eqb_eq. tauto. }
  split.
  - destruct (Api.status s =? "active")%string eqn:Es; cbn [andb]; [| discriminate].
    destruct (0 <? length (filter other allSessions))%nat; [| discriminate].
    destruct (find newer (filter other allSessions)) as [x|] eqn:Ef; [| discriminate].
    intros _. apply find_some in Ef. destruct Ef as [Hin Hnew].
    apply Hother in Hin. destruct Hin as (Hin & Hr & Ha & Hi).
    split; [apply String.eqb_eq; exact Es |].
    exists x. unfold newer in Hnew. rewrite Z.gtb_ltb in Hnew. apply Z.ltb_lt in Hnew.
    repeat split; assumption.
  - intros (Hs & x & Hin & Hr & Ha & Hi & Hlt).
    apply String.eqb_eq in Hs. rewrite Hs. cbn [andb].
    assert (Hx : In x (filter other allSessions)) by (apply Hother; auto).
    destruct (filter other allSessions) as [|y l] eqn:Efil; [destruct Hx |].
    cbn [length Nat.ltb Nat.leb]. rewrite <- Efil in *.
    destruct (find newer (filter other allSessions)) as [z|] eqn:Ef; [reflexivity |].
    exfalso. pose proof (find_none _ _ Ef x Hx) as Hn.
    unfold newer in Hn. rewrite Z.gtb_ltb in Hn. apply Z.ltb_ge in Hn. lia.
Qed.

(** C8.  The listed sessions are the gathered ones ordered by
    [created_at], newest first.  Of two distinct active sessions of one
    resume with different creation times the older is flagged as a
    possible duplicate, and the active session of that resume that was
    created last is not; a session is flagged only if it is active and
    an active session of the same resume with another id was created
    after it. *)
Theorem older_active_sessions_are_flagged
    (allSessions : list Api.InterviewSession) (older newest : Api.InterviewSession) :
  In older allSessions ->
  In newest allSessions ->
  Api.status older = "active"%string ->
  Api.status newest = "active"%string ->
  Api.resume_id older = Api.resume_id newest ->
  Api.id older <> Api.id newest ->
  Api.created_at older < Api.created_at newest ->
  (forall s, In s allSessions ->
             Api.status s = "active"%string ->
             Api.resume_id s = Api.resume_id newest ->
             Api.created_at s <= Api.created_at newest) ->
  let listed := InterviewsPage.processSessions allSessions in
  StronglySorted newer_or_equal (map InterviewsPage.session listed) /\
  Permutation (map InterviewsPage.session listed) allSessions /\
  In {| InterviewsPage.session := older; InterviewsPage.isPossibleDuplicate := true |} listed /\
  In {| InterviewsPage.session := newest; InterviewsPage.isPossibleDuplicate := false |} listed /\
  (forall l, In l listed ->
     (InterviewsPage.isPossibleDuplicate l = true <->
      Api.status (InterviewsPage.session l) = "active"%string /\
      exists s', In s' allSessions /\
                 Api.resume_id s' = Api.resume_id (InterviewsPage.session l) /\
                 Api.status s' = "active"%string /\
                 Api.id s' <> Api.id (InterviewsPage.session l) /\
                 Api.created_at (InterviewsPage.session l) < Api.created_at s')).
Proof.
  intros Hold Hnew Hao Han Hres Hid Hlt Hmax listed. subst listed.
  unfold InterviewsPage.processSessions.
  set (sorted := InterviewsPage.sortByCreated allSessions).
  assert (Hperm : Permutation sorted allSessions) by apply sortByCreated_perm.
  assert (Hmap : map InterviewsPage.session
                   (map (InterviewsPage.markDuplicate sorted) sorted) = sorted).
  { rewrite map_map. transitivity (map (fun s : Api.InterviewSession => s) sorted).
    - apply map_ext. intros s. apply markDuplicate_session.
    - apply map_id. }
  assert (Hlisted : forall s, In s sorted ->
            In {| InterviewsPage.session := s;
                  InterviewsPage.isPossibleDuplicate :=
                    InterviewsPage.isPossibleDuplicate
                      (InterviewsPage.markDuplicate sorted s) |}
               (map (InterviewsPage.markDuplicate sorted) sorted)).
  { intros s Hs. apply in_map_iff. exists s. split; [| exact Hs].
    pose proof (markDuplicate_session sorted s) as E.
    destruct (InterviewsPage.markDuplicate sorted s) as [s0 f]. cbn in *. subst s0.
    reflexivity. }
  assert (Hin : forall s, In s sorted <-> In s allSessions).
  { intros s. split; intros H.
    - apply (Permutation_in _ Hperm). exact H.
    - apply (Permutation_in _ (Permutation_sym Hperm)). exact H. }
  rewrite Hmap. split; [| split; [| split; [| split]]].
  - apply sortByCreated_sorted.
  - exact Hperm.
  - assert (F : InterviewsPage.isPossibleDuplicate
                  (InterviewsPage.markDuplicate sorted older) = true).
    { apply markDuplicate_flag. split; [exact Hao |].
      exists newest. rewrite Hin. repeat split; auto. }
    rewrite <- F. apply Hlisted. apply Hin. exact Hold.
  - assert (F : InterviewsPage.isPossibleDuplicate
                  (InterviewsPage.markDuplicate sorted newest) = false).
    { apply not_true_is_false. intros F. apply markDuplicate_flag in F.
      destruct F as (_ & x & Hx & Hr & Ha & _ & Hnewer).
      apply Hin in Hx. specialize (Hmax x Hx Ha Hr). lia. }
    rewrite <- F. apply Hlisted. apply Hin. exact Hnew.
  - intros l Hl. apply in_map_iff in Hl. destruct Hl as (s & <- & Hs).
    rewrite markDuplicate_session, markDuplicate_flag.
    split; intros (Ha & x & Hx & Hrest); (split; [exact Ha |]); exists x;
      (split; [apply Hin; exact Hx | exact Hrest]).
Qed.

(** ** Worked instances *)

(** C1: a start whose first question comes back with index 1.  The
    operation completes, the interview is active, and the mirror holds
    no answer while its index is 1. *)
Lemma start_with_shifted_index_breaks_consistency :
  let r :=
    UseInterview.startInterview 1 sampleOptions None (Some 2) 1000
      (Js.Ok []) (Js.Ok sampleCreated) (Js.Ok (sampleFirstQuestion 1))
      UseInterview.initial in
  (exists s, Eff.completion r = Normal (Some s)) /\
  errors_of (Eff.trace r) = [] /\
  UseInterview.isInterviewActive (Eff.state r) = true /\
  exists s,
    UseInterview.currentSession (Eff.state r) = Some s /\
    length (UseInterview.answers s) = 0%nat /\
    UseInterview.currentQuestionIndex s = 1 /\
    Z.of_nat (length (UseInterview.answers s)) <> UseInterview.currentQuestionIndex s.
Proof.
  cbv zeta. split; [eexists; reflexivity |].
  split; [reflexivity |]. split; [reflexivity |].
  eexists. split; [reflexivity |]. cbn. repeat split. discriminate.
Qed.

Lemma mirror_consistent_after_sample_run :
  UseInterview.mirror_consistent UseInterview.initial = true /\
  forallb UseInterview.fresh_operation sampleRun = true /\
  UseInterview.isInterviewActive
    (UseInterview.run 1 sampleOptions sampleRun UseInterview.initial) = true /\
  forall s,
    UseInterview.currentSession
      (UseInterview.run 1 sampleOptions sampleRun UseInterview.initial) = Some s ->
    Z.of_nat (length (UseInterview.answers s)) = UseInterview.currentQuestionIndex s.
Proof.
  split; [reflexivity |]. split; [reflexivity |]. split; [reflexivity |].
  intros s Hs.
  apply (mirror_consistent_after_operations 1 sampleOptions sampleRun UseInterview.initial);
    [reflexivity | reflexivity | reflexivity | exact Hs].
Defined.

(** C2: an evaluator that returns an empty feedback text.  The message
    that follows the submission is the fixed sentence, not the feedback. *)
Lemma empty_feedback_is_replaced :
  let st := activeWith sampleSession in
  let ev := sampleEvaluation "" in
  let r := UseInterview.sendAnswer 1 "I built a scheduler." (Js.Ok ev) st in
  UseInterview.isInterviewActive st = true /\
  UseInterview.currentSession st = Some sampleSession /\
  UseInterview.currentQuestionIndex sampleSession
    < Z.of_nat (length (UseInterview.questions sampleSession)) /\
  messages_of (Eff.trace r) =
    [ {| type := user; content := "I built a scheduler." |};
      {| type := ai; content := UseInterview.nextQuestionText |} ] /\
  messages_of (Eff.trace r) <>
    [ {| type := user; content := "I built a scheduler." |};
      {| type := ai; content := Api.ev_feedback ev |} ].
Proof.
  cbv zeta. split; [reflexivity |]. split; [reflexivity |].
  split; [cbn; lia |]. split; [reflexivity |].
  intros H. discriminate H.
Qed.

Lemma answered_submission_advances_sample :
  let st := activeWith sampleSession in
  let ev := sampleEvaluation "Good. Next question." in
  let r := UseInterview.sendAnswer 1 "I built a scheduler." (Js.Ok ev) st in
  UseInterview.isInterviewActive st = true /\
  UseInterview.currentSession st = Some sampleSession /\
  UseInterview.currentQuestionIndex sampleSession
    < Z.of_nat (length (UseInterview.questions sampleSession)) /\
  exists text s',
    Eff.trace r =
      [ OnMessage {| type := user; content := "I built a scheduler." |};
        Call (Api.SubmitInterviewAnswer 1 7 "I built a scheduler." 0);
        OnMessage {| type := ai; content := text |} ] /\
    (Api.ev_feedback ev <> ""%string -> text = Api.ev_feedback ev) /\
    UseInterview.currentSession (Eff.state r) = Some s' /\
    UseInterview.currentQuestionIndex s' = 1.
Proof.
  cbv zeta.
  assert (Ha : UseInterview.isInterviewActive (activeWith sampleSession) = true)
    by reflexivity.
  assert (Hs : UseInterview.currentSession (activeWith sampleSession) = Some sampleSession)
    by reflexivity.
  assert (Hlt : UseInterview.currentQuestionIndex sampleSession
                < Z.of_nat (length (UseInterview.questions sampleSession)))
    by (cbn; lia).
  split; [exact Ha |]. split; [exact Hs |]. split; [exact Hlt |].
  destruct (answered_submission_advances 1 (activeWith sampleSession) sampleSession
              "I built a scheduler." (sampleEvaluation "Good. Next question.") Ha Hs Hlt)
    as (text & s' & Ht & Hfb & _ & _ & Hs' & _ & Hidx & _).
  exists text, s'. repeat split; assumption.
Defined.

Lemma exhausted_submission_sample :
  let st := activeWith sampleExhausted in
  let r := UseInterview.sendAnswer 1 "One more thing." (Js.Ok (sampleEvaluation "Noted.")) st in
  UseInterview.currentQuestionIndex sampleExhausted
    >= Z.of_nat (length (UseInterview.questions sampleExhausted)) /\
  calls (Eff.trace r) = [] /\
  UseInterview.currentSession (Eff.state r) = Some sampleExhausted /\
  UseInterview.isInterviewActive (Eff.state r) = true.
Proof.
  cbv zeta.
  assert (Hge : UseInterview.currentQuestionIndex sampleExhausted
                >= Z.of_nat (length (UseInterview.questions sampleExhausted)))
    by (cbn; lia).
  split; [exact Hge |].
  destruct (exhausted_submission_leaves_session 1 (activeWith sampleExhausted)
              sampleExhausted "One more thing." (Js.Ok (sampleEvaluation "Noted."))
              eq_refl eq_refl Hge)
    as (Hc & _ & _ & _ & _ & Hs & Ha).
  repeat split; assumption.
Defined.

Lemma failed_submission_sample :
  let st := activeWith sampleSession in
  let lost := Js.Rejected (Js.Error "Failed to fetch") in
  let r1 := UseInterview.sendAnswer 1 "I built a scheduler." lost st in
  let r2 :=
    UseInterview.sendAnswer 1 "I built a scheduler."
      (Js.Ok (sampleEvaluation "Good. Next question.")) (Eff.state r1) in
  UseInterview.failed lost = true /\
  UseInterview.currentSession (Eff.state r1) = Some sampleSession /\
  (exists message, errors_of (Eff.trace r1) = [message]) /\
  exists s',
    UseInterview.currentSession (Eff.state r2) = Some s' /\
    length (UseInterview.answers s') = 1%nat.
Proof.
  cbv zeta. split; [reflexivity |].
  assert (Hlt : UseInterview.currentQuestionIndex sampleSession
                < Z.of_nat (length (UseInterview.questions sampleSession)))
    by (cbn; lia).
  destruct (failed_submission_is_retryable 1 (activeWith sampleSession) sampleSession
              "I built a scheduler." (Js.Rejected (Js.Error "Failed to fetch"))
              (sampleEvaluation "Good. Next question.") eq_refl eq_refl Hlt eq_refl)
    as (Hs & _ & He & _ & s' & Hs' & _ & Hlen & _).
  split; [exact Hs |]. split; [exact He |].
  exists s'. split; [exact Hs' | exact Hlen].
Defined.

Lemma ending_sample :
  let st := activeWith sampleExhausted in
  let done := UseInterview.endInterview 1 181000 (Js.Ok tt) st in
  let kept := UseInterview.endInterview 1 181000 (Js.NotOk 500 "") st in
  UseInterview.failed (Js.NotOk (A := unit) 500 "") = true /\
  calls (Eff.trace done) = [ Api.EndInterview 1 7 ] /\
  (exists text,
     messages_of (Eff.trace done) = [ {| type := ai; content := text |} ] /\
     Js.includes text "**面试问题数**: 2" = true /\
     Js.includes text "**面试时长**: 3 分钟" = true) /\
  UseInterview.currentSession (Eff.state done) = None /\
  UseInterview.isInterviewActive (Eff.state done) = false /\
  Eff.state kept = st /\
  errors_of (Eff.trace kept) = [ UseInterview.endFailedError ].
Proof.
  cbv zeta. split; [reflexivity |].
  destruct (ending_clears_or_keeps_mirror 1 (activeWith sampleExhausted) sampleExhausted
              181000 200000 (Js.NotOk 500 "") eq_refl eq_refl)
    as ((Ht & _ & _ & Hm & Ha & Hs) & Hkept).
  destruct (Hkept eq_refl) as (Hst & Hte & _).
  rewrite Ht, Hte. cbn [calls messages_of errors_of].
  split; [reflexivity |].
  split; [eexists; split; [reflexivity |]; split; [reflexivity | exact Hm] |].
  repeat split; assumption.
Defined.


Lemma start_while_active_sample :
  let st := activeWith sampleSession in
  let r :=
    UseInterview.startInterview 1 sampleOptions None (Some 2) 1000
      (Js.Ok []) (Js.Ok sampleCreated) (Js.Ok (sampleFirstQuestion 0)) st in
  UseInterview.isInterviewActive st = true /\
  r = (Normal (Some sampleSession), st, []).
Proof.
  cbv zeta. split; [reflexivity |].
  apply (start_while_active_returns_current 1 sampleOptions (activeWith sampleSession)
           None (Some 2) 1000 (Js.Ok []) (Js.Ok sampleCreated)
           (Js.Ok (sampleFirstQuestion 0)) eq_refl).
Defined.

(** C7: a stored list in which a session with a question left stands
    before a session that is active with every question answered.  The
    page names no session.  The user is asked about the first one, and
    whatever the user chooses no request ends the second. *)
Lemma stale_session_behind_another_is_kept :
  let sessions := [ sampleHalfway; sampleStale ] in
  let st := samplePage UseInterview.initial in
  let run (shouldContinue : bool) :=
    InterviewPage.autoStart 1 (Some "token") (Js.Ok sessions)
      shouldContinue (Js.Ok tt) (Some 2) 1000 (Js.Ok []) (Js.Ok sampleCreated)
      (Js.Ok (sampleFirstQuestion 0)) st in
  InterviewPage.sessionId (InterviewPage.interviewConfig st) = None /\
  In sampleStale sessions /\
  Api.status sampleStale = "active"%string /\
  (length (Js.or_empty (Api.questions sampleStale))
   <= length (Js.or_empty (Api.answers sampleStale)))%nat /\
  (0 < length (Js.or_empty (Api.questions sampleStale)))%nat /\
  prompts_of (Eff.trace (run true)) = [ InterviewPage.confirmText 1 2 ] /\
  calls (Eff.trace (run true)) = [ Api.GetInterviewSessions 1 ] /\
  prompts_of (Eff.trace (run false)) = [ InterviewPage.confirmText 1 2 ] /\
  calls (Eff.trace (run false)) =
    [ Api.GetInterviewSessions 1;
      Api.EndInterview 1 (Api.id sampleHalfway);
      Api.StartInterview 1 (pageConfig (InterviewPage.interviewConfig st) (Some 2));
      Api.GetNextInterviewQuestion 1 7 ] /\
  forall shouldContinue,
    ~ In (Api.EndInterview 1 (Api.id sampleStale)) (calls (Eff.trace (run shouldContinue))).
Proof.
  cbv zeta. split; [reflexivity |]. split; [right; left; reflexivity |].
  split; [reflexivity |]. split; [cbn; lia |]. split; [cbn; lia |].
  split; [reflexivity |]. split; [reflexivity |].
  split; [reflexivity |]. split; [reflexivity |].
  intros [|]; vm_compute; intuition discriminate.
Qed.

Lemma stale_active_session_sample :
  let st := samplePage UseInterview.initial in
  let r :=
    InterviewPage.autoStart 1 (Some "token") (Js.Ok [ sampleFinished; sampleStale ])
      true (Js.Ok tt) (Some 2) 1000 (Js.Ok []) (Js.Ok sampleCreated)
      (Js.Ok (sampleFirstQuestion 0)) st in
  let r' :=
    InterviewPage.autoStart 1 (Some "token")
      (Js.Ok ([ sampleHalfway ] ++ [ sampleFinished; sampleStale ]))
      true (Js.Ok tt) (Some 2) 1000 (Js.Ok []) (Js.Ok sampleCreated)
      (Js.Ok (sampleFirstQuestion 0)) st in
  find (fun s => (Api.status s =? "active")%string) [ sampleFinished; sampleStale ]
    = Some sampleStale /\
  prompts_of (Eff.trace r) = [] /\
  (exists rest,
     calls (Eff.trace r) =
       Api.GetInterviewSessions 1 :: Api.EndInterview 1 5
       :: Api.StartInterview 1 (pageConfig (InterviewPage.interviewConfig st) (Some 2))
       :: rest) /\
  (exists s',
     UseInterview.currentSession (InterviewPage.hook (Eff.state r)) = Some s' /\
     UseInterview.id s' = 7) /\
  prompts_of (Eff.trace r') = [ InterviewPage.confirmText 1 2 ] /\
  ~ In (Api.EndInterview 1 5) (calls (Eff.trace r')).
Proof.
  cbv zeta. split; [reflexivity |].
  destruct (stale_active_session_is_finalized_then_replaced 1
              (samplePage UseInterview.initial)
              {| InterviewPage.resume_id := 1; InterviewPage.title := "My resume" |}
              (Some "token") [ sampleFinished; sampleStale ] sampleStale
              true (Js.Ok tt) (Some 2) 1000 (Js.Ok []) (Js.Ok sampleCreated)
              (Js.Ok (sampleFirstQuestion 0))
              eq_refl eq_refl eq_refl eq_refl eq_refl eq_refl eq_refl eq_refl eq_refl
              (le_n 2) (Nat.lt_0_succ 1))
    as (Hp & Hc & Hnew & Hlater).
  split; [exact Hp |]. split; [exact Hc |].
  split.
  - destruct (Hnew sampleCreated eq_refl) as (_ & s' & Hs' & Hid).
    exists s'. split; [exact Hs' | exact Hid].
  - destruct (Hlater [ sampleHalfway ] sampleHalfway eq_refl eq_refl
                (or_introl (Nat.lt_succ_diag_r 1))) as (Hp' & Hkept).
    split; [exact Hp' |]. apply Hkept. discriminate.
Defined.

Lemma older_active_session_sample :
  In sampleOlder sampleListing /\
  In sampleNewest sampleListing /\
  Api.created_at sampleOlder < Api.created_at sampleNewest /\
  map InterviewsPage.session (InterviewsPage.processSessions sampleListing) =
    [ sampleFinished; sampleNewest; sampleOlder ] /\
  In {| InterviewsPage.session := sampleOlder; InterviewsPage.isPossibleDuplicate := true |}
     (InterviewsPage.processSessions sampleListing) /\
  In {| InterviewsPage.session := sampleNewest; InterviewsPage.isPossibleDuplicate := false |}
     (InterviewsPage.processSessions sampleListing).
Proof.
  assert (Ho : In sampleOlder sampleListing) by (left; reflexivity).
  assert (Hn : In sampleNewest sampleListing) by (right; right; left; reflexivity).
  assert (Hlt : Api.created_at sampleOlder < Api.created_at sampleNewest) by (cbn; lia).
  assert (Hid : Api.id sampleOlder <> Api.id sampleNewest) by (cbn; lia).
  assert (Hmax : forall s, In s sampleListing ->
                   Api.status s = "active"%string ->
                   Api.resume_id s = Api.resume_id sampleNewest ->
                   Api.created_at s <= Api.created_at sampleNewest).
  { intros s [<- | [<- | [<- | []]]] Ha _; cbn; try lia; cbn in Ha; discriminate Ha. }
  split; [exact Ho |]. split; [exact Hn |]. split; [exact Hlt |].
  split; [reflexivity |].
  destruct (older_active_sessions_are_flagged sampleListing sampleOlder sampleNewest
              Ho Hn eq_refl eq_refl eq_refl Hid Hlt Hmax)
    as (_ & _ & Hflag & Hclear & _).
  split; [exact Hflag | exact Hclear].
Defined.



(* ================================================================== *)
(** * Further properties *)

(** ** Lines of a stream *)

Lemma splitLines_nonempty (text : string) : Sse.splitLines text <> [].
Proof.
  destruct text as [|c rest]; cbn [Sse.splitLines]; [discriminate |].
  destruct (Ascii.eqb c (ascii_of_nat 10)); [discriminate |].
  destruct (Sse.splitLines rest); discriminate.
Qed.

(** Splitting a text in two and splitting the halves: the last piece of
    the first half continues into the second. *)
Lemma splitLines_app (a b : string) :
  Sse.splitLines (a ++ b) =
  removelast (Sse.splitLines a) ++ Sse.splitLines (last (Sse.splitLines a) "" ++ b).
Proof.
  induction a as [|c a IH]; [reflexivity |].
  cbn [String.append Sse.splitLines].
  pose proof (splitLines_nonempty a) as Hne.
  destruct (Ascii.eqb c (ascii_of_nat 10)) eqn:Ec.
  - destruct (Sse.splitLines a) as [|p ps] eqn:Ea; [contradiction |].
    rewrite IH. reflexivity.
  - rewrite IH.
    destruct (Sse.splitLines a) as [|p ps] eqn:Ea; [contradiction |].
    destruct ps as [|q qs].
    + cbn [removelast last app String.append Sse.splitLines]. rewrite Ec. reflexivity.
    + reflexivity.
Qed.

(** The piece kept as buffer holds no line feed. *)
Lemma splitLines_last (text : string) :
  Sse.splitLines (last (Sse.splitLines text) "") = [last (Sse.splitLines text) ""].
Proof.
  induction text as [|c text IH]; [reflexivity |].
  cbn [Sse.splitLines].
  pose proof (splitLines_nonempty text) as Hne.
  destruct (Ascii.eqb c (ascii_of_nat 10)) eqn:Ec.
  - destruct (Sse.splitLines text) as [|p ps] eqn:Ea; [contradiction |]. exact IH.
  - destruct (Sse.splitLines text) as [|p ps] eqn:Ea; [contradiction |].
    destruct ps as [|q qs].
    + cbn [last] in *. cbn [Sse.splitLines]. rewrite Ec, IH. reflexivity.
    + exact IH.
Qed.

Section LoopFacts.

Variable T : Type.
Variable body : string -> T -> T * list Sse.Notice * bool.

Lemma forLines_app (front back : list string) (t : T) :
  Sse.forLines T body (front ++ back) t =
  match Sse.forLines T body front t with
  | (t1, n1, true) => (t1, n1, true)
  | (t1, n1, false) =>
      match Sse.forLines T body back t1 with
      | (t2, n2, returned) => (t2, n1 ++ n2, returned)
      end
  end.
Proof.
  revert t. induction front as [|line front IH]; intros t; cbn [app Sse.forLines].
  - destruct (Sse.forLines T body back t) as [[t2 n2] r]. reflexivity.
  - destruct (body line t) as [[t1 n1] [|]]; [reflexivity |].
    rewrite IH.
    destruct (Sse.forLines T body front t1) as [[t2 n2] [|]]; [reflexivity |].
    destruct (Sse.forLines T body back t2) as [[t3 n3] r].
    rewrite app_assoc. reflexivity.
Qed.

(** Reading the chunks one by one handles the complete lines of the
    whole text, in order. *)
Lemma readAll_whole (chunks : list string) (buffer : string) (t : T) :
  Sse.splitLines buffer = [buffer] ->
  Sse.readAll T body chunks buffer t =
  Sse.forLines T body
    (removelast (Sse.splitLines (buffer ++ Sse.joined chunks))) t.
Proof.
  revert buffer t. induction chunks as [|value more IH]; intros buffer t Hb.
  - cbn [Sse.joined fold_right Sse.readAll]. rewrite string_app_nil_r, Hb. reflexivity.
  - cbn [Sse.joined fold_right Sse.readAll]. fold (Sse.joined more).
    rewrite <- string_app_assoc.
    rewrite (splitLines_app (buffer ++ value) (Sse.joined more)).
    rewrite removelast_app by apply splitLines_nonempty.
    rewrite forLines_app.
    destruct (Sse.forLines T body (removelast (Sse.splitLines (buffer ++ value))) t)
      as [[t1 n1] [|]]; [reflexivity |].
    rewrite (IH _ t1 (splitLines_last (buffer ++ value))). reflexivity.
Qed.

Lemma readAll_joined (chunks chunks' : list string) (t : T) :
  Sse.joined chunks = Sse.joined chunks' ->
  Sse.readAll T body chunks "" t = Sse.readAll T body chunks' "" t.
Proof.
  intros H. rewrite !readAll_whole by reflexivity. rewrite H. reflexivity.
Qed.

End LoopFacts.

Lemma outcomes_app (a b : list Sse.Notice) : outcomes (a ++ b) = (outcomes a + outcomes b)%nat.
Proof.
  induction a as [|n a IH]; [reflexivity |].
  destruct n; cbn; rewrite IH; reflexivity.
Qed.

(** ** The [useStreamingChat] hook *)

Section StreamingFacts.

Variable rid : Z.
Variable parse : string -> option Sse.Data.

(** A line makes the reader return exactly when it is terminal, and
    then it reports one outcome; otherwise it reports none. *)
Lemma onLine_terminal (line streamingContent : string) :
  snd (UseStreamingChat.onLine parse line streamingContent) = terminal parse line /\
  outcomes (snd (fst (UseStreamingChat.onLine parse line streamingContent))) =
    (if terminal parse line then 1 else 0)%nat.
Proof.
  unfold UseStreamingChat.onLine, terminal.
  destruct (String.prefix "data: " line); [| split; reflexivity].
  destruct (parse (Sse.slice 6 line)) as [data|]; [| split; reflexivity].
  destruct (Sse.error data =? "")%string; [| split; reflexivity].
  destruct (Sse.done data); [split; reflexivity |].
  destruct (Sse.content data =? "")%string; split; reflexivity.
Qed.

Lemma forLines_terminal (lines : list string) (streamingContent : string) :
  snd (Sse.forLines string (UseStreamingChat.onLine parse) lines streamingContent) =
    existsb (terminal parse) lines /\
  outcomes (snd (fst (Sse.forLines string (UseStreamingChat.onLine parse)
                        lines streamingContent))) =
    (if existsb (terminal parse) lines then 1 else 0)%nat.
Proof.
  revert streamingContent. induction lines as [|line lines IH]; intros c.
  - split; reflexivity.
  - cbn [Sse.forLines existsb].
    destruct (onLine_terminal line c) as [Hr Ho].
    destruct (UseStreamingChat.onLine parse line c) as [[c1 n1] r1].
    cbn [fst snd] in Hr, Ho. rewrite <- Hr in Ho |- *. destruct r1.
    + split; [reflexivity | exact Ho].
    + destruct (IH c1) as [Hr2 Ho2].
      destruct (Sse.forLines string (UseStreamingChat.onLine parse) lines c1)
        as [[c2 n2] r2].
      cbn [fst snd orb] in *. rewrite outcomes_app, Ho, Ho2. split; [exact Hr2 | reflexivity].
Qed.

(** What [sendStreamingMessage] does once it has started and found a
    token. *)
Lemma sendStreamingMessage_started (message : string) (history : list ChatMessage)
    (resp : UseStreamingChat.Response) (st : UseStreamingChat.State) :
  UseStreamingChat.isStreaming st = false ->
  (Js.or_default (UseStreamingChat.access_token st) "" =? "")%string = false ->
  exists notices thrown st1,
    UseStreamingChat.attempt rid parse message history resp
      {| UseStreamingChat.isStreaming := true;
         UseStreamingChat.currentStreamingMessage := "";
         UseStreamingChat.abortController := true;
         UseStreamingChat.access_token := UseStreamingChat.access_token st;
         UseStreamingChat.user := UseStreamingChat.user st |} =
      (st1, Sse.Requested rid message history :: notices, thrown) /\
    (outcomes notices = 0%nat \/ (outcomes notices = 1%nat /\ thrown = None)).
Proof.
  intros Hs Ht. unfold UseStreamingChat.attempt.
  cbn [UseStreamingChat.access_token]. rewrite Ht.
  destruct resp as [| e | status | | chunks ending].
  - do 3 eexists. split; [reflexivity | left; reflexivity].
  - do 3 eexists. split; [reflexivity | left; reflexivity].
  - destruct (status =? 401); do 3 eexists; (split; [reflexivity | left; reflexivity]).
  - do 3 eexists. split; [reflexivity | left; reflexivity].
  - rewrite readAll_whole by reflexivity.
    destruct (forLines_terminal
                (removelast (Sse.splitLines ("" ++ Sse.joined chunks))) "") as [Hr Ho].
    destruct (Sse.forLines string (UseStreamingChat.onLine parse)
                (removelast (Sse.splitLines ("" ++ Sse.joined chunks))) "")
      as [[c notices] r].
    cbn [fst snd] in Hr, Ho. rewrite <- Hr in Ho.
    destruct r; do 3 eexists; (split; [reflexivity |]).
    + right. split; [exact Ho | reflexivity].
    + left. exact Ho.
Qed.

(** What the [try] block shows and what it throws add up to at most
    one outcome. *)
Lemma attempt_outcomes (message : string) (history : list ChatMessage)
    (resp : UseStreamingChat.Response) (st : UseStreamingChat.State) :
  UseStreamingChat.isStreaming st = false ->
  forall st1 notices thrown,
    UseStreamingChat.attempt rid parse message history resp
      {| UseStreamingChat.isStreaming := true;
         UseStreamingChat.currentStreamingMessage := "";
         UseStreamingChat.abortController := true;
         UseStreamingChat.access_token := UseStreamingChat.access_token st;
         UseStreamingChat.user := UseStreamingChat.user st |} = (st1, notices, thrown) ->
    (outcomes notices
     + match thrown with
       | Some (UseStreamingChat.Other _) => 1
       | _ => 0
       end <= 1)%nat.
Proof.
  intros Hs st1 notices thrown E.
  destruct (Js.or_default (UseStreamingChat.access_token st) "" =? "")%string eqn:Ht.
  - unfold UseStreamingChat.attempt in E. cbn [UseStreamingChat.access_token] in E.
    rewrite Ht in E. injection E as <- <- <-. cbn. lia.
  - destruct (sendStreamingMessage_started message history resp st Hs Ht)
      as (notices' & thrown' & st1' & E' & Ho).
    rewrite E' in E. injection E as <- <- <-. cbn [outcomes].
    destruct Ho as [Ho | [Ho ->]]; rewrite Ho; [destruct thrown' as [[|e]|] |]; lia.
Qed.

(** X1.  A call of [sendStreamingMessage] reports at most one outcome:
    a complete message or an error, never both and never two. *)
Theorem streaming_reports_at_most_one_outcome
    (message : string) (history : list ChatMessage)
    (resp : UseStreamingChat.Response) (st : UseStreamingChat.State) :
  (outcomes (snd (UseStreamingChat.sendStreamingMessage rid parse
                    message history resp st)) <= 1)%nat.
Proof.
  unfold UseStreamingChat.sendStreamingMessage.
  destruct (UseStreamingChat.isStreaming st) eqn:Hs; [cbn; lia |].
  pose proof (attempt_outcomes message history resp st Hs) as Hone.
  destruct (UseStreamingChat.attempt rid parse message history resp _)
    as [[st1 notices] thrown].
  specialize (Hone st1 notices thrown eq_refl).
  cbn [snd outcomes]. rewrite !outcomes_app.
  destruct thrown as [[|e]|]; cbn [outcomes] in *; lia.
Qed.

(** X2.  While a message is streaming, a further [sendStreamingMessage]
    does nothing at all.  Otherwise, whatever the request returns, the
    call ends with the streaming flag off, the streaming text empty and
    the abort controller released. *)
Theorem streaming_guard_and_release
    (message : string) (history : list ChatMessage)
    (resp : UseStreamingChat.Response) (st : UseStreamingChat.State) :
  let r := UseStreamingChat.sendStreamingMessage rid parse message history resp st in
  if UseStreamingChat.isStreaming st then r = (st, [])
  else
    UseStreamingChat.isStreaming (fst r) = false /\
    UseStreamingChat.currentStreamingMessage (fst r) = ""%string /\
    UseStreamingChat.abortController (fst r) = false.
Proof.
  cbv zeta. unfold UseStreamingChat.sendStreamingMessage.
  destruct (UseStreamingChat.isStreaming st); [reflexivity |].
  destruct (UseStreamingChat.attempt rid parse message history resp _) as [[st1 n] t].
  repeat split.
Qed.

(** X3.  How the stream is cut into chunks does not matter: two
    responses whose chunks join to the same text, and that end the same
    way, leave the same state and report the same notices in the same
    order. *)
Theorem streaming_ignores_chunk_boundaries
    (message : string) (history : list ChatMessage)
    (chunks chunks' : list string) (ending : UseStreamingChat.Ending)
    (st : UseStreamingChat.State) :
  Sse.joined chunks = Sse.joined chunks' ->
  UseStreamingChat.sendStreamingMessage rid parse message history
    (UseStreamingChat.Body chunks ending) st =
  UseStreamingChat.sendStreamingMessage rid parse message history
    (UseStreamingChat.Body chunks' ending) st.
Proof.
  intros H. unfold UseStreamingChat.sendStreamingMessage, UseStreamingChat.attempt.
  rewrite (readAll_joined string (UseStreamingChat.onLine parse) chunks chunks' "" H).
  reflexivity.
Qed.

(** X4.  Without a stored access token no request is sent and the
    missing token is the one error reported.  With a token, the stored
    token and user are removed exactly when the response has status 401,
    which is reported as an expired session; any other response leaves
    both entries as they were. *)
Theorem streaming_credentials
    (message : string) (history : list ChatMessage)
    (resp : UseStreamingChat.Response) (st : UseStreamingChat.State) :
  UseStreamingChat.isStreaming st = false ->
  let r := UseStreamingChat.sendStreamingMessage rid parse message history resp st in
  if (Js.or_default (UseStreamingChat.access_token st) "" =? "")%string then
    snd r = [ Sse.Streaming ""; Sse.Failure UseStreamingChat.tokenMissingError;
              Sse.Streaming "" ]
  else
    match resp with
    | UseStreamingChat.Refused 401 =>
        UseStreamingChat.access_token (fst r) = None /\
        UseStreamingChat.user (fst r) = None /\
        snd r = [ Sse.Streaming ""; Sse.Requested rid message history;
                  Sse.Failure UseStreamingChat.sessionExpiredError; Sse.Streaming "" ]
    | _ =>
        UseStreamingChat.access_token (fst r) = UseStreamingChat.access_token st /\
        UseStreamingChat.user (fst r) = UseStreamingChat.user st
    end.
Proof.
  intros Hs. cbv zeta. unfold UseStreamingChat.sendStreamingMessage. rewrite Hs.
  unfold UseStreamingChat.attempt. cbn [UseStreamingChat.access_token].
  destruct (Js.or_default (UseStreamingChat.access_token st) "" =? "")%string;
    [reflexivity |].
  destruct resp as [| e | status | | chunks ending]; try (split; reflexivity).
  - destruct status as [|p|p]; try (split; reflexivity).
    destruct (Z.pos p =? 401) eqn:E.
    + apply Z.eqb_eq in E. injection E as ->. repeat split.
    + assert (Hp : p <> 401%positive) by (intros ->; discriminate E).
      do 9 (destruct p as [p|p|]; try (split; reflexivity)); contradiction.
  - destruct (Sse.readAll string (UseStreamingChat.onLine parse) chunks "" "")
      as [[c n] [|]]; split; reflexivity.
Qed.

(** X5.  An abort is never reported as an error.  An aborted request
    reports nothing but the request itself, and a stream whose reading
    is aborted is handled exactly like a stream that ends. *)
Theorem streaming_abort_is_silent
    (message : string) (history : list ChatMessage) (chunks : list string)
    (st : UseStreamingChat.State) :
  UseStreamingChat.isStreaming st = false ->
  (Js.or_default (UseStreamingChat.access_token st) "" =? "")%string = false ->
  snd (UseStreamingChat.sendStreamingMessage rid parse message history
         UseStreamingChat.Aborted st) =
    [ Sse.Streaming ""; Sse.Requested rid message history; Sse.Streaming "" ] /\
  UseStreamingChat.sendStreamingMessage rid parse message history
    (UseStreamingChat.Body chunks UseStreamingChat.ReadAborted) st =
  UseStreamingChat.sendStreamingMessage rid parse message history
    (UseStreamingChat.Body chunks UseStreamingChat.EndOfStream) st.
Proof.
  intros Hs Ht. unfold UseStreamingChat.sendStreamingMessage. rewrite Hs.
  unfold UseStreamingChat.attempt. cbn [UseStreamingChat.access_token]. rewrite Ht.
  split; [reflexivity |].
  destruct (Sse.readAll string (UseStreamingChat.onLine parse) chunks "" "")
    as [[c n] [|]]; cbn; rewrite ?app_nil_r; reflexivity.
Qed.

(** X6.  The message is delivered by a [done] event only.  For a stream
    that ends, an outcome is reported exactly when one of its complete
    lines is an event with an error or with [done]; a stream that ends
    without one reports neither a message nor an error, whatever content
    it showed. *)
Theorem streaming_outcome_needs_terminal_line
    (message : string) (history : list ChatMessage) (chunks : list string)
    (st : UseStreamingChat.State) :
  UseStreamingChat.isStreaming st = false ->
  (Js.or_default (UseStreamingChat.access_token st) "" =? "")%string = false ->
  outcomes (snd (UseStreamingChat.sendStreamingMessage rid parse message history
                   (UseStreamingChat.Body chunks UseStreamingChat.EndOfStream) st)) =
  (if existsb (terminal parse) (removelast (Sse.splitLines (Sse.joined chunks)))
   then 1 else 0)%nat.
Proof.
  intros Hs Ht. unfold UseStreamingChat.sendStreamingMessage. rewrite Hs.
  unfold UseStreamingChat.attempt. cbn [UseStreamingChat.access_token]. rewrite Ht.
  rewrite readAll_whole by reflexivity.
  change ("" ++ Sse.joined chunks)%string with (Sse.joined chunks).
  destruct (forLines_terminal (removelast (Sse.splitLines (Sse.joined chunks))) "")
    as [Hr Ho].
  destruct (Sse.forLines string (UseStreamingChat.onLine parse)
              (removelast (Sse.splitLines (Sse.joined chunks))) "") as [[c n] r].
  cbn [fst snd] in Hr, Ho. rewrite <- Hr in *.
  destruct r; cbn [snd outcomes]; rewrite !outcomes_app, Ho; cbn; lia.
Qed.

End StreamingFacts.

(** ** [ChatAPI.sendStreamingMessage] *)

(** X7.  The reader of the API layer does not depend on chunk
    boundaries either: responses whose chunks join to the same text and
    end the same way produce the same calls of [onChunk] and [onError],
    in the same order. *)
Theorem chat_api_ignores_chunk_boundaries
    (parse : string -> option Sse.Data) (resumeId : Z)
    (message : string) (history : list ChatMessage)
    (chunks chunks' : list string) (ending : option Js.Thrown) :
  Sse.joined chunks = Sse.joined chunks' ->
  ChatAPI.sendStreamingMessage parse resumeId message history
    (ChatAPI.Body chunks ending) =
  ChatAPI.sendStreamingMessage parse resumeId message history
    (ChatAPI.Body chunks' ending).
Proof.
  intros H. unfold ChatAPI.sendStreamingMessage.
  rewrite (readAll_joined unit (ChatAPI.onLine parse) chunks chunks' tt H).
  reflexivity.
Qed.

(** ** The chat of the resume editor *)

Lemma deliver_all (notices : list Sse.Notice) (st : ResumeEditPage.State) :
  let st' := fold_left (fun s n => ResumeEditPage.deliver n s) notices st in
  ResumeEditPage.messages st' = ResumeEditPage.messages st ++ replies notices /\
  ResumeEditPage.inputMessage st' = ResumeEditPage.inputMessage st /\
  ResumeEditPage.chat st' = ResumeEditPage.chat st.
Proof.
  cbv zeta. revert st. induction notices as [|n notices IH]; intros st.
  - cbn. rewrite app_nil_r. repeat split.
  - cbn [fold_left]. destruct (IH (ResumeEditPage.deliver n st)) as (Hm & Hi & Hc).
    rewrite Hm, Hi, Hc.
    destruct n; cbn; rewrite <- ?app_assoc; repeat split.
Qed.

Lemma replies_length (notices : list Sse.Notice) :
  length (replies notices) = outcomes notices.
Proof.
  induction notices as [|n notices IH]; [reflexivity |].
  destruct n; cbn; rewrite ?IH; reflexivity.
Qed.

(** X8.  A message typed into the chat of the resume editor is sent
    only if it is not blank and nothing is being sent or streamed.  An
    accepted send clears the input, ends with the sending and streaming
    flags off, and extends the transcript by the trimmed message of the
    user followed by at most one reply: the complete answer or an
    apology that carries the error.  Earlier messages stay in place.  A
    send that is not accepted changes nothing. *)
Theorem editor_chat_appends_message_and_one_reply
    (rid : Z) (parse : string -> option Sse.Data)
    (resp : UseStreamingChat.Response) (st : ResumeEditPage.State) :
  let r := ResumeEditPage.sendMessage rid parse resp st in
  if (Js.trim (ResumeEditPage.inputMessage st) =? "")%string
     || ResumeEditPage.isSending st
     || UseStreamingChat.isStreaming (ResumeEditPage.chat st)
  then r = (st, [])
  else
    exists reply,
      ResumeEditPage.messages (fst r) =
        ResumeEditPage.messages st
        ++ {| type := user; content := Js.trim (ResumeEditPage.inputMessage st) |}
        :: reply /\
      (length reply <= 1)%nat /\
      reply = replies (snd r) /\
      ResumeEditPage.inputMessage (fst r) = ""%string /\
      ResumeEditPage.isSending (fst r) = false /\
      UseStreamingChat.isStreaming (ResumeEditPage.chat (fst r)) = false.
Proof.
  cbv zeta. unfold ResumeEditPage.sendMessage.
  destruct ((Js.trim (ResumeEditPage.inputMessage st) =? "")%string
            || ResumeEditPage.isSending st
            || UseStreamingChat.isStreaming (ResumeEditPage.chat st)) eqn:G;
    [reflexivity |].
  apply orb_false_iff in G. destruct G as [_ Hstream].
  cbn [ResumeEditPage.chat ResumeEditPage.messages ResumeEditPage.inputMessage
       ResumeEditPage.isSending ResumeEditPage.apiError].
  pose proof (attempt_outcomes rid parse
                (Js.trim (ResumeEditPage.inputMessage st)) (ResumeEditPage.messages st)
                resp (ResumeEditPage.chat st) Hstream) as Hone.
  unfold UseStreamingChat.sendStreamingMessage. rewrite Hstream.
  destruct (UseStreamingChat.attempt rid parse
              (Js.trim (ResumeEditPage.inputMessage st)) (ResumeEditPage.messages st)
              resp _) as [[st1 notices] thrown].
  specialize (Hone st1 notices thrown eq_refl).
  match goal with
  | |- context [fold_left ?f ?ns ?s0] =>
      destruct (deliver_all ns s0) as (Hm & Hi & Hc);
      cbv zeta in Hm, Hi, Hc
  end.
  eexists. cbn [fst snd].
  rewrite Hm, Hi, Hc. cbn [ResumeEditPage.messages ResumeEditPage.inputMessage
                           ResumeEditPage.chat UseStreamingChat.isStreaming].
  rewrite <- app_assoc. cbn [app].
  split; [reflexivity |]. split; [| repeat split].
  rewrite replies_length. cbn [outcomes]. rewrite !outcomes_app.
  destruct thrown as [[|e]|]; cbn [outcomes] in *; lia.
Qed.

(** ** The session list page: gathering and deleting *)

Lemma processSessions_in (allSessions : list Api.InterviewSession)
    (s : Api.InterviewSession) :
  In s allSessions ->
  exists l, In l (InterviewsPage.processSessions allSessions) /\
            InterviewsPage.session l = s /\
            InterviewsPage.isPossibleDuplicate l =
              InterviewsPage.isPossibleDuplicate
                (InterviewsPage.markDuplicate (InterviewsPage.sortByCreated allSessions) s).
Proof.
  intros Hin. unfold InterviewsPage.processSessions.
  exists (InterviewsPage.markDuplicate (InterviewsPage.sortByCreated allSessions) s).
  split; [| split; [apply markDuplicate_session | reflexivity]].
  apply in_map.
  apply (Permutation_in _ (Permutation_sym (sortByCreated_perm allSessions))). exact Hin.
Qed.

(** Among the sessions that satisfy a test, one was created last. *)
Lemma newest_exists (l : list Api.InterviewSession) (test : Api.InterviewSession -> bool) :
  (exists x, In x l /\ test x = true) ->
  exists m, In m l /\ test m = true /\
            forall y, In y l -> test y = true -> Api.created_at y <= Api.created_at m.
Proof.
  induction l as [|a l IH]; intros (x & Hin & Hx); [destruct Hin |].
  destruct (existsb test l) eqn:El.
  - apply existsb_exists in El. destruct (IH El) as (m & Hm & Htm & Hmax).
    destruct (test a) eqn:Ta.
    + destruct (Z_le_gt_dec (Api.created_at a) (Api.created_at m)) as [Hle | Hgt].
      * exists m. split; [right; exact Hm |]. split; [exact Htm |].
        intros y [<- | Hy] Hty; [exact Hle | apply Hmax; assumption].
      * exists a. split; [left; reflexivity |]. split; [exact Ta |].
        intros y [<- | Hy] Hty; [lia |]. specialize (Hmax y Hy Hty). lia.
    + exists m. split; [right; exact Hm |]. split; [exact Htm |].
      intros y [<- | Hy] Hty; [congruence | apply Hmax; assumption].
  - assert (Hnone : forall y, In y l -> test y = false).
    { intros y Hy. destruct (test y) eqn:Ty; [| reflexivity].
      assert (existsb test l = true) by (apply existsb_exists; exists y; auto).
      congruence. }
    destruct Hin as [<- | Hin]; [| rewrite (Hnone x Hin) in Hx; discriminate].
    exists a. split; [left; reflexivity |]. split; [exact Hx |].
    intros y [<- | Hy] Hty; [lia | rewrite (Hnone y Hy) in Hty; discriminate].
Qed.

(** X9.  The duplicate flag never covers every active session of a
    resume: whenever the gathered sessions hold an active session, the
    list shows an active session of the same resume that is not
    flagged. *)
Theorem some_active_session_stays_unflagged
    (allSessions : list Api.InterviewSession) (s : Api.InterviewSession) :
  In s allSessions ->
  Api.status s = "active"%string ->
  exists l,
    In l (InterviewsPage.processSessions allSessions) /\
    Api.status (InterviewsPage.session l) = "active"%string /\
    Api.resume_id (InterviewsPage.session l) = Api.resume_id s /\
    InterviewsPage.isPossibleDuplicate l = false.
Proof.
  intros Hin Hactive.
  set (test := fun y : Api.InterviewSession =>
                 (Api.status y =? "active")%string
                 && (Api.resume_id y =? Api.resume_id s)).
  assert (Htest : forall y, test y = true <->
                    Api.status y = "active"%string /\ Api.resume_id y = Api.resume_id s).
  { intros y. unfold test. rewrite andb_true_iff, String.eqb_eq, Z.eqb_eq. tauto. }
  destruct (newest_exists allSessions test) as (m & Hm & Htm & Hmax).
  { exists s. split; [exact Hin |]. apply Htest. auto. }
  apply Htest in Htm. destruct Htm as [Hma Hmr].
  destruct (processSessions_in allSessions m Hm) as (l & Hl & Hs & Hf).
  exists l. rewrite Hs. repeat split; try assumption.
  rewrite Hf. apply not_true_is_false. intros F.
  apply markDuplicate_flag in F. destruct F as (_ & x & Hx & Hr & Ha & _ & Hnewer).
  apply (Permutation_in _ (sortByCreated_perm allSessions)) in Hx.
  assert (Hx' : test x = true) by (apply Htest; split; [exact Ha | congruence]).
  specialize (Hmax x Hx Hx'). lia.
Qed.

Lemma handleDelete_found (sessionId : Z) (st : InterviewsList.State) :
  (exists l, In l (InterviewsList.interviewSessions st) /\
             Api.id (InterviewsPage.session l) = sessionId) ->
  exists session,
    find (fun s => Api.id (InterviewsPage.session s) =? sessionId)
         (InterviewsList.interviewSessions st) = Some session /\
    Api.id (InterviewsPage.session session) = sessionId.
Proof.
  intros (l & Hl & Hid).
  destruct (find (fun s => Api.id (InterviewsPage.session s) =? sessionId)
                 (InterviewsList.interviewSessions st)) as [session|] eqn:E.
  - exists session. split; [reflexivity |].
    apply find_some in E. destruct E as [_ E]. apply Z.eqb_eq. exact E.
  - pose proof (find_none _ _ E l Hl) as N. cbn in N.
    apply Z.eqb_neq in N. contradiction.
Qed.

(** X10.  Deleting changes the list only when it announces success, and
    then it removes exactly the sessions with the given id: none of them
    is left and every other session stays, in its place.  A declined
    confirmation, an id that is not in the list and a failed request all
    leave the state as it was. *)
Theorem delete_changes_list_only_on_success
    (sessionId : Z) (jobPosition : string) (confirmed : bool)
    (resp : Js.FetchResult unit) (st : InterviewsList.State) :
  let r := InterviewsList.handleDeleteInterview sessionId jobPosition confirmed resp st in
  if toldSuccess (snd r) then
    InterviewsList.interviewSessions (fst r) =
      filter (keepsOthers sessionId) (InterviewsList.interviewSessions st) /\
    (forall l, In l (InterviewsList.interviewSessions (fst r)) ->
               Api.id (InterviewsPage.session l) <> sessionId) /\
    (forall l, In l (InterviewsList.interviewSessions st) ->
               Api.id (InterviewsPage.session l) <> sessionId ->
               In l (InterviewsList.interviewSessions (fst r)))
  else fst r = st.
Proof.
  cbv zeta. unfold InterviewsList.handleDeleteInterview.
  assert (Hfilter :
    (forall l, In l (filter (keepsOthers sessionId) (InterviewsList.interviewSessions st)) ->
               Api.id (InterviewsPage.session l) <> sessionId) /\
    (forall l, In l (InterviewsList.interviewSessions st) ->
               Api.id (InterviewsPage.session l) <> sessionId ->
               In l (filter (keepsOthers sessionId) (InterviewsList.interviewSessions st)))).
  { split; intros l.
    - rewrite filter_In. unfold keepsOthers. rewrite negb_true_iff, Z.eqb_neq. tauto.
    - intros Hl Hne. apply filter_In. split; [exact Hl |].
      unfold keepsOthers. apply negb_true_iff, Z.eqb_neq. exact Hne. }
  destruct confirmed; [| reflexivity]. cbn [negb].
  destruct (find _ (InterviewsList.interviewSessions st)) as [session|]; [| reflexivity].
  destruct (sessionId >? 1000).
  - cbn. split; [reflexivity | exact Hfilter].
  - destruct resp as [e | status detail | u]; cbn; try reflexivity.
    split; [reflexivity | exact Hfilter].
Qed.

(** X11.  A session whose id is above 1000 is deleted on the page only:
    no request is sent for it, whatever the list holds.  For an id of at
    most 1000 that the user confirms and the list holds, exactly one
    delete request is sent, for the resume of the listed session. *)
Theorem delete_asks_back_end_only_up_to_1000
    (sessionId : Z) (jobPosition : string) (confirmed : bool)
    (resp : Js.FetchResult unit) (st : InterviewsList.State) :
  let r := InterviewsList.handleDeleteInterview sessionId jobPosition confirmed resp st in
  (sessionId > 1000 -> requestsOf (snd r) = []) /\
  (sessionId <= 1000 -> confirmed = true ->
   forall session,
     find (fun s => Api.id (InterviewsPage.session s) =? sessionId)
          (InterviewsList.interviewSessions st) = Some session ->
     requestsOf (snd r) =
       [ InterviewsList.Deleted (Api.resume_id (InterviewsPage.session session)) sessionId ]).
Proof.
  cbv zeta. unfold InterviewsList.handleDeleteInterview. split.
  - intros Hbig.
    replace (sessionId >? 1000) with true by (symmetry; apply Z.gtb_lt; lia).
    destruct confirmed; [| reflexivity]. cbn [negb].
    destruct (find _ (InterviewsList.interviewSessions st)); reflexivity.
  - intros Hsmall -> session Hfind. cbn [negb]. rewrite Hfind.
    replace (sessionId >? 1000) with false
      by (symmetry; rewrite Z.gtb_ltb; apply Z.ltb_ge; lia).
    destruct resp as [e | status detail | u]; reflexivity.
Qed.

Lemma gather_in (resumes : list (InterviewsList.Resume * InterviewsList.Answers))
    (resume : InterviewsList.Resume) (a : InterviewsList.Answers)
    (s : InterviewsList.Scored) :
  In (resume, a) resumes ->
  In s (fst (InterviewsList.gatherFor resume a)) ->
  In s (fst (InterviewsList.gather resumes)).
Proof.
  induction resumes as [|[resume' a'] rest IH]; intros Hin Hs; [destruct Hin |].
  cbn [InterviewsList.gather].
  destruct (InterviewsList.gatherFor resume' a') as [sessions actions] eqn:E1.
  destruct (InterviewsList.gather rest) as [sessions' actions'] eqn:E2.
  cbn [fst] in *. apply in_or_app.
  destruct Hin as [Heq | Hin].
  - injection Heq as -> ->. rewrite E1 in Hs. left. exact Hs.
  - right. apply IH; assumption.
Qed.

(** X12.  The stand-in sessions shown for a resume whose sessions could
    not be read are deleted on the page only.  For a resume with a
    positive id, both stand-ins appear in the list with ids
    [id * 1000 + 1] and [id * 1000 + 2]; deleting either, once
    confirmed, sends no request, announces success and leaves no session
    with that id. *)
Theorem stand_in_sessions_are_deleted_locally
    (resumes : list (InterviewsList.Resume * InterviewsList.Answers))
    (resume : InterviewsList.Resume) (a : InterviewsList.Answers)
    (st : InterviewsList.State) (k : Z) (jobPosition : string)
    (resp : Js.FetchResult unit) :
  In (resume, a) resumes ->
  InterviewsList.succeededWith (InterviewsList.listed a) = None ->
  InterviewsList.id resume >= 1 ->
  k = 1 \/ k = 2 ->
  let shown := fst (InterviewsList.fetchInterviewSessions true resumes st) in
  let sessionId := InterviewsList.id resume * 1000 + k in
  let r := InterviewsList.handleDeleteInterview sessionId jobPosition true resp shown in
  (exists l, In l (InterviewsList.interviewSessions shown) /\
             Api.id (InterviewsPage.session l) = sessionId /\
             Api.resume_id (InterviewsPage.session l) = InterviewsList.id resume) /\
  requestsOf (snd r) = [] /\
  toldSuccess (snd r) = true /\
  (forall l, In l (InterviewsList.interviewSessions (fst r)) ->
             Api.id (InterviewsPage.session l) <> sessionId).
Proof.
  intros Hin Hfail Hpos Hk shown sessionId r.
  assert (Hshown : exists l, In l (InterviewsList.interviewSessions shown) /\
             Api.id (InterviewsPage.session l) = sessionId /\
             Api.resume_id (InterviewsPage.session l) = InterviewsList.id resume).
  { subst shown. unfold InterviewsList.fetchInterviewSessions. cbn [negb].
    assert (Hmock : exists s, In s (fst (InterviewsList.gather resumes)) /\
                      Api.id (InterviewsList.stored s) = sessionId /\
                      Api.resume_id (InterviewsList.stored s) = InterviewsList.id resume).
    { assert (Hg : fst (InterviewsList.gatherFor resume a) =
                   InterviewsList.mockSessions resume).
      { unfold InterviewsList.gatherFor. rewrite Hfail. reflexivity. }
      destruct Hk as [-> | ->].
      - eexists. split.
        + apply (gather_in resumes resume a); [exact Hin |]. rewrite Hg. left. reflexivity.
        + split; reflexivity.
      - eexists. split.
        + apply (gather_in resumes resume a); [exact Hin |]. rewrite Hg.
          right. left. reflexivity.
        + split; reflexivity. }
    destruct Hmock as (s & Hs & Hid & Hres).
    destruct (InterviewsList.gather resumes) as [allSessions actions]. cbn [fst] in *.
    destruct (processSessions_in (map InterviewsList.stored allSessions)
                (InterviewsList.stored s)) as (l & Hl & Hsl & _).
    { apply in_map. exact Hs. }
    exists l. cbn [InterviewsList.interviewSessions]. rewrite Hsl. auto. }
  split; [exact Hshown |].
  assert (Hfound : exists session,
            find (fun s => Api.id (InterviewsPage.session s) =? sessionId)
                 (InterviewsList.interviewSessions shown) = Some session /\
            Api.id (InterviewsPage.session session) = sessionId).
  { apply handleDelete_found. destruct Hshown as (l & Hl & Hid & _). exists l. auto. }
  destruct Hfound as (session & Hfind & _).
  subst r. unfold InterviewsList.handleDeleteInterview. cbn [negb]. rewrite Hfind.
  replace (sessionId >? 1000) with true
    by (symmetry; apply Z.gtb_lt; subst sessionId; destruct Hk; lia).
  cbn [fst snd InterviewsList.interviewSessions]. repeat split.
  intros l Hl. apply filter_In in Hl. destruct Hl as [_ Hl].
  apply negb_true_iff, Z.eqb_neq in Hl. exact Hl.
Qed.

(** X13.  The time zone step of [formatDate] is idempotent, and what it
    yields is never a date-time without a zone: a result that holds a
    [T] holds a [Z] or a [+]. *)
Theorem normalizedDateString_marks_zone (dateString : string) :
  InterviewsList.normalizedDateString (InterviewsList.normalizedDateString dateString) =
    InterviewsList.normalizedDateString dateString /\
  (Js.includes (InterviewsList.normalizedDateString dateString) "T" = true ->
   Js.includes (InterviewsList.normalizedDateString dateString) "Z" = true \/
   Js.includes (InterviewsList.normalizedDateString dateString) "+" = true).
Proof.
  destruct (Js.includes dateString "T" && negb (Js.includes dateString "Z")
            && negb (Js.includes dateString "+")) eqn:E.
  - assert (Hn : InterviewsList.normalizedDateString dateString = (dateString ++ "Z")%string).
    { unfold InterviewsList.normalizedDateString. rewrite E. reflexivity. }
    assert (H : Js.includes (dateString ++ "Z") "Z" = true).
    { apply includes_skip. reflexivity. }
    rewrite Hn. split; [| intros _; left; exact H].
    unfold InterviewsList.normalizedDateString.
    rewrite H. cbn [negb]. rewrite andb_false_r. reflexivity.
  - assert (Hn : InterviewsList.normalizedDateString dateString = dateString).
    { unfold InterviewsList.normalizedDateString. rewrite E. reflexivity. }
    rewrite !Hn. split; [reflexivity |]. intros HT. rewrite HT in E.
    destruct (Js.includes dateString "Z"); [left; reflexivity |].
    destruct (Js.includes dateString "+"); [right; reflexivity | discriminate E].
Qed.

(** ** More on the [useInterview] hook *)

Section HookMore.

Variable rid : Z.
Variable opts : UseInterview.Options.

(** X14.  Loading a stored session that is not completed adopts it: the
    mirror takes the stored questions and answers, its index is the
    number of stored answers and its status is active whatever the
    stored status says; the interview becomes active, the loading flag
    is cleared, the only request is the list of sessions and exactly one
    message is sent.  When questions remain, that message shows the
    question at the index, which exists. *)
Theorem stored_session_is_adopted
    (st : UseInterview.State) (sessionId : Z)
    (sessions : list Api.InterviewSession) (stored : Api.InterviewSession) :
  find (fun s => Api.id s =? sessionId) sessions = Some stored ->
  Api.status stored <> "completed"%string ->
  let r := UseInterview.loadExistingSession rid sessionId (Js.Ok sessions) st in
  let storedQuestions := Js.or_empty (Api.questions stored) in
  let storedAnswers := Js.or_empty (Api.answers stored) in
  let session :=
    {| UseInterview.id := sessionId;
       UseInterview.resumeId := rid;
       UseInterview.status := UseInterview.active;
       UseInterview.startTime := Api.created_at stored;
       UseInterview.questions := storedQuestions;
       UseInterview.answers := storedAnswers;
       UseInterview.currentQuestionIndex := Z.of_nat (length storedAnswers) |} in
  Eff.completion r = Normal (Some session) /\
  UseInterview.currentSession (Eff.state r) = Some session /\
  UseInterview.isInterviewActive (Eff.state r) = true /\
  UseInterview.isLoading (Eff.state r) = false /\
  exists text,
    Eff.trace r =
      [ Call (Api.GetInterviewSessions rid); OnMessage {| type := ai; content := text |} ] /\
    ((length storedAnswers < length storedQuestions)%nat ->
     exists q, nth_error storedQuestions (length storedAnswers) = Some q /\
               text = UseInterview.continueText (length storedAnswers)
                        (length storedQuestions) (Api.question q)).
Proof.
  intros Hfind Hstatus r storedQuestions storedAnswers session.
  subst r session storedQuestions storedAnswers.
  destruct st as [a c l m h].
  unfold UseInterview.loadExistingSession. eff_run. rewrite Hfind.
  replace (Api.status stored =? "completed")%string with false
    by (symmetry; apply String.eqb_neq; exact Hstatus).
  destruct (length (Js.or_empty (Api.answers stored))
            <? length (Js.or_empty (Api.questions stored)))%nat eqn:Elt.
  - apply Nat.ltb_lt in Elt.
    destruct (nth_error (Js.or_empty (Api.questions stored))
                (length (Js.or_empty (Api.answers stored)))) as [q|] eqn:En.
    + repeat split. eexists. split; [reflexivity |]. intros _. exists q. split; reflexivity.
    + apply nth_error_None in En. lia.
  - apply Nat.ltb_ge in Elt.
    repeat match goal with |- context [if ?b then _ else _] => destruct b end;
      repeat split; eexists; (split; [reflexivity | intros Hlt; lia]).
Qed.

(** X15.  When the list of sessions cannot be read, or does not hold the
    named session, loading returns [null], reports exactly one error and
    leaves the session and the active flag as they were, with the loading
    flag cleared.  For a session that is not in the list the error says
    that the session does not exist. *)
Theorem unreadable_or_missing_session_is_reported
    (st : UseInterview.State) (sessionId : Z)
    (sessionsResp : Js.FetchResult (list Api.InterviewSession)) :
  (UseInterview.failed sessionsResp = true \/
   exists sessions, sessionsResp = Js.Ok sessions /\
                    find (fun s => Api.id s =? sessionId) sessions = None) ->
  let r := UseInterview.loadExistingSession rid sessionId sessionsResp st in
  Eff.completion r = Normal None /\
  Eff.state r = UseInterview.withLoading false st /\
  (exists error,
     Eff.trace r = [ Call (Api.GetInterviewSessions rid); OnError error ]) /\
  (UseInterview.failed sessionsResp = false ->
   errors_of (Eff.trace r) =
     [ ("加载面试会话失败: " ++ UseInterview.sessionMissingError)%string ]).
Proof.
  intros H r. subst r. destruct st as [a c l m h].
  unfold UseInterview.loadExistingSession.
  destruct sessionsResp as [e | status detail | sessions].
  - eff_run. repeat split; [eexists; reflexivity | discriminate].
  - eff_run. repeat split; [eexists; reflexivity | discriminate].
  - destruct H as [H | (sessions' & Heq & Hfind)]; [discriminate H |].
    injection Heq as <-. eff_run. rewrite Hfind.
    repeat split. eexists; reflexivity.
Qed.

(** X16.  When the creation of a session fails, [startInterview]
    returns [null], reports exactly one error after its one request, and
    leaves the hook idle as it was, with the loading flag cleared. *)
Theorem failed_creation_is_reported
    (st : UseInterview.State)
    (jdContent : option string) (questionCount : option Z) (now : Z)
    (sessionsResp : Js.FetchResult (list Api.InterviewSession))
    (startResp : Js.FetchResult Api.InterviewSession)
    (questionResp : Js.FetchResult Api.NextQuestion) :
  UseInterview.isInterviewActive st = false ->
  Js.truthy_id (UseInterview.existingSessionId opts) = false ->
  UseInterview.failed startResp = true ->
  let r :=
    UseInterview.startInterview rid opts jdContent questionCount now
      sessionsResp startResp questionResp st in
  Eff.completion r = Normal None /\
  Eff.state r = UseInterview.withLoading false st /\
  exists config error,
    Eff.trace r = [ Call (Api.StartInterview rid config); OnError error ].
Proof.
  intros Ha Hno Hf r. subst r.
  unfold UseInterview.startInterview.
  cbv beta iota delta [Eff.bind Eff.get Eff.ret]. rewrite Ha, Hno. cbn [andb].
  destruct st as [a c l m h]. cbn in Ha. subst a.
  destruct startResp as [e | status detail | b]; [| | discriminate Hf];
    eff_run; repeat split; do 2 eexists; reflexivity.
Qed.

(** X17.  When the session is created but its first question cannot be
    fetched, the interview starts all the same: the session is adopted
    with index 0, the standard invitation to introduce oneself is the
    one message sent, and no error is reported. *)
Theorem missing_first_question_falls_back
    (st : UseInterview.State)
    (jdContent : option string) (questionCount : option Z) (now : Z)
    (sessionsResp : Js.FetchResult (list Api.InterviewSession))
    (created : Api.InterviewSession)
    (questionResp : Js.FetchResult Api.NextQuestion) :
  UseInterview.isInterviewActive st = false ->
  Js.truthy_id (UseInterview.existingSessionId opts) = false ->
  UseInterview.failed questionResp = true ->
  let r :=
    UseInterview.startInterview rid opts jdContent questionCount now
      sessionsResp (Js.Ok created) questionResp st in
  let session :=
    {| UseInterview.id := Api.id created;
       UseInterview.resumeId := rid;
       UseInterview.status := UseInterview.active;
       UseInterview.startTime := now;
       UseInterview.questions := Js.or_empty (Api.questions created);
       UseInterview.answers := Js.or_empty (Api.answers created);
       UseInterview.currentQuestionIndex := 0 |} in
  Eff.completion r = Normal (Some session) /\
  UseInterview.currentSession (Eff.state r) = Some session /\
  UseInterview.isInterviewActive (Eff.state r) = true /\
  UseInterview.isLoading (Eff.state r) = false /\
  messages_of (Eff.trace r) =
    [ {| type := ai; content := UseInterview.fallbackWelcomeText |} ] /\
  errors_of (Eff.trace r) = [].
Proof.
  intros Ha Hno Hf r session. subst r session.
  unfold UseInterview.startInterview.
  cbv beta iota delta [Eff.bind Eff.get Eff.ret]. rewrite Ha, Hno. cbn [andb].
  destruct st as [a c l m h]. cbn in Ha. subst a.
  destruct questionResp as [e | status detail | q]; [| | discriminate Hf];
    eff_run; repeat split.
Qed.










(** X19.  Whatever it is given, [sendAnswer] keeps the session it found:
    the active flag, the id, the resume, the start time and the
    questions are untouched; the answers are the old ones, or the old
    ones with one record added; the index stays or grows by one; and at
    most one request is sent.  Without a session it changes nothing. *)
Theorem sendAnswer_only_appends
    (st : UseInterview.State) (answer : string)
    (evalResp : Js.FetchResult Api.Evaluation) :
  let r := UseInterview.sendAnswer rid answer evalResp st in
  UseInterview.isInterviewActive (Eff.state r) = UseInterview.isInterviewActive st /\
  (length (calls (Eff.trace r)) <= 1)%nat /\
  match UseInterview.currentSession st with
  | None => r = (Normal tt, st, [])
  | Some s =>
      exists s',
        UseInterview.currentSession (Eff.state r) = Some s' /\
        UseInterview.id s' = UseInterview.id s /\
        UseInterview.resumeId s' = UseInterview.resumeId s /\
        UseInterview.startTime s' = UseInterview.startTime s /\
        UseInterview.questions s' = UseInterview.questions s /\
        ((UseInterview.answers s' = UseInterview.answers s /\
          UseInterview.currentQuestionIndex s' = UseInterview.currentQuestionIndex s) \/
         (exists record,
            UseInterview.answers s' = UseInterview.answers s ++ [record] /\
            UseInterview.currentQuestionIndex s' =
              UseInterview.currentQuestionIndex s + 1))
  end.
Proof.
  cbv zeta.
  destruct (UseInterview.currentSession st) as [s|] eqn:Hs.
  2:{ unfold UseInterview.sendAnswer. cbv beta iota delta [Eff.bind Eff.get Eff.ret].
      rewrite Hs. cbn. repeat split. lia. }
  destruct (UseInterview.isInterviewActive st) eqn:Ha.
  2:{ unfold UseInterview.sendAnswer. cbv beta iota delta [Eff.bind Eff.get Eff.ret].
      rewrite Hs, Ha. cbn. rewrite Ha, Hs. repeat split; [lia |].
      exists s. repeat split. left. split; reflexivity. }
  destruct (Z_lt_ge_dec (UseInterview.currentQuestionIndex s)
              (Z.of_nat (length (UseInterview.questions s)))) as [Hlt | Hge].
  - destruct (UseInterview.failed evalResp) eqn:Hf.
    + destruct (sendAnswer_failed rid st s answer evalResp Ha Hs Hlt Hf) as [error E].
      rewrite E. cbn. repeat split; [lia |].
      exists s. repeat split. left. split; reflexivity.
    + destruct evalResp as [e | status detail | ev]; try discriminate.
      rewrite (sendAnswer_evaluated rid st s answer ev Ha Hs Hlt).
      cbn. repeat split; [lia |].
      exists (answered s answer (Api.ev_evaluation ev)). repeat split.
      right. eexists. split; reflexivity.
  - rewrite (sendAnswer_exhausted rid st s answer evalResp Ha Hs Hge).
    cbn. repeat split; [lia |].
    exists s. repeat split. left. split; reflexivity.
Qed.

Lemma run_submitAll (submissions : list (string * Api.Evaluation))
    (st : UseInterview.State) (s : UseInterview.InterviewSession) :
  UseInterview.isInterviewActive st = true ->
  UseInterview.currentSession st = Some s ->
  UseInterview.currentQuestionIndex s + Z.of_nat (length submissions)
    <= Z.of_nat (length (UseInterview.questions s)) ->
  let after := UseInterview.run rid opts (submitAll submissions) st in
  UseInterview.isInterviewActive after = true /\
  exists s',
    UseInterview.currentSession after = Some s' /\
    UseInterview.answers s' =
      UseInterview.answers s
      ++ recordsFrom (UseInterview.currentQuestionIndex s) submissions /\
    UseInterview.currentQuestionIndex s' =
      UseInterview.currentQuestionIndex s + Z.of_nat (length submissions) /\
    UseInterview.questions s' = UseInterview.questions s /\
    UseInterview.id s' = UseInterview.id s.
Proof.
  cbv zeta. revert st s.
  induction submissions as [|[answer ev] rest IH]; intros st s Ha Hs Hroom.
  - cbn. split; [exact Ha |]. exists s. rewrite app_nil_r, Z.add_0_r. repeat split.
    exact Hs.
  - cbn [submitAll map UseInterview.run UseInterview.perform fst snd].
    fold (submitAll rest).
    cbn [length] in Hroom.
    assert (Hlt : UseInterview.currentQuestionIndex s
                  < Z.of_nat (length (UseInterview.questions s))) by lia.
    rewrite (sendAnswer_evaluated rid st s answer ev Ha Hs Hlt).
    cbn [Eff.state fst snd].
    match goal with
    | |- context [UseInterview.run rid opts (submitAll rest) ?st1] =>
        destruct (IH st1 (answered s answer (Api.ev_evaluation ev)) eq_refl eq_refl)
          as (Hact & s' & Hs' & Hans & Hidx & Hq & Hid)
    end.
    { cbn. lia. }
    split; [exact Hact |]. exists s'. split; [exact Hs' |].
    cbn in Hans, Hidx, Hq, Hid. cbn [recordsFrom length].
    rewrite Hans, Hidx, <- app_assoc. repeat split; try assumption. lia.
Qed.

(** X20.  Answers submitted in a row, each one evaluated, are recorded
    in order and numbered consecutively from the index the mirror had:
    as long as questions remain, no index is skipped and none is used
    twice, and the index ends as many steps further as answers were
    given.  Once the index has reached the number of questions, a further
    submission sends no request. *)
Theorem submissions_are_recorded_in_order
    (submissions : list (string * Api.Evaluation))
    (st : UseInterview.State) (s : UseInterview.InterviewSession)
    (further : string) (evalResp : Js.FetchResult Api.Evaluation) :
  UseInterview.isInterviewActive st = true ->
  UseInterview.currentSession st = Some s ->
  UseInterview.currentQuestionIndex s + Z.of_nat (length submissions)
    <= Z.of_nat (length (UseInterview.questions s)) ->
  let after := UseInterview.run rid opts (submitAll submissions) st in
  exists s',
    UseInterview.isInterviewActive after = true /\
    UseInterview.currentSession after = Some s' /\
    UseInterview.answers s' =
      UseInterview.answers s
      ++ recordsFrom (UseInterview.currentQuestionIndex s) submissions /\
    UseInterview.currentQuestionIndex s' =
      UseInterview.currentQuestionIndex s + Z.of_nat (length submissions) /\
    (UseInterview.currentQuestionIndex s + Z.of_nat (length submissions)
       = Z.of_nat (length (UseInterview.questions s)) ->
     calls (Eff.trace (UseInterview.sendAnswer rid further evalResp after)) = [] /\
     UseInterview.currentSession
       (Eff.state (UseInterview.sendAnswer rid further evalResp after)) = Some s').
Proof.
  intros Ha Hs Hroom after.
  destruct (run_submitAll submissions st s Ha Hs Hroom)
    as (Hact & s' & Hs' & Hans & Hidx & Hq & Hid).
  fold after in Hact, Hs'. exists s'. repeat split; try assumption.
  - rewrite (sendAnswer_exhausted rid after s' further evalResp Hact Hs');
      [reflexivity | rewrite Hidx, Hq; lia].
  - rewrite (sendAnswer_exhausted rid after s' further evalResp Hact Hs');
      [reflexivity | rewrite Hidx, Hq; lia].
Qed.

(** X22.  Once an interview has been ended, the hook is idle: ending
    again sends no request, and an answer is neither shown nor
    submitted. *)
Theorem ended_interview_accepts_nothing
    (st : UseInterview.State) (s : UseInterview.InterviewSession)
    (now later : Z) (endResp : Js.FetchResult unit)
    (answer : string) (evalResp : Js.FetchResult Api.Evaluation) :
  UseInterview.currentSession st = Some s ->
  let ended := Eff.state (UseInterview.endInterview rid now (Js.Ok tt) st) in
  UseInterview.endInterview rid later endResp ended = (Normal tt, ended, []) /\
  UseInterview.sendAnswer rid answer evalResp ended = (Normal tt, ended, []).
Proof.
  intros Hs ended. subst ended.
  rewrite (endInterview_done rid st s now tt Hs). cbn [Eff.state fst snd].
  split; reflexivity.
Qed.

End HookMore.

(** ** Error texts *)

Lemma prefix_split (s t : string) :
  String.prefix s t = true -> exists post, t = (s ++ post)%string.
Proof.
  revert t. induction s as [|a s IH]; intros t H.
  - exists t. reflexivity.
  - destruct t as [|b t]; [discriminate H |].
    cbn [String.prefix] in H.
    destruct (Ascii.ascii_dec a b) as [-> |]; [| discriminate H].
    destruct (IH t H) as [post ->]. exists post. reflexivity.
Qed.

Lemma includes_split (hay needle : string) :
  Js.includes hay needle = true ->
  exists pre post, hay = (pre ++ needle ++ post)%string.
Proof.
  unfold Js.includes. induction hay as [|c hay IH]; cbn [String.index].
  - destruct needle; [| discriminate]. intros _. exists ""%string, ""%string. reflexivity.
  - destruct (String.prefix needle (String c hay)) eqn:P.
    + intros _. destruct (prefix_split _ _ P) as [post E].
      exists ""%string, post. exact E.
    + destruct (String.index 0 needle hay) as [n|]; [| discriminate].
      intros _. destruct (IH eq_refl) as (pre & post & ->).
      exists (String c pre), post. reflexivity.
Qed.

(** A text that holds [a ++ b] holds [b]. *)
Lemma includes_tail (hay a b : string) :
  Js.includes hay (a ++ b) = true -> Js.includes hay b = true.
Proof.
  intros H. destruct (includes_split _ _ H) as (pre & post & ->).
  rewrite string_app_assoc, <- (string_app_assoc pre a).
  apply includes_skip. apply includes_here.
Qed.

(** X21.  Of the two texts [sendAnswer] has for a connection problem,
    only the first is ever chosen: an error whose message holds
    [Failed to fetch] is reported as a failed network connection, and
    the text "cannot connect to the server" is reported only if it is
    itself the message of the error. *)
Theorem second_connection_text_is_never_chosen (error : Js.Thrown) :
  (forall message,
     error = Js.Error message ->
     Js.includes message "Failed to fetch" = true ->
     UseInterview.sendErrorText error = "网络连接失败，请检查后端服务是否运行"%string) /\
  (UseInterview.sendErrorText error = "无法连接到服务器，请检查网络连接"%string ->
   error = Js.Error "无法连接到服务器，请检查网络连接").
Proof.
  assert (Hfetch : forall message,
            Js.includes message "Failed to fetch" = true ->
            Js.includes message "fetch" = true).
  { intros message H. apply (includes_tail message "Failed to " "fetch"). exact H. }
  split.
  - intros message -> H. unfold UseInterview.sendErrorText.
    rewrite (Hfetch message H), orb_true_r. reflexivity.
  - destruct error as [message|]; unfold UseInterview.sendErrorText.
    + destruct (Js.includes message "Load failed" || Js.includes message "fetch") eqn:E.
      * intros H. exfalso.
        apply (f_equal String.length) in H. vm_compute in H. discriminate H.
      * destruct (Js.includes message "Failed to fetch") eqn:F.
        -- rewrite (Hfetch message F), orb_true_r in E. discriminate E.
        -- intros ->. reflexivity.
    + intros H. apply (f_equal String.length) in H. vm_compute in H. discriminate H.
Qed.

(** ** More on the interview page *)

Lemma sendAnswer_completes (rid : Z) (st : UseInterview.State) (answer : string)
    (evalResp : Js.FetchResult Api.Evaluation) :
  Eff.completion (UseInterview.sendAnswer rid answer evalResp st) = Normal tt.
Proof.
  destruct (UseInterview.currentSession st) as [s|] eqn:Hs.
  2:{ unfold UseInterview.sendAnswer. cbv beta iota delta [Eff.bind Eff.get Eff.ret].
      rewrite Hs. reflexivity. }
  destruct (UseInterview.isInterviewActive st) eqn:Ha.
  2:{ unfold UseInterview.sendAnswer. cbv beta iota delta [Eff.bind Eff.get Eff.ret].
      rewrite Hs, Ha. reflexivity. }
  destruct (Z_lt_ge_dec (UseInterview.currentQuestionIndex s)
              (Z.of_nat (length (UseInterview.questions s)))) as [Hlt | Hge].
  - destruct (UseInterview.failed evalResp) eqn:Hf.
    + destruct (sendAnswer_failed rid st s answer evalResp Ha Hs Hlt Hf) as [error E].
      rewrite E. reflexivity.
    + destruct evalResp as [e | status detail | ev]; try discriminate.
      rewrite (sendAnswer_evaluated rid st s answer ev Ha Hs Hlt). reflexivity.
  - rewrite (sendAnswer_exhausted rid st s answer evalResp Ha Hs Hge). reflexivity.
Qed.

(** The callbacks of the page touch the transcript and the kept error
    only. *)
Lemma deliverAll_frame (t : list Event) (s : InterviewPage.State) :
  let s' := Eff.state (InterviewPage.deliverAll t s) in
  InterviewPage.currentQuestion s' = InterviewPage.currentQuestion s /\
  InterviewPage.inputMessage s' = InterviewPage.inputMessage s /\
  InterviewPage.interviewTime s' = InterviewPage.interviewTime s /\
  InterviewPage.hasStartedInterview s' = InterviewPage.hasStartedInterview s /\
  InterviewPage.interviewConfig s' = InterviewPage.interviewConfig s.
Proof.
  cbv zeta. revert s. induction t as [|e t IH]; intros s; [repeat split |].
  cbn [InterviewPage.deliverAll].
  destruct e as [r | m | err | p | k text];
    cbv beta iota zeta delta
      [InterviewPage.deliver Eff.bind Eff.emit Eff.modify InterviewPage.setMessages
       InterviewPage.setInterviewError InterviewPage.toast app];
    match goal with
    | |- context [InterviewPage.deliverAll t ?s'] =>
        destruct (IH s') as (H1 & H2 & H3 & H4 & H5);
        destruct (InterviewPage.deliverAll t s') as [[c s1] t1]
    end;
    cbn in *; rewrite ?H1, ?H2, ?H3, ?H4, ?H5; destruct s; repeat split.
Qed.

Section PageMore.

Variable prid : Z.

(** X23.  An answer that the page accepts (not blank, nothing loading)
    clears the input, hands the trimmed text to the hook and advances
    the question counter of the page by one, whatever becomes of the
    answer: the counter also advances when the evaluation fails, when
    every question is answered, and when no interview is active. *)
Theorem page_counter_advances_on_every_accepted_send
    (st : InterviewPage.State) (evalResp : Js.FetchResult Api.Evaluation) :
  (Js.trim (InterviewPage.inputMessage st) =? "")%string = false ->
  UseInterview.isLoading (InterviewPage.hook st) = false ->
  let r := InterviewPage.handleSendMessage prid evalResp st in
  let sent :=
    UseInterview.sendAnswer prid (Js.trim (InterviewPage.inputMessage st)) evalResp
      (InterviewPage.hook st) in
  InterviewPage.currentQuestion (Eff.state r) = InterviewPage.currentQuestion st + 1 /\
  InterviewPage.inputMessage (Eff.state r) = ""%string /\
  InterviewPage.hook (Eff.state r) = Eff.state sent /\
  calls (Eff.trace r) = calls (Eff.trace sent).
Proof.
  intros Hin Hload r sent. subst r sent.
  unfold InterviewPage.handleSendMessage.
  cbv beta iota zeta delta [Eff.bind Eff.get]. rewrite Hin, Hload. cbn [orb].
  cbv beta iota zeta delta [InterviewPage.setInputMessage Eff.modify Eff.try_catch
                            Eff.bind InterviewPage.setCurrentQuestion].
  match goal with
  | |- context [InterviewPage.runHook ?m ?s0] =>
      pose proof (runHook_spec m s0) as (Hc & Hcalls & _ & Hhook);
      pose proof (sendAnswer_completes prid (InterviewPage.hook s0)
                    (Js.trim (InterviewPage.inputMessage st)) evalResp) as Hn;
      assert (Hframe :
        InterviewPage.currentQuestion (Eff.state (InterviewPage.runHook m s0)) =
          InterviewPage.currentQuestion s0 /\
        InterviewPage.inputMessage (Eff.state (InterviewPage.runHook m s0)) =
          InterviewPage.inputMessage s0);
      [ unfold InterviewPage.runHook;
        destruct (m (InterviewPage.hook s0)) as [[c0 h0] t0];
        destruct (deliverAll_frame t0 (InterviewPage.setHook h0 s0)) as (F1 & F2 & _);
        destruct (InterviewPage.deliverAll t0 (InterviewPage.setHook h0 s0))
          as [[c1 s1] t1];
        cbn in *; rewrite F1, F2; destruct s0; split; reflexivity
      | destruct (InterviewPage.runHook m s0) as [[c s2] t2] ]
  end.
  cbn [InterviewPage.hook Eff.completion Eff.state Eff.trace fst snd
       InterviewPage.currentQuestion InterviewPage.inputMessage] in *.
  rewrite Hn in Hc. subst c. destruct Hframe as [Fq Fi].
  cbn [Eff.state Eff.trace fst snd InterviewPage.currentQuestion
       InterviewPage.inputMessage InterviewPage.hook app].
  rewrite app_nil_r, Fq. repeat split; assumption.
Qed.

(** X24.  When ending fails, the page still announces the end: the hook
    keeps its session and reports the error, and the page resets its
    timer and its started flag and shows the success toast after the
    error toast. *)
Theorem page_announces_end_even_when_ending_failed
    (st : InterviewPage.State) (s : UseInterview.InterviewSession)
    (now : Z) (endResp : Js.FetchResult unit) :
  UseInterview.currentSession (InterviewPage.hook st) = Some s ->
  UseInterview.failed endResp = true ->
  let r := InterviewPage.handleEndInterview prid now endResp st in
  InterviewPage.hook (Eff.state r) = InterviewPage.hook st /\
  InterviewPage.interviewTime (Eff.state r) = 0 /\
  InterviewPage.hasStartedInterview (Eff.state r) = false /\
  Eff.trace r =
    [ Call (Api.EndInterview prid (UseInterview.id s));
      OnError UseInterview.endFailedError;
      Toast failure ("面试错误: " ++ UseInterview.endFailedError)%string;
      Toast success "面试已结束" ].
Proof.
  intros Hs Hf r. subst r.
  unfold InterviewPage.handleEndInterview, InterviewPage.runHook.
  cbv beta iota zeta delta [Eff.try_catch Eff.bind].
  rewrite (endInterview_failed prid (InterviewPage.hook st) s now endResp Hs Hf).
  destruct st as [res cfg msgs input time q started err proc checked h].
  page_run. repeat split.
Qed.

(** X25.  The user chooses to continue the unfinished session the check
    found.  The page asks once, remembers the session as handled, names
    it in its configuration and marks the interview as started; it sends
    nothing but the request for the list: the session is not ended and
    no session is created. *)
Theorem continuing_names_the_stored_session
    (st : InterviewPage.State) (token : option string)
    (sessions : list Api.InterviewSession) (stored : Api.InterviewSession)
    (endFetch : Js.FetchResult unit)
    (urlQuestionCount : option Z) (now : Z)
    (sessionsResp : Js.FetchResult (list Api.InterviewSession))
    (startResp : Js.FetchResult Api.InterviewSession)
    (questionResp : Js.FetchResult Api.NextQuestion) :
  (Js.or_default token "" =? "")%string = false ->
  find (fun s => (Api.status s =? "active")%string) sessions = Some stored ->
  InterviewPage.opt_eqb (InterviewPage.processedSessionRef st) (Api.id stored) = false ->
  ((length (Js.or_empty (Api.questions stored))
    <=? length (Js.or_empty (Api.answers stored)))%nat
   && (0 <? length (Js.or_empty (Api.questions stored)))%nat) = false ->
  let r :=
    InterviewPage.checkAndStartInterview prid token (Js.Ok sessions) true endFetch
      urlQuestionCount now sessionsResp startResp questionResp st in
  Eff.trace r =
    [ Call (Api.GetInterviewSessions prid);
      Confirm (InterviewPage.confirmText
                 (length (Js.or_empty (Api.answers stored)))
                 (length (Js.or_empty (Api.questions stored)))) ] /\
  InterviewPage.sessionId (InterviewPage.interviewConfig (Eff.state r)) =
    Some (Api.id stored) /\
  InterviewPage.processedSessionRef (Eff.state r) = Some (Api.id stored) /\
  InterviewPage.hasStartedInterview (Eff.state r) = true /\
  InterviewPage.hook (Eff.state r) = InterviewPage.hook st.
Proof.
  intros Htoken Hfind Hproc Hopen r. subst r.
  unfold InterviewPage.checkAndStartInterview.
  cbv beta iota zeta delta [Eff.bind Eff.get Eff.try_catch Eff.emit Eff.ret].
  rewrite Htoken, Hfind, Hproc, Hopen.
  destruct st as [res cfg msgs input time q started err proc checked h].
  page_run. repeat split.
Qed.

(** X26.  The user chooses to discard the unfinished session.  The page
    asks once and sends the request that ends the session.  When that
    request is rejected the page reports the failure and stops: nothing
    changes and no session is created.  Otherwise it announces the end
    and goes on exactly as [handleStartInterview] does from the same
    state. *)
Theorem discarding_ends_before_starting
    (st : InterviewPage.State) (token : option string)
    (sessions : list Api.InterviewSession) (stored : Api.InterviewSession)
    (endFetch : Js.FetchResult unit)
    (urlQuestionCount : option Z) (now : Z)
    (sessionsResp : Js.FetchResult (list Api.InterviewSession))
    (startResp : Js.FetchResult Api.InterviewSession)
    (questionResp : Js.FetchResult Api.NextQuestion) :
  (Js.or_default token "" =? "")%string = false ->
  find (fun s => (Api.status s =? "active")%string) sessions = Some stored ->
  InterviewPage.opt_eqb (InterviewPage.processedSessionRef st) (Api.id stored) = false ->
  ((length (Js.or_empty (Api.questions stored))
    <=? length (Js.or_empty (Api.answers stored)))%nat
   && (0 <? length (Js.or_empty (Api.questions stored)))%nat) = false ->
  let r :=
    InterviewPage.checkAndStartInterview prid token (Js.Ok sessions) false endFetch
      urlQuestionCount now sessionsResp startResp questionResp st in
  let asked :=
    [ Call (Api.GetInterviewSessions prid);
      Confirm (InterviewPage.confirmText
                 (length (Js.or_empty (Api.answers stored)))
                 (length (Js.or_empty (Api.questions stored))));
      Call (Api.EndInterview prid (Api.id stored)) ] in
  let started :=
    InterviewPage.handleStartInterview prid urlQuestionCount now
      sessionsResp startResp questionResp st in
  match endFetch with
  | Js.Rejected _ =>
      r = (Normal tt, st, asked ++ [ Toast failure "结束上次面试失败，请稍后重试" ])
  | _ =>
      Eff.completion r = Eff.completion started /\
      Eff.state r = Eff.state started /\
      Eff.trace r =
        asked ++ Toast success "已结束上次面试，开始新面试" :: Eff.trace started
  end.
Proof.
  intros Htoken Hfind Hproc Hopen r asked started. subst r asked started.
  unfold InterviewPage.checkAndStartInterview.
  cbv beta iota zeta delta [Eff.bind Eff.get Eff.try_catch Eff.emit Eff.ret].
  rewrite Htoken, Hfind, Hproc, Hopen.
  cbv beta iota zeta delta [InterviewPage.fetchEnd InterviewPage.toast
                            Eff.bind Eff.emit Eff.throw Eff.ret].
  destruct endFetch as [e | status detail | u]; cbn [app].
  - reflexivity.
  - destruct (InterviewPage.handleStartInterview prid urlQuestionCount now
                sessionsResp startResp questionResp st) as [[c s2] t2].
    repeat split.
  - destruct (InterviewPage.handleStartInterview prid urlQuestionCount now
                sessionsResp startResp questionResp st) as [[c s2] t2].
    repeat split.
Qed.

(** X27.  What the check does when it cannot look.  Without a stored
    token it does nothing at all: no request, no interview.  With a
    token, when the list of sessions cannot be read (the request is
    rejected or not ok), it asks nothing and ends nothing and goes on
    exactly as [handleStartInterview] does from the same state, after
    the one request for the list. *)
Theorem check_without_list_starts_directly
    (st : InterviewPage.State) (token : option string)
    (sessionsFetch : Js.FetchResult (list Api.InterviewSession))
    (shouldContinue : bool) (endFetch : Js.FetchResult unit)
    (urlQuestionCount : option Z) (now : Z)
    (sessionsResp : Js.FetchResult (list Api.InterviewSession))
    (startResp : Js.FetchResult Api.InterviewSession)
    (questionResp : Js.FetchResult Api.NextQuestion) :
  let r :=
    InterviewPage.checkAndStartInterview prid token sessionsFetch shouldContinue endFetch
      urlQuestionCount now sessionsResp startResp questionResp st in
  let started :=
    InterviewPage.handleStartInterview prid urlQuestionCount now
      sessionsResp startResp questionResp st in
  ((Js.or_default token "" =? "")%string = true -> r = (Normal tt, st, [])) /\
  ((Js.or_default token "" =? "")%string = false ->
   UseInterview.failed sessionsFetch = true ->
   Eff.completion r = Eff.completion started /\
   Eff.state r = Eff.state started /\
   Eff.trace r = Call (Api.GetInterviewSessions prid) :: Eff.trace started).
Proof.
  cbv zeta. unfold InterviewPage.checkAndStartInterview.
  cbv beta iota zeta delta [Eff.bind Eff.get Eff.try_catch Eff.emit Eff.ret Eff.throw].
  split; intros Htoken; rewrite Htoken; [reflexivity |].
  intros Hf.
  destruct sessionsFetch as [e | status detail | sessions]; [| | discriminate Hf];
    cbn [app];
    destruct (InterviewPage.handleStartInterview prid urlQuestionCount now
                sessionsResp startResp questionResp st) as [[c s2] t2];
    repeat split.
Qed.

End PageMore.

(** ** Worked instances of the further properties *)

Lemma streaming_chunks_sample :
  Sse.joined sampleChunks = Sse.joined sampleWhole /\
  UseStreamingChat.sendStreamingMessage 1 sampleParse "Hi" []
    (UseStreamingChat.Body sampleChunks UseStreamingChat.EndOfStream) sampleChat =
  UseStreamingChat.sendStreamingMessage 1 sampleParse "Hi" []
    (UseStreamingChat.Body sampleWhole UseStreamingChat.EndOfStream) sampleChat /\
  snd (UseStreamingChat.sendStreamingMessage 1 sampleParse "Hi" []
         (UseStreamingChat.Body sampleChunks UseStreamingChat.EndOfStream) sampleChat) =
    [ Sse.Streaming ""; Sse.Requested 1 "Hi" [];
      Sse.Streaming "Hello"; Sse.Streaming "Hello, world";
      Sse.Message {| type := ai; content := "Hello, world" |};
      Sse.Streaming ""; Sse.Streaming "" ].
Proof.
  split; [reflexivity |]. split; [| reflexivity].
  apply (streaming_ignores_chunk_boundaries 1 sampleParse "Hi" [] sampleChunks sampleWhole
           UseStreamingChat.EndOfStream sampleChat).
  reflexivity.
Defined.

Lemma streaming_credentials_sample :
  UseStreamingChat.isStreaming sampleChat = false /\
  UseStreamingChat.access_token
    (fst (UseStreamingChat.sendStreamingMessage 1 sampleParse "Hi" []
            (UseStreamingChat.Refused 401) sampleChat)) = None /\
  UseStreamingChat.user
    (fst (UseStreamingChat.sendStreamingMessage 1 sampleParse "Hi" []
            (UseStreamingChat.Refused 401) sampleChat)) = None.
Proof.
  split; [reflexivity |].
  destruct (streaming_credentials 1 sampleParse "Hi" [] (UseStreamingChat.Refused 401)
              sampleChat eq_refl) as (Ht & Hu & _).
  split; [exact Ht | exact Hu].
Defined.

Lemma streaming_abort_sample :
  UseStreamingChat.isStreaming sampleChat = false /\
  outcomes (snd (UseStreamingChat.sendStreamingMessage 1 sampleParse "Hi" []
                   UseStreamingChat.Aborted sampleChat)) = 0%nat /\
  UseStreamingChat.sendStreamingMessage 1 sampleParse "Hi" []
    (UseStreamingChat.Body ["data: c=Hel"] UseStreamingChat.ReadAborted) sampleChat =
  UseStreamingChat.sendStreamingMessage 1 sampleParse "Hi" []
    (UseStreamingChat.Body ["data: c=Hel"] UseStreamingChat.EndOfStream) sampleChat.
Proof.
  split; [reflexivity |].
  destruct (streaming_abort_is_silent 1 sampleParse "Hi" [] ["data: c=Hel"] sampleChat
              eq_refl eq_refl) as (Ha & Hr).
  split; [rewrite Ha; reflexivity | exact Hr].
Defined.

Lemma streaming_without_done_sample :
  let lost := [ ("data: c=Hello" ++ Js.nl)%string ] in
  existsb (terminal sampleParse) (removelast (Sse.splitLines (Sse.joined lost))) = false /\
  outcomes (snd (UseStreamingChat.sendStreamingMessage 1 sampleParse "Hi" []
                   (UseStreamingChat.Body lost UseStreamingChat.EndOfStream) sampleChat)) =
    0%nat /\
  In (Sse.Streaming "Hello")
     (snd (UseStreamingChat.sendStreamingMessage 1 sampleParse "Hi" []
             (UseStreamingChat.Body lost UseStreamingChat.EndOfStream) sampleChat)).
Proof.
  cbv zeta. split; [reflexivity |]. split.
  - rewrite (streaming_outcome_needs_terminal_line 1 sampleParse "Hi" []
               [ ("data: c=Hello" ++ Js.nl)%string ] sampleChat eq_refl eq_refl).
    reflexivity.
  - right. right. left. reflexivity.
Defined.

Lemma chat_api_chunks_sample :
  Sse.joined sampleChunks = Sse.joined sampleWhole /\
  ChatAPI.sendStreamingMessage sampleParse 1 "Hi" [] (ChatAPI.Body sampleChunks None) =
  ChatAPI.sendStreamingMessage sampleParse 1 "Hi" [] (ChatAPI.Body sampleWhole None) /\
  ChatAPI.sendStreamingMessage sampleParse 1 "Hi" [] (ChatAPI.Body sampleChunks None) =
    [ Sse.Requested 1 "Hi" []; Sse.Chunk "Hello"; Sse.Chunk ", world" ].
Proof.
  split; [reflexivity |]. split; [| reflexivity].
  apply (chat_api_ignores_chunk_boundaries sampleParse 1 "Hi" [] sampleChunks sampleWhole None).
  reflexivity.
Defined.

Lemma editor_chat_sample :
  let padded :=
    typedEditor (noBreakSpace ++ "Hi" ++ ideographicSpace)%string sampleEditor in
  let empty := typedEditor (ideographicSpace ++ noBreakSpace)%string sampleEditor in
  let resp := UseStreamingChat.Body sampleWhole UseStreamingChat.EndOfStream in
  ResumeEditPage.sendMessage 1 sampleParse resp empty = (empty, []) /\
  ResumeEditPage.messages (fst (ResumeEditPage.sendMessage 1 sampleParse resp padded)) =
    [ {| type := ai; content := "您好！" |};
      {| type := user; content := "Hi" |};
      {| type := ai; content := "Hello, world" |} ].
Proof.
  cbv zeta. split.
  - exact (editor_chat_appends_message_and_one_reply 1 sampleParse
             (UseStreamingChat.Body sampleWhole UseStreamingChat.EndOfStream)
             (typedEditor (ideographicSpace ++ noBreakSpace)%string sampleEditor)).
  - destruct (editor_chat_appends_message_and_one_reply 1 sampleParse
                (UseStreamingChat.Body sampleWhole UseStreamingChat.EndOfStream)
                (typedEditor (noBreakSpace ++ "Hi" ++ ideographicSpace)%string sampleEditor))
      as (reply & Hm & _ & Hr & _).
    rewrite Hm, Hr. reflexivity.
Defined.

Lemma unflagged_active_sample :
  In sampleOlder sampleListing /\
  exists l,
    In l (InterviewsPage.processSessions sampleListing) /\
    Api.status (InterviewsPage.session l) = "active"%string /\
    Api.resume_id (InterviewsPage.session l) = 1 /\
    InterviewsPage.isPossibleDuplicate l = false.
Proof.
  assert (Ho : In sampleOlder sampleListing) by (left; reflexivity).
  split; [exact Ho |].
  exact (some_active_session_stays_unflagged sampleListing sampleOlder Ho eq_refl).
Defined.

Lemma delete_threshold_sample :
  let r := InterviewsList.handleDeleteInterview 11 "Engineer" true
             (Js.NotOk 500 "") sampleList in
  let big := InterviewsList.handleDeleteInterview 3001 "Engineer" true
               (Js.NotOk 500 "") sampleList in
  requestsOf (snd r) = [ InterviewsList.Deleted 1 11 ] /\
  fst r = sampleList /\
  requestsOf (snd big) = [].
Proof.
  cbv zeta.
  destruct (delete_asks_back_end_only_up_to_1000 11 "Engineer" true (Js.NotOk 500 "")
              sampleList) as [_ Hsmall].
  destruct (delete_asks_back_end_only_up_to_1000 3001 "Engineer" true (Js.NotOk 500 "")
              sampleList) as [Hbig _].
  split; [| split; [reflexivity |]].
  - rewrite (Hsmall ltac:(lia) eq_refl _ eq_refl). reflexivity.
  - apply Hbig. lia.
Defined.

Lemma stand_in_sessions_sample :
  let shown :=
    fst (InterviewsList.fetchInterviewSessions true [ (sampleResume, sampleDown) ]
           sampleList) in
  let r := InterviewsList.handleDeleteInterview 3002 "高级前端工程师" true
             (Js.Ok tt) shown in
  map (fun l => Api.id (InterviewsPage.session l))
      (InterviewsList.interviewSessions shown) = [ 3002; 3001 ] /\
  requestsOf (snd r) = [] /\
  map (fun l => Api.id (InterviewsPage.session l))
      (InterviewsList.interviewSessions (fst r)) = [ 3001 ].
Proof.
  cbv zeta. split; [reflexivity |].
  destruct (stand_in_sessions_are_deleted_locally [ (sampleResume, sampleDown) ]
              sampleResume sampleDown sampleList 2 "高级前端工程师" (Js.Ok tt)
              (or_introl eq_refl) eq_refl ltac:(cbn; lia) (or_intror eq_refl))
    as (_ & Hreq & _).
  split; [exact Hreq | reflexivity].
Defined.

Lemma stored_session_sample :
  let r := UseInterview.loadExistingSession 1 6 (Js.Ok [ sampleFinished; sampleHalfway ])
             UseInterview.initial in
  find (fun s => Api.id s =? 6) [ sampleFinished; sampleHalfway ] = Some sampleHalfway /\
  Api.status sampleHalfway <> "completed"%string /\
  UseInterview.isInterviewActive (Eff.state r) = true /\
  (exists s, UseInterview.currentSession (Eff.state r) = Some s /\
             UseInterview.currentQuestionIndex s = 1 /\
             UseInterview.answers s = [ sampleAnswer ]) /\
  messages_of (Eff.trace r) =
    [ {| type := ai;
         content := UseInterview.continueText 1 2 "How do you handle deadlines?" |} ].
Proof.
  cbv zeta.
  assert (Hs : Api.status sampleHalfway <> "completed"%string) by discriminate.
  split; [reflexivity |]. split; [exact Hs |].
  destruct (stored_session_is_adopted 1 UseInterview.initial 6
              [ sampleFinished; sampleHalfway ] sampleHalfway eq_refl Hs)
    as (_ & Hsession & Hactive & _ & _).
  split; [exact Hactive |]. split; [| reflexivity].
  eexists. split; [exact Hsession |]. split; reflexivity.
Defined.

Lemma missing_session_sample :
  let r := UseInterview.loadExistingSession 1 9 (Js.Ok [ sampleFinished; sampleHalfway ])
             UseInterview.initial in
  find (fun s => Api.id s =? 9) [ sampleFinished; sampleHalfway ] = None /\
  Eff.completion r = Normal None /\
  Eff.state r = UseInterview.initial /\
  errors_of (Eff.trace r) = [ "加载面试会话失败: 面试会话不存在"%string ].
Proof.
  cbv zeta. split; [reflexivity |].
  destruct (unreadable_or_missing_session_is_reported 1 UseInterview.initial 9
              (Js.Ok [ sampleFinished; sampleHalfway ])
              (or_intror (ex_intro _ [ sampleFinished; sampleHalfway ]
                            (conj eq_refl eq_refl))))
    as (Hc & Hst & _ & Herr).
  split; [exact Hc |]. split; [exact Hst |]. exact (Herr eq_refl).
Defined.

Lemma failed_creation_sample :
  let r := UseInterview.startInterview 1 sampleOptions None (Some 2) 1000
             (Js.Ok []) (Js.NotOk 500 "") (Js.Ok (sampleFirstQuestion 0))
             UseInterview.initial in
  Eff.completion r = Normal None /\
  Eff.state r = UseInterview.initial /\
  errors_of (Eff.trace r) = [ "API请求失败: 500"%string ].
Proof.
  cbv zeta.
  destruct (failed_creation_is_reported 1 sampleOptions UseInterview.initial
              None (Some 2) 1000 (Js.Ok []) (Js.NotOk 500 "")
              (Js.Ok (sampleFirstQuestion 0)) eq_refl eq_refl eq_refl)
    as (Hc & Hst & _).
  split; [exact Hc |]. split; [exact Hst | reflexivity].
Defined.

Lemma missing_first_question_sample :
  let r := UseInterview.startInterview 1 sampleOptions None (Some 2) 1000
             (Js.Ok []) (Js.Ok sampleCreated) (Js.Rejected (Js.Error "Failed to fetch"))
             UseInterview.initial in
  UseInterview.isInterviewActive (Eff.state r) = true /\
  messages_of (Eff.trace r) =
    [ {| type := ai; content := UseInterview.fallbackWelcomeText |} ] /\
  errors_of (Eff.trace r) = [].
Proof.
  cbv zeta.
  destruct (missing_first_question_falls_back 1 sampleOptions UseInterview.initial
              None (Some 2) 1000 (Js.Ok []) sampleCreated
              (Js.Rejected (Js.Error "Failed to fetch")) eq_refl eq_refl eq_refl)
    as (_ & _ & Ha & _ & Hm & He).
  split; [exact Ha |]. split; [exact Hm | exact He].
Defined.


Lemma submissions_in_order_sample :
  let after :=
    UseInterview.run 1 sampleOptions (submitAll sampleSubmissions)
      (activeWith sampleSession) in
  exists s',
    UseInterview.currentSession after = Some s' /\
    map Api.question_index (UseInterview.answers s') = [ 0; 1 ] /\
    map Api.answer (UseInterview.answers s') = [ "I built a scheduler."; "I plan ahead." ]%string /\
    UseInterview.currentQuestionIndex s' = 2 /\
    calls (Eff.trace (UseInterview.sendAnswer 1 "One more thing."
                        (Js.Ok (sampleEvaluation "Noted.")) after)) = [].
Proof.
  cbv zeta.
  destruct (submissions_are_recorded_in_order 1 sampleOptions sampleSubmissions
              (activeWith sampleSession) sampleSession "One more thing."
              (Js.Ok (sampleEvaluation "Noted.")) eq_refl eq_refl ltac:(cbn; lia))
    as (s' & _ & Hs' & Hans & Hidx & Hfull).
  exists s'. split; [exact Hs' |].
  rewrite Hans, Hidx. split; [reflexivity |]. split; [reflexivity |].
  split; [reflexivity |]. apply Hfull. reflexivity.
Defined.

Lemma ended_interview_sample :
  let ended :=
    Eff.state (UseInterview.endInterview 1 181000 (Js.Ok tt) (activeWith sampleSession)) in
  UseInterview.currentSession (activeWith sampleSession) = Some sampleSession /\
  UseInterview.endInterview 1 200000 (Js.Ok tt) ended = (Normal tt, ended, []) /\
  UseInterview.sendAnswer 1 "I built a scheduler." (Js.Ok (sampleEvaluation "Good."))
    ended = (Normal tt, ended, []).
Proof.
  cbv zeta. split; [reflexivity |].
  apply (ended_interview_accepts_nothing 1 (activeWith sampleSession) sampleSession
           181000 200000 (Js.Ok tt) "I built a scheduler."
           (Js.Ok (sampleEvaluation "Good.")) eq_refl).
Defined.

Lemma page_counter_sample :
  let st := samplePage (activeWith sampleExhausted) in
  let r := InterviewPage.handleSendMessage 1
             (Js.Rejected (Js.Error "Failed to fetch")) st in
  let padded :=
    typed (ideographicSpace ++ "I plan ahead." ++ noBreakSpace)%string
      (samplePage (activeWith sampleSession)) in
  let sent := InterviewPage.handleSendMessage 1 (Js.Ok (sampleEvaluation "Good.")) padded in
  let empty :=
    typed (ideographicSpace ++ " " ++ noBreakSpace)%string
      (samplePage (activeWith sampleSession)) in
  (Js.trim (InterviewPage.inputMessage st) =? "")%string = false /\
  InterviewPage.currentQuestion st = 1 /\
  InterviewPage.currentQuestion (Eff.state r) = 2 /\
  calls (Eff.trace r) = [] /\
  InterviewPage.currentQuestion (Eff.state sent) = 2 /\
  calls (Eff.trace sent) = [ Api.SubmitInterviewAnswer 1 7 "I plan ahead." 0 ] /\
  InterviewPage.handleSendMessage 1 (Js.Ok (sampleEvaluation "Good.")) empty =
    (Normal tt, empty, []).
Proof.
  cbv zeta. split; [reflexivity |]. split; [reflexivity |].
  destruct (page_counter_advances_on_every_accepted_send 1
              (samplePage (activeWith sampleExhausted))
              (Js.Rejected (Js.Error "Failed to fetch")) eq_refl eq_refl)
    as (Hq & _ & _ & Hc).
  split; [exact Hq |]. split; [rewrite Hc; reflexivity |].
  destruct (page_counter_advances_on_every_accepted_send 1
              (typed (ideographicSpace ++ "I plan ahead." ++ noBreakSpace)%string
                 (samplePage (activeWith sampleSession)))
              (Js.Ok (sampleEvaluation "Good.")) eq_refl eq_refl)
    as (Hq' & _ & _ & Hc').
  split; [exact Hq' |]. split; [rewrite Hc'; reflexivity | reflexivity].
Defined.

Lemma page_end_sample :
  let st := samplePage (activeWith sampleSession) in
  let r := InterviewPage.handleEndInterview 1 181000 (Js.NotOk 500 "") st in
  InterviewPage.hook (Eff.state r) = activeWith sampleSession /\
  In (Toast success "面试已结束") (Eff.trace r) /\
  errors_of (Eff.trace r) = [ UseInterview.endFailedError ].
Proof.
  cbv zeta.
  destruct (page_announces_end_even_when_ending_failed 1
              (samplePage (activeWith sampleSession)) sampleSession 181000
              (Js.NotOk 500 "") eq_refl eq_refl)
    as (Hh & _ & _ & Ht).
  split; [exact Hh |]. rewrite Ht. split; [| reflexivity].
  right. right. right. left. reflexivity.
Defined.

Lemma continuing_sample :
  let st := samplePage UseInterview.initial in
  let r := InterviewPage.checkAndStartInterview 1 (Some "token")
             (Js.Ok [ sampleFinished; sampleHalfway ]) true (Js.Ok tt)
             (Some 2) 1000 (Js.Ok []) (Js.Ok sampleCreated)
             (Js.Ok (sampleFirstQuestion 0)) st in
  calls (Eff.trace r) = [ Api.GetInterviewSessions 1 ] /\
  prompts_of (Eff.trace r) = [ InterviewPage.confirmText 1 2 ] /\
  InterviewPage.sessionId (InterviewPage.interviewConfig (Eff.state r)) = Some 6.
Proof.
  cbv zeta.
  destruct (continuing_names_the_stored_session 1 (samplePage UseInterview.initial)
              (Some "token") [ sampleFinished; sampleHalfway ] sampleHalfway (Js.Ok tt)
              (Some 2) 1000 (Js.Ok []) (Js.Ok sampleCreated)
              (Js.Ok (sampleFirstQuestion 0)) eq_refl eq_refl eq_refl eq_refl)
    as (Ht & Hsid & _).
  rewrite Ht. split; [reflexivity |]. split; [reflexivity | exact Hsid].
Defined.

Lemma discarding_sample :
  let st := samplePage UseInterview.initial in
  let r := InterviewPage.checkAndStartInterview 1 (Some "token")
             (Js.Ok [ sampleFinished; sampleHalfway ]) false
             (Js.Rejected (Js.Error "Failed to fetch"))
             (Some 2) 1000 (Js.Ok []) (Js.Ok sampleCreated)
             (Js.Ok (sampleFirstQuestion 0)) st in
  Eff.state r = st /\
  calls (Eff.trace r) = [ Api.GetInterviewSessions 1; Api.EndInterview 1 6 ].
Proof.
  cbv zeta.
  pose proof (discarding_ends_before_starting 1 (samplePage UseInterview.initial)
                (Some "token") [ sampleFinished; sampleHalfway ] sampleHalfway
                (Js.Rejected (Js.Error "Failed to fetch"))
                (Some 2) 1000 (Js.Ok []) (Js.Ok sampleCreated)
                (Js.Ok (sampleFirstQuestion 0)) eq_refl eq_refl eq_refl eq_refl) as H.
  cbv zeta in H. rewrite H. split; reflexivity.
Defined.
